(** * Auraven front end: the upload / detect / present controller

    The repository ships three scripts for the same page:

    - the first mock-up (simulated detection, one static file input),
      embedded below as [Mockup];
    - [Main.js], the tabbed mock-up whose [updateUploader] rebuilds the
      input widget for each mode, embedded as [MainJs];
    - the backend-integrated controller ("MAIN.JS - Backend API
      Integration"), embedded as [Backend].

    Event handlers are embedded as functions from the page state to the
    new page state together with the list of effects they cause (alerts,
    network requests, timers).  An [async] handler is split at its
    [await]: the part before the [fetch] is one transition, the
    continuation that runs when the request settles is another.

    The page markup is not part of the sources, so a page is a value of
    the state record: the elements the scripts fetch without a guard are
    taken to exist, the ones they test before use are optional.  The
    accordions share no state with the rest and are modelled on their
    own; the border colour of the drop area during a drag and the
    console output are left out. *)

From Stdlib Require Import ZArith QArith Qround String List Lia.
From stdpp Require Import base option strings gmap pretty.

Local Open Scope string_scope.

(** ** The fragment of the JavaScript platform the scripts rely on *)

Module JS.

(** [x || d] for [x] a string or [undefined]: both [undefined] and the
    empty string are falsy. *)
Definition or_else (x : option string) (d : string) : string :=
  match x with
  | Some s => if String.eqb s "" then d else s
  | None => d
  end.

(** Truthiness of a string value. *)
Definition truthy (s : string) : bool := negb (String.eqb s "").

(** [s.startsWith(p)] *)
Definition startsWith (s p : string) : bool := String.prefix p s.

(** [s.includes(sub)] *)
Fixpoint includes (s sub : string) : bool :=
  String.prefix sub s ||
  match s with
  | EmptyString => false
  | String _ rest => includes rest sub
  end.

(** [Math.round]: the nearest integer, ties towards plus infinity.
    Numbers are taken as exact rationals. *)
Definition Math_round (x : Q) : Z := Qfloor (x + (1 # 2)).

(** String conversion of an integral number, as in [n + '%']. *)
Definition number_to_string (n : Z) : string := pretty n.

(** [response.ok] of the Fetch API: the status is in the range 200-299. *)
Definition response_ok (status : Z) : bool :=
  (200 <=? status)%Z && (status <=? 299)%Z.

End JS.

(** [element.classList] as a finite set of class names. *)
Module ClassList.
Definition add (c : string) (l : gset string) : gset string := {[ c ]} ∪ l.
Definition remove (c : string) (l : gset string) : gset string := l ∖ {[ c ]}.
Definition contains (c : string) (l : gset string) : bool := bool_decide (c ∈ l).
End ClassList.

(** A [File] object as the scripts use it: [name], [size] and [type]. *)
Record File := mkFile {
  file_name : string;
  file_size : N;
  file_type : string
}.

(** Markup assigned through [innerHTML], kept structured: a text node, a
    [<span class=... id=...>] with text inside, or an [<li>] item. *)
Inductive html :=
| Text (s : string)
| Span (cls : string) (id : option string) (inner : string)
| Li (inner : string).

(** [<span class="icon">i</span>] *)
Definition icon_span (i : string) : html := Span "icon" None i.

(** What a handler does besides changing the page. *)
Record request := mkRequest {
  req_method : string;
  req_url : string;
  req_file : option File   (** the [file] part of the multipart body *)
}.

Inductive effect :=
| Alert (msg : string)
| Fetch (r : request)
| SetTimeout (ms : Z) (width : string).  (** deferred [progressFill.style.width = width] *)

Definition is_fetch (e : effect) : bool :=
  match e with Fetch _ => true | _ => false end.

Definition requests_of (es : list effect) : list effect := filter is_fetch es.

Definition alerts_of (es : list effect) : list string :=
  omap (fun e => match e with Alert m => Some m | _ => None end) es.

(** ** The backend-integrated controller *)

Module Backend.

Definition API_BASE_URL : string := "http://127.0.0.1:8000".

(** The keys the object literal lists itself. *)
Definition LANGUAGE_MAP : gmap string string :=
  list_to_map
    [ ("English", "en"); ("isiZulu", "zu"); ("isiXhosa", "xh");
      ("Sesotho", "st"); ("Afrikaans", "af") ].

(** One row of [allTranslations]. *)
Record translations := mkTranslations {
  heroTitle : string;
  heroDesc : string;
  tabText : string;
  tabImage : string;
  tabVideo : string;
  checkBtn : string;
  resultsTitle : string;
  whatYouCanDo : string;
  howToSpot : string;
  footerText : string;
  fileSelected : string;
  noFileSelected : string
}.

Definition translations_en : translations := {|
  heroTitle := "Protect yourself from AI-generated content";
  heroDesc := "Analyze text, images, and videos to detect AI-generated content. Get education and insights to protect yourself from misinformation and scams.";
  tabText := "Text";
  tabImage := "Image";
  tabVideo := "Video";
  checkBtn := "Check Content";
  resultsTitle := "Detection Results";
  whatYouCanDo := "What You Can Do";
  howToSpot := "How to Spot AI Content";
  footerText := "Protecting South African communities from digital deception";
  fileSelected := "File selected";
  noFileSelected := "No file selected"
|}.

Definition translations_zu : translations := {|
  heroTitle := "Zivikele kokuqukethwe okudalwe yi-AI";
  heroDesc := "Hlaziya umbhalo, izithombe, namavidiyo ukuthola okuqukethwe okudalwe yi-AI. Thola imfundo nolwazi lokuzivikela ekwaziseni okungalungile nasemakhameni.";
  tabText := "Umbhalo";
  tabImage := "Isithombe";
  tabVideo := "Ividiyo";
  checkBtn := "Hlola Okuqukethwe";
  resultsTitle := "Imiphumela Yokuhlola";
  whatYouCanDo := "Ongakwenza";
  howToSpot := "Indlela Yokubona Okuqukethwe Kwe-AI";
  footerText := "Sivikela imiphakathi yaseNingizimu Afrika ekukhohliseni kwedijithali";
  fileSelected := "Ifayela likhethiwe";
  noFileSelected := "Alikho ifayela elikhethiwe"
|}.

Definition translations_xh : translations := {|
  heroTitle := "Zikhusele kumxholo oveliswe yi-AI";
  heroDesc := "Hlalutya umbhalo, imifanekiso, neevidiyo ukufumanisa umxholo oveliswe yi-AI. Fumana imfundo nolwazi lokuzikhusela kulwazi olungalunganga nakubuqhophololo.";
  tabText := "Umbhalo";
  tabImage := "Umfanekiso";
  tabVideo := "Ividiyo";
  checkBtn := "Hlola Umxholo";
  resultsTitle := "Iziphumo Zokuhlola";
  whatYouCanDo := "Into Onokuyenza";
  howToSpot := "Indlela Yokubona Umxholo We-AI";
  footerText := "Sikhusela uluntu lwaseMzantsi Afrika ekukhohliseni kwedijithali";
  fileSelected := "Ifayile ikhethiwe";
  noFileSelected := "Akukho fayile ekhethiweyo"
|}.

Definition translations_st : translations := {|
  heroTitle := "Itshireletse ho diteng tse hlahisitsweng ke AI";
  heroDesc := "Manollo mongolo, ditshwantsho, le divideo ho fumana diteng tse hlahisitsweng ke AI. Fumana thuto le tsebo ya ho itshireletsa ho tshediso e fosahetseng le dikgoka.";
  tabText := "Mongolo";
  tabImage := "Setshwantsho";
  tabVideo := "Video";
  checkBtn := "Hlahloba Diteng";
  resultsTitle := "Diphetho tsa Tlhahlobo";
  whatYouCanDo := "Seo o ka se etsang";
  howToSpot := "Mokhoa wa ho Bona Diteng tsa AI";
  footerText := "Ho sireletsa sechaba sa Afrika Borwa ho tsietso ya dijithale";
  fileSelected := "Faele e khethilwe";
  noFileSelected := "Ha ho faele e khethilweng"
|}.

Definition translations_af : translations := {|
  heroTitle := "Beskerm jouself teen KI-gegenereerde inhoud";
  heroDesc := "Ontleed teks, beelde en video's om KI-gegenereerde inhoud op te spoor. Kry opvoeding en insigte om jouself teen wanligting en boelstreke te beskerm.";
  tabText := "Teks";
  tabImage := "Beeld";
  tabVideo := "Video";
  checkBtn := "Kontroleer Inhoud";
  resultsTitle := "Opsporingsresultate";
  whatYouCanDo := "Wat Jy Kan Doen";
  howToSpot := "Hoe om KI-inhoud te Herken";
  footerText := "Beskerm Suid-Afrikaanse gemeenskappe teen digitale misleiding";
  fileSelected := "Lêer gekies";
  noFileSelected := "Geen lêer gekies nie"
|}.

Definition allTranslations : gmap string translations :=
  list_to_map
    [ ("en", translations_en); ("zu", translations_zu);
      ("xh", translations_xh); ("st", translations_st);
      ("af", translations_af) ].

(** [allTranslations[language] || allTranslations['en']] *)
Definition trans_for (language : string) : translations :=
  default translations_en (allTranslations !! language).

(** The [type] of a normalised result, fixed by the analyser that built it. *)
Inductive content_type := video | image | document.

(** The JSON body of a detection response.  The two core fields are
    taken as present; [message], [warning] and [confidence_label] are
    optional, the per-mode metadata is opaque. *)
Module Api.
Record detection_result := mkDetection {
  is_ai_generated : bool;
  confidence_score : Q;
  message : option string;
  warning : option string;
  confidence_label : option string
}.

Record data := mkData {
  detection : option detection_result;   (** [data.detection_result] *)
  video_info : option string;
  image_info : option string;
  document_info : option string;
  has_audio : option bool                (** [data.audio_info?.has_audio] *)
}.
End Api.

(** How a [fetch] settles: the promise rejects (transport failure), or
    a response with a status arrives whose body either fails to parse
    as JSON ([inl], the parser's message) or parses ([inr]). *)
Inductive outcome :=
| Rejected (reason : string)
| Responded (status : Z) (body : string + Api.data).

(** The record the three analysers return. *)
Record result := mkResult {
  type : content_type;
  isAI : bool;
  confidence : Q;
  message : string;
  warning : string;
  confidenceLabel : string;
  details : option string;
  hasAudio : option bool
}.

(** *** The page *)

Record tab := mkTab {
  data_tab : string;
  tab_classList : gset string;
  tab_html : list html
}.

Record lang_menu := mkMenu {
  langBtn_html : list html;
  langMenu_display : string;
  langMenu_aria_hidden : option string
}.

Record upload_area := mkUpload {
  fileInput_accept : string;
  fileInput_files : list File;
  fileName_text : string;        (** [fileNameDisplay.textContent] *)
  fileIcon_text : string;        (** [.file-icon .icon] inside the drop area *)
  fileSub_text : option string   (** [.file-sub], when the page has one *)
}.

Record check_button := mkButton {
  disabled : bool;
  textContent : string
}.

Record acc_header := mkAccHeader {
  has_iconWrap : bool;
  has_symbol : bool;
  header_text : string
}.

(** Elements with static text that [translateUIElements] looks up with a
    guard; [None] stands for a selector that finds nothing. *)
Record static_text := mkStatic {
  protectBtn_html : option (list html);
  heroDesc_text : option string;
  resultsTitle_text : option string;
  acc1Header : option acc_header;
  acc2Header : option acc_header;
  footerPill_html : option (list html)
}.

Record result_card := mkCard {
  statusIcon_html : list html;
  statusIcon_backgroundColor : string;
  statusIcon_color : string;
  resultCard_classList : gset string;
  resultHeading_html : list html;
  resultDesc_text : string;
  progressFill_width : string;
  acc1Body_html : list html
}.

Record state := mkState {
  currentLanguage : string;
  currentFile : option File;
  currentTab : string;
  uploader_classList : gset string;
  results_classList : gset string;
  menu : lang_menu;
  tabs : list tab;
  upload : upload_area;
  button : check_button;
  static : static_text;
  card : result_card;
  inflight : list content_type;   (** suspended check handlers, oldest first *)
  timers : list string            (** pending progress-bar callbacks *)
}.

(** Field updates. *)
Definition set_currentLanguage (v : string) (s : state) : state :=
  {| currentLanguage := v; currentFile := currentFile s;
     currentTab := currentTab s;
     uploader_classList := uploader_classList s;
     results_classList := results_classList s; menu := menu s;
     tabs := tabs s; upload := upload s; button := button s;
     static := static s; card := card s; inflight := inflight s;
     timers := timers s |}.

Definition set_currentFile (v : option File) (s : state) : state :=
  {| currentLanguage := currentLanguage s; currentFile := v;
     currentTab := currentTab s;
     uploader_classList := uploader_classList s;
     results_classList := results_classList s; menu := menu s;
     tabs := tabs s; upload := upload s; button := button s;
     static := static s; card := card s; inflight := inflight s;
     timers := timers s |}.

Definition set_currentTab (v : string) (s : state) : state :=
  {| currentLanguage := currentLanguage s; currentFile := currentFile s;
     currentTab := v; uploader_classList := uploader_classList s;
     results_classList := results_classList s; menu := menu s;
     tabs := tabs s; upload := upload s; button := button s;
     static := static s; card := card s; inflight := inflight s;
     timers := timers s |}.

Definition set_uploader_classList (v : gset string) (s : state) : state :=
  {| currentLanguage := currentLanguage s; currentFile := currentFile s;
     currentTab := currentTab s; uploader_classList := v;
     results_classList := results_classList s; menu := menu s;
     tabs := tabs s; upload := upload s; button := button s;
     static := static s; card := card s; inflight := inflight s;
     timers := timers s |}.

Definition set_results_classList (v : gset string) (s : state) : state :=
  {| currentLanguage := currentLanguage s; currentFile := currentFile s;
     currentTab := currentTab s;
     uploader_classList := uploader_classList s; results_classList := v;
     menu := menu s; tabs := tabs s; upload := upload s;
     button := button s; static := static s; card := card s;
     inflight := inflight s; timers := timers s |}.

Definition set_menu (v : lang_menu) (s : state) : state :=
  {| currentLanguage := currentLanguage s; currentFile := currentFile s;
     currentTab := currentTab s;
     uploader_classList := uploader_classList s;
     results_classList := results_classList s; menu := v; tabs := tabs s;
     upload := upload s; button := button s; static := static s;
     card := card s; inflight := inflight s; timers := timers s |}.

Definition set_tabs (v : list tab) (s : state) : state :=
  {| currentLanguage := currentLanguage s; currentFile := currentFile s;
     currentTab := currentTab s;
     uploader_classList := uploader_classList s;
     results_classList := results_classList s; menu := menu s; tabs := v;
     upload := upload s; button := button s; static := static s;
     card := card s; inflight := inflight s; timers := timers s |}.

Definition set_upload (v : upload_area) (s : state) : state :=
  {| currentLanguage := currentLanguage s; currentFile := currentFile s;
     currentTab := currentTab s;
     uploader_classList := uploader_classList s;
     results_classList := results_classList s; menu := menu s;
     tabs := tabs s; upload := v; button := button s; static := static s;
     card := card s; inflight := inflight s; timers := timers s |}.

Definition set_button (v : check_button) (s : state) : state :=
  {| currentLanguage := currentLanguage s; currentFile := currentFile s;
     currentTab := currentTab s;
     uploader_classList := uploader_classList s;
     results_classList := results_classList s; menu := menu s;
     tabs := tabs s; upload := upload s; button := v; static := static s;
     card := card s; inflight := inflight s; timers := timers s |}.

Definition set_static (v : static_text) (s : state) : state :=
  {| currentLanguage := currentLanguage s; currentFile := currentFile s;
     currentTab := currentTab s;
     uploader_classList := uploader_classList s;
     results_classList := results_classList s; menu := menu s;
     tabs := tabs s; upload := upload s; button := button s; static := v;
     card := card s; inflight := inflight s; timers := timers s |}.

Definition set_card (v : result_card) (s : state) : state :=
  {| currentLanguage := currentLanguage s; currentFile := currentFile s;
     currentTab := currentTab s;
     uploader_classList := uploader_classList s;
     results_classList := results_classList s; menu := menu s;
     tabs := tabs s; upload := upload s; button := button s;
     static := static s; card := v; inflight := inflight s;
     timers := timers s |}.

Definition set_inflight (v : list content_type) (s : state) : state :=
  {| currentLanguage := currentLanguage s; currentFile := currentFile s;
     currentTab := currentTab s;
     uploader_classList := uploader_classList s;
     results_classList := results_classList s; menu := menu s;
     tabs := tabs s; upload := upload s; button := button s;
     static := static s; card := card s; inflight := v;
     timers := timers s |}.

Definition set_timers (v : list string) (s : state) : state :=
  {| currentLanguage := currentLanguage s; currentFile := currentFile s;
     currentTab := currentTab s;
     uploader_classList := uploader_classList s;
     results_classList := results_classList s; menu := menu s;
     tabs := tabs s; upload := upload s; button := button s;
     static := static s; card := card s; inflight := inflight s;
     timers := v |}.

(** *** Section 2 of the script: page translation *)

(** [document.querySelector('[data-tab=key]').innerHTML = h], guarded:
    the first tab carrying that attribute value, if any. *)
Fixpoint set_tab_html (key : string) (h : list html) (ts : list tab) : list tab :=
  match ts with
  | [] => []
  | t :: rest =>
      if String.eqb (data_tab t) key
      then mkTab (data_tab t) (tab_classList t) h :: rest
      else t :: set_tab_html key h rest
  end.

(** An accordion header is rebuilt as icon wrapper, text, caret - only
    when both the wrapper and the caret are found. *)
Definition translate_header (text : string) (h : acc_header) : acc_header :=
  if has_iconWrap h && has_symbol h
  then mkAccHeader true true (text ++ " ")
  else h.

(** Step 7 of [translateUIElements]: the caption under the file name. *)
Definition translate_fileSub (trans : translations) (fileName : string)
    (fileSub : option string) : option string :=
  match fileSub with
  | Some caption =>
      if JS.includes caption "selected" then
        if negb (String.eqb fileName "No file selected")
        then Some (fileSelected trans)
        else Some (noFileSelected trans)
      else Some caption
  | None => None
  end.

Definition translateUIElements (language : string) (s : state) : state :=
  let trans := trans_for language in
  let st := static s in
  let up := upload s in
  let static' :=
    {| protectBtn_html :=
         (fun _ => [icon_span "◎"; Text (" " ++ heroTitle trans)]) <$> protectBtn_html st;
       heroDesc_text := (fun _ => heroDesc trans) <$> heroDesc_text st;
       resultsTitle_text := (fun _ => resultsTitle trans) <$> resultsTitle_text st;
       acc1Header := translate_header (whatYouCanDo trans) <$> acc1Header st;
       acc2Header := translate_header (howToSpot trans) <$> acc2Header st;
       footerPill_html :=
         (fun _ => [icon_span "◎"; Text (" " ++ footerText trans)]) <$> footerPill_html st |} in
  let tabs' :=
    set_tab_html "video" [icon_span "📹"; Text (" " ++ tabVideo trans)]
      (set_tab_html "image" [icon_span "🖼️"; Text (" " ++ tabImage trans)]
         (set_tab_html "text" [icon_span "📄"; Text (" " ++ tabText trans)] (tabs s))) in
  let button' :=
    if disabled (button s) then button s else mkButton false (checkBtn trans) in
  let upload' :=
    {| fileInput_accept := fileInput_accept up;
       fileInput_files := fileInput_files up;
       fileName_text := fileName_text up;
       fileIcon_text := fileIcon_text up;
       fileSub_text := translate_fileSub trans (fileName_text up) (fileSub_text up) |} in
  set_upload upload' (set_button button' (set_tabs tabs' (set_static static' s))).

(** [translatePage] only wraps [translateUIElements] in a [try]. *)
Definition translatePage (language : string) (s : state) : state :=
  translateUIElements language s.

(** *** Section 3: the language dropdown *)

Definition langBtn_click (s : state) : state :=
  let isHidden := String.eqb (langMenu_display (menu s)) "none" in
  set_menu
    {| langBtn_html := langBtn_html (menu s);
       langMenu_display := if isHidden then "block" else "none";
       langMenu_aria_hidden := Some (if isHidden then "false" else "true") |} s.

(** The listener on [document]: a click outside the menu closes it. *)
Definition document_click (s : state) : state :=
  set_menu
    {| langBtn_html := langBtn_html (menu s);
       langMenu_display := "none";
       langMenu_aria_hidden := Some "true" |} s.

Definition langItem_click (selectedLang : string) (s : state) : state :=
  let language := JS.or_else (LANGUAGE_MAP !! selectedLang) "en" in
  let s1 := set_currentLanguage language s in
  let s2 :=
    set_menu
      {| langBtn_html :=
           [icon_span "🌐"; Text (" " ++ selectedLang ++ " "); Span "caret" None "▾"];
         langMenu_display := "none";
         langMenu_aria_hidden := Some "true" |} s1 in
  translatePage language s2.

(** *** Section 4: tabs *)

Definition accept_for (currentTab old : string) : string :=
  if String.eqb currentTab "text" then ".txt,.pdf,.docx,.doc"
  else if String.eqb currentTab "image" then ".jpg,.jpeg,.png,.webp,.bmp"
  else if String.eqb currentTab "video" then ".mp4,.mov,.avi,.mkv,.webm"
  else old.

(** Click on the [i]-th tab [t]. *)
Definition tab_click (i : nat) (t : tab) (s : state) : state :=
  let cleared :=
    map (fun u => mkTab (data_tab u) (ClassList.remove "active" (tab_classList u)) (tab_html u))
        (tabs s) in
  let tabs' :=
    alter (fun u => mkTab (data_tab u) (ClassList.add "active" (tab_classList u)) (tab_html u))
          i cleared in
  let up := upload s in
  set_upload
    {| fileInput_accept := accept_for (data_tab t) (fileInput_accept up);
       fileInput_files := fileInput_files up;
       fileName_text := fileName_text up;
       fileIcon_text := fileIcon_text up;
       fileSub_text := fileSub_text up |}
    (set_currentTab (data_tab t) (set_tabs tabs' s)).

(** *** Section 5: file upload *)

(** The [change] listener of the file input; [e.target.files] is the
    input's current file list. *)
Definition fileInput_change (s : state) : state :=
  let up := upload s in
  match head (fileInput_files up) with
  | Some file =>
      set_upload
        {| fileInput_accept := fileInput_accept up;
           fileInput_files := fileInput_files up;
           fileName_text := file_name file;
           fileIcon_text :=
             if JS.startsWith (file_type file) "video/" then "📹"
             else if JS.startsWith (file_type file) "image/" then "🖼️"
             else "📄";
           fileSub_text := fileSub_text up |}
        (set_currentFile (Some file) s)
  | None => s
  end.

Definition set_files (files : list File) (s : state) : state :=
  let up := upload s in
  set_upload
    {| fileInput_accept := fileInput_accept up;
       fileInput_files := files;
       fileName_text := fileName_text up;
       fileIcon_text := fileIcon_text up;
       fileSub_text := fileSub_text up |} s.

(** The [drop] listener: a non-empty drop is handed to the file input
    and re-dispatched as a [change] event. *)
Definition dropArea_drop (files : list File) (s : state) : state :=
  match head files with
  | Some _ => fileInput_change (set_files files s)
  | None => s
  end.

Definition clearBtn_click (s : state) : state :=
  let up := upload s in
  set_results_classList (ClassList.remove "active" (results_classList s))
    (set_uploader_classList (ClassList.add "active" (uploader_classList s))
       (set_upload
          {| fileInput_accept := fileInput_accept up;
             fileInput_files := [];
             fileName_text := "No file selected";
             fileIcon_text := fileIcon_text up;
             fileSub_text := fileSub_text up |}
          (set_currentFile None s))).

(** *** Sections 6-8: the three API calls

    Each analyser builds a multipart body holding the file, posts it
    and suspends.  The [_request] function is the part before the
    [await], the [_resume] function the part after it: either a value
    is thrown ([inl], the error's message) or the result is returned. *)

Definition analyzeVideo_request (language : string) (file : File) : request :=
  {| req_method := "POST";
     req_url := API_BASE_URL ++ "/api/detect-with-audio?language=" ++ language;
     req_file := Some file |}.

Definition analyzeImage_request (language : string) (file : File) : request :=
  {| req_method := "POST";
     req_url := API_BASE_URL ++ "/api/detect-image?language=" ++ language;
     req_file := Some file |}.

Definition analyzeDocument_request (language : string) (file : File) : request :=
  {| req_method := "POST";
     req_url := API_BASE_URL ++ "/api/detect-document?language=" ++ language;
     req_file := Some file |}.

(** The message of the [TypeError] raised on reading a property of
    [undefined] (wording of V8; only its being an error matters). *)
Definition undefined_property_message (property : string) : string :=
  "Cannot read properties of undefined (reading '" ++ property ++ "')".

(** Common to the three analysers: [await fetch], the [response.ok]
    test, [await response.json()]. *)
Definition response_data (o : outcome) : string + Api.data :=
  match o with
  | Rejected reason => inl reason
  | Responded status body =>
      if negb (JS.response_ok status)
      then inl ("HTTP error! status: " ++ JS.number_to_string status)
      else body
  end.

Definition analyzeVideo_resume (o : outcome) : string + result :=
  match response_data o with
  | inl thrown => inl thrown
  | inr data =>
      match Api.detection data with
      | None => inl (undefined_property_message "is_ai_generated")
      | Some d =>
          inr {| type := video;
                 isAI := Api.is_ai_generated d;
                 confidence := Api.confidence_score d;
                 message := JS.or_else (Api.message d) "";
                 warning := JS.or_else (Api.warning d) "";
                 confidenceLabel := JS.or_else (Api.confidence_label d) "Confidence";
                 details := Api.video_info data;
                 hasAudio := Some (default false (Api.has_audio data)) |}
      end
  end.

Definition analyzeImage_resume (o : outcome) : string + result :=
  match response_data o with
  | inl thrown => inl thrown
  | inr data =>
      match Api.detection data with
      | None => inl (undefined_property_message "is_ai_generated")
      | Some d =>
          inr {| type := image;
                 isAI := Api.is_ai_generated d;
                 confidence := Api.confidence_score d;
                 message := JS.or_else (Api.message d) "";
                 warning := JS.or_else (Api.warning d) "";
                 confidenceLabel := JS.or_else (Api.confidence_label d) "Confidence";
                 details := Api.image_info data;
                 hasAudio := None |}
      end
  end.

Definition analyzeDocument_resume (o : outcome) : string + result :=
  match response_data o with
  | inl thrown => inl thrown
  | inr data =>
      match Api.detection data with
      | None => inl (undefined_property_message "is_ai_generated")
      | Some d =>
          inr {| type := document;
                 isAI := Api.is_ai_generated d;
                 confidence := Api.confidence_score d;
                 message := JS.or_else (Api.message d) "";
                 warning := JS.or_else (Api.warning d) "";
                 confidenceLabel := JS.or_else (Api.confidence_label d) "Confidence";
                 details := Api.document_info data;
                 hasAudio := None |}
      end
  end.

(** [GET /api/health], issued once when the script is loaded; its
    outcome is only logged. *)
Definition checkBackendHealth_request : request :=
  {| req_method := "GET"; req_url := API_BASE_URL ++ "/api/health"; req_file := None |}.

(** *** Sections 9-10: presenting a result *)

Definition updateAccordionContent (isAI : bool) (contentType : content_type)
    : list html :=
  if isAI then
    [ Li "Verify information from multiple trusted sources";
      Li "Look for the original source or creator";
      Li "Be cautious about sharing this content";
      Li "Report suspicious content to relevant platforms" ]
  else
    [ Li "This appears human-created, but always verify important information";
      Li "Check for updated information from the original source";
      Li "Consider the context and timing of the content" ].

Definition displayResults (r : result) (s : state) : state * list effect :=
  let confidence := JS.Math_round (confidence r) in
  let customMessage := message r in
  let warning := warning r in
  let confidenceLabel := JS.or_else (Some (confidenceLabel r)) "Confidence" in
  let badge :=
    Span "badge" (Some "confidenceBadge")
         (confidenceLabel ++ ": " ++ JS.number_to_string confidence ++ "%") in
  let classes := resultCard_classList (card s) in
  let card' :=
    if isAI r then
      {| statusIcon_html := [icon_span "⚠️"];
         statusIcon_backgroundColor := "#FFE8E8";
         statusIcon_color := "#D32F2F";
         resultCard_classList :=
           ClassList.add "ai-result" (ClassList.remove "human-result" classes);
         resultHeading_html :=
           [Text (JS.or_else (Some customMessage) "Likely AI-Generated" ++ " "); badge];
         resultDesc_text :=
           if JS.truthy warning then warning
           else match type r with
                | video => "This video shows patterns consistent with AI generation. Look for unnatural movements, inconsistent lighting, or irregular facial features."
                | image => "This image appears to be AI-generated. Check for distorted hands, unusual textures, or impossible reflections."
                | document => "This text shows characteristics typical of AI writing. Notice the formal tone and lack of personal anecdotes."
                end;
         progressFill_width := "0%";
         acc1Body_html := updateAccordionContent true (type r) |}
    else
      {| statusIcon_html := [icon_span "✓"];
         statusIcon_backgroundColor := "#E6F7E6";
         statusIcon_color := "#74D480";
         resultCard_classList :=
           ClassList.add "human-result" (ClassList.remove "ai-result" classes);
         resultHeading_html :=
           [Text (JS.or_else (Some customMessage) "Likely Human-Created" ++ " "); badge];
         resultDesc_text :=
           if JS.truthy warning then warning
           else match type r with
                | video => "The video displays natural motion, consistent lighting across frames, and authentic audio synchronization."
                | image => "This image shows characteristics of authentic photography with natural lighting and proper perspective."
                | document => "This text demonstrates natural human writing patterns with varied sentence structure and personal voice."
                end;
         progressFill_width := "0%";
         acc1Body_html := updateAccordionContent false (type r) |} in
  let target := JS.number_to_string confidence ++ "%" in
  (set_timers (timers s ++ [target]) (set_card card' s), [SetTimeout 100 target]).

(** The timer callback: the bar takes its final width. *)
Definition progress_timeout (s : state) : state :=
  match timers s with
  | [] => s
  | width :: rest =>
      let c := card s in
      set_timers rest
        (set_card
           {| statusIcon_html := statusIcon_html c;
              statusIcon_backgroundColor := statusIcon_backgroundColor c;
              statusIcon_color := statusIcon_color c;
              resultCard_classList := resultCard_classList c;
              resultHeading_html := resultHeading_html c;
              resultDesc_text := resultDesc_text c;
              progressFill_width := width;
              acc1Body_html := acc1Body_html c |} s)
  end.

(** *** The check button (section 5, "MAIN DETECTION") *)

Definition EmptyInput : string := "Please select a file first!".

(** The [finally] block. *)
Definition finally_block (s : state) : state :=
  set_button (mkButton false "Check Content") s.

(** The [catch] block followed by [finally]. *)
Definition catch_block (message : string) (s : state) : state * list effect :=
  (finally_block s, [Alert ("Error: " ++ message)]).

(** The listener up to its first [await].  With a tab the routing does
    not know, [result] stays [undefined] and [displayResults] throws at
    once, so the handler finishes without suspending. *)
Definition checkBtn_click (s : state) : state * list effect :=
  match currentFile s with
  | None => (s, [Alert EmptyInput])
  | Some file =>
      let loading := set_button (mkButton true "Analyzing...") s in
      if String.eqb (currentTab s) "video" then
        (set_inflight (inflight s ++ [video]) loading,
         [Fetch (analyzeVideo_request (currentLanguage s) file)])
      else if String.eqb (currentTab s) "image" then
        (set_inflight (inflight s ++ [image]) loading,
         [Fetch (analyzeImage_request (currentLanguage s) file)])
      else if String.eqb (currentTab s) "text" then
        (set_inflight (inflight s ++ [document]) loading,
         [Fetch (analyzeDocument_request (currentLanguage s) file)])
      else catch_block (undefined_property_message "isAI") loading
  end.

Definition analyze_resume (t : content_type) (o : outcome) : string + result :=
  match t with
  | video => analyzeVideo_resume o
  | image => analyzeImage_resume o
  | document => analyzeDocument_resume o
  end.

(** The rest of the listener, run when the request of analyser [t]
    settles with [o]. *)
Definition checkBtn_resume (t : content_type) (o : outcome) (s : state)
    : state * list effect :=
  match analyze_resume t o with
  | inl thrown => catch_block thrown s
  | inr r =>
      let '(shown, effects) := displayResults r s in
      (finally_block
         (set_results_classList (ClassList.add "active" (results_classList shown))
            (set_uploader_classList
               (ClassList.remove "active" (uploader_classList shown)) shown)),
       effects)
  end.

(** *** Section 1: initialisation *)

(** [initializeApp] on the page as parsed, with the script's globals at
    their initial values. *)
Definition initializeApp (page : state) : state :=
  let s0 :=
    set_timers [] (set_inflight []
      (set_currentTab "video" (set_currentFile None (set_currentLanguage "en" page)))) in
  let s1 :=
    set_results_classList (ClassList.remove "active" (results_classList s0))
      (set_uploader_classList (ClassList.add "active" (uploader_classList s0)) s0) in
  set_menu
    {| langBtn_html := langBtn_html (menu s1);
       langMenu_display := "none";
       langMenu_aria_hidden := langMenu_aria_hidden (menu s1) |} s1.

(** *** The event loop

    A click runs the listener of its target and then, unless the
    listener stopped propagation or the target lies inside the language
    menu, the listener on [document].  A disabled button dispatches no
    click at all. *)

Inductive target :=
| LangBtn
| LangItem (text : string)
| Tab (i : nat)
| ClearBtn
| CheckBtn
| Elsewhere.

Inductive event :=
| Click (t : target)
| Change (files : list File)    (** the user picks files in the file input *)
| DropFiles (files : list File)
| Settle (o : outcome)          (** the oldest pending request settles *)
| TimerFires.                      (** the oldest progress-bar timer fires *)

Definition click (t : target) (s : state) : state * list effect :=
  match t with
  | LangBtn => (langBtn_click s, [])
  | LangItem text => (langItem_click text s, [])
  | Tab i =>
      match tabs s !! i with
      | Some t => (document_click (tab_click i t s), [])
      | None => (document_click s, [])
      end
  | ClearBtn => (document_click (clearBtn_click s), [])
  | CheckBtn =>
      if disabled (button s) then (s, [])
      else let '(s', effects) := checkBtn_click s in (document_click s', effects)
  | Elsewhere => (document_click s, [])
  end.

Definition step (e : event) (s : state) : state * list effect :=
  match e with
  | Click t => click t s
  | Change files => (fileInput_change (set_files files s), [])
  | DropFiles files => (dropArea_drop files s, [])
  | Settle o =>
      match inflight s with
      | [] => (s, [])
      | t :: rest => checkBtn_resume t o (set_inflight rest s)
      end
  | TimerFires => (progress_timeout s, [])
  end.

(** Running a sequence of events, collecting the effects. *)
Fixpoint run (es : list event) (s : state) : state * list effect :=
  match es with
  | [] => (s, [])
  | e :: rest =>
      let '(s1, effects1) := step e s in
      let '(s2, effects2) := run rest s1 in
      (s2, (effects1 ++ effects2)%list)
  end.

(** The projections the specification calls the view-state store. *)
Definition uploader_active (s : state) : bool :=
  ClassList.contains "active" (uploader_classList s).

Definition results_active (s : state) : bool :=
  ClassList.contains "active" (results_classList s).

Inductive PanelState := Uploading | ShowingResults.

(** The panel a page shows, when exactly one of the two is active. *)
Definition panel (s : state) : option PanelState :=
  match uploader_active s, results_active s with
  | true, false => Some Uploading
  | false, true => Some ShowingResults
  | _, _ => None
  end.

End Backend.

(** ** The first mock-up: simulated detection on a static page *)

Module Mockup.

Record lang_menu := mkMenu {
  langBtn_html : list html;
  langMenu_display : string;
  langMenu_aria_hidden : option string
}.

Record result_slots := mkSlots {
  statusIcon_html : list html;
  resultHeading_html : list html;
  resultDesc_text : string;
  progressFill_width : string
}.

Record state := mkState {
  uploader_classList : gset string;
  results_classList : gset string;
  menu : lang_menu;
  tabs : list (gset string);      (** the class lists of the [.tab] elements *)
  fileInput_files : list File;
  fileName_text : string;
  slots : result_slots;
  timers : list string
}.

(** Field updates. *)
Definition set_uploader_classList (v : gset string) (s : state) : state :=
  {| uploader_classList := v; results_classList := results_classList s;
     menu := menu s; tabs := tabs s; fileInput_files := fileInput_files s;
     fileName_text := fileName_text s; slots := slots s;
     timers := timers s |}.

Definition set_results_classList (v : gset string) (s : state) : state :=
  {| uploader_classList := uploader_classList s; results_classList := v;
     menu := menu s; tabs := tabs s; fileInput_files := fileInput_files s;
     fileName_text := fileName_text s; slots := slots s;
     timers := timers s |}.

Definition set_menu (v : lang_menu) (s : state) : state :=
  {| uploader_classList := uploader_classList s;
     results_classList := results_classList s; menu := v; tabs := tabs s;
     fileInput_files := fileInput_files s;
     fileName_text := fileName_text s; slots := slots s;
     timers := timers s |}.

Definition set_tabs (v : list (gset string)) (s : state) : state :=
  {| uploader_classList := uploader_classList s;
     results_classList := results_classList s; menu := menu s; tabs := v;
     fileInput_files := fileInput_files s;
     fileName_text := fileName_text s; slots := slots s;
     timers := timers s |}.

Definition set_fileInput_files (v : list File) (s : state) : state :=
  {| uploader_classList := uploader_classList s;
     results_classList := results_classList s; menu := menu s;
     tabs := tabs s; fileInput_files := v;
     fileName_text := fileName_text s; slots := slots s;
     timers := timers s |}.

Definition set_fileName_text (v : string) (s : state) : state :=
  {| uploader_classList := uploader_classList s;
     results_classList := results_classList s; menu := menu s;
     tabs := tabs s; fileInput_files := fileInput_files s;
     fileName_text := v; slots := slots s; timers := timers s |}.

Definition set_slots (v : result_slots) (s : state) : state :=
  {| uploader_classList := uploader_classList s;
     results_classList := results_classList s; menu := menu s;
     tabs := tabs s; fileInput_files := fileInput_files s;
     fileName_text := fileName_text s; slots := v; timers := timers s |}.

Definition set_timers (v : list string) (s : state) : state :=
  {| uploader_classList := uploader_classList s;
     results_classList := results_classList s; menu := menu s;
     tabs := tabs s; fileInput_files := fileInput_files s;
     fileName_text := fileName_text s; slots := slots s; timers := v |}.

(** The language button toggles the menu; the flag is named [isHidden]
    in the script although it holds "is shown". *)
Definition langBtn_click (s : state) : state :=
  let isHidden := String.eqb (langMenu_display (menu s)) "block" in
  set_menu
    {| langBtn_html := langBtn_html (menu s);
       langMenu_display := if isHidden then "none" else "block";
       langMenu_aria_hidden := Some (if isHidden then "true" else "false") |} s.

Definition document_click (s : state) : state :=
  set_menu
    {| langBtn_html := langBtn_html (menu s);
       langMenu_display := "none";
       langMenu_aria_hidden := Some "true" |} s.

Definition langItem_click (text : string) (s : state) : state :=
  set_menu
    {| langBtn_html := [icon_span "🌐"; Text (" " ++ text ++ " "); Span "caret" None "▾"];
       langMenu_display := "none";
       langMenu_aria_hidden := Some "true" |} s.

Definition progress_timeout (s : state) : state :=
  match timers s with
  | [] => s
  | width :: rest =>
      let r := slots s in
      set_timers rest
        (set_slots
           {| statusIcon_html := statusIcon_html r;
              resultHeading_html := resultHeading_html r;
              resultDesc_text := resultDesc_text r;
              progressFill_width := width |} s)
  end.

Definition tab_click (i : nat) (s : state) : state :=
  set_tabs (alter (ClassList.add "active") i (map (ClassList.remove "active") (tabs s))) s.

Definition fileInput_change (s : state) : state :=
  match head (fileInput_files s) with
  | Some file => set_fileName_text (file_name file) s
  | None => set_fileName_text "No file selected" s
  end.

Definition clearBtn_click (s : state) : state :=
  set_results_classList (ClassList.remove "active" (results_classList s))
    (set_uploader_classList (ClassList.add "active" (uploader_classList s))
       (set_fileName_text "No file selected" (set_fileInput_files [] s))).

(** "UI Flow: Hide Uploader and show Results", then the canned result. *)
Definition checkBtn_click (s : state) : state * list effect :=
  let confidence := 91%Z in
  let s1 :=
    set_results_classList (ClassList.add "active" (results_classList s))
      (set_uploader_classList (ClassList.remove "active" (uploader_classList s)) s) in
  let shown :=
    {| statusIcon_html := [icon_span "✓"];
       resultHeading_html :=
         [Text "Likely Human-Created ";
          Span "badge" (Some "confidenceBadge")
               ("Confidence: " ++ JS.number_to_string confidence ++ "%")];
       resultDesc_text := "The video displays natural motion, consistent lighting across frames, and authentic audio synchronization.";
       progressFill_width := "0%" |} in
  let target := JS.number_to_string confidence ++ "%" in
  (set_timers (timers s ++ [target]) (set_slots shown s1), [SetTimeout 100 target]).

(** The statements the script runs when it is loaded. *)
Definition load (page : state) : state :=
  let s1 :=
    set_results_classList (ClassList.remove "active" (results_classList page))
      (set_uploader_classList (ClassList.add "active" (uploader_classList page)) page) in
  let s2 := set_timers [] (set_fileName_text "IMG_0650.MOV" s1) in
  set_menu
    {| langBtn_html := langBtn_html (menu s2);
       langMenu_display := "none";
       langMenu_aria_hidden := langMenu_aria_hidden (menu s2) |} s2.

Inductive target := LangBtn | LangItem (text : string) | Tab (i : nat)
                  | ClearBtn | CheckBtn | Elsewhere.

Inductive event := Click (t : target) | Change (files : list File) | TimerFires.

Definition step (e : event) (s : state) : state * list effect :=
  match e with
  | Click LangBtn => (langBtn_click s, [])
  | Click (LangItem text) => (langItem_click text s, [])
  | Click (Tab i) => (document_click (tab_click i s), [])
  | Click ClearBtn => (document_click (clearBtn_click s), [])
  | Click CheckBtn =>
      let '(s', effects) := checkBtn_click s in (document_click s', effects)
  | Click Elsewhere => (document_click s, [])
  | Change files => (fileInput_change (set_fileInput_files files s), [])
  | TimerFires => (progress_timeout s, [])
  end.

Definition uploader_active (s : state) : bool :=
  ClassList.contains "active" (uploader_classList s).

Definition results_active (s : state) : bool :=
  ClassList.contains "active" (results_classList s).

End Mockup.

(** ** [Main.js]: the tabbed mock-up *)

Module MainJs.

Record lang_menu := mkMenu {
  langBtn_html : list html;
  langMenu_display : string;
  langMenu_aria_hidden : option string
}.

Record result_slots := mkSlots {
  statusIcon_html : list html;
  resultHeading_html : list html;
  resultDesc_text : string;
  progressFill_width : string
}.

Record tab := mkTab {
  data_tab : string;              (** [tab.dataset.tab] *)
  tab_classList : gset string
}.

(** What [updateUploader] leaves inside the drop area: a text box with
    the text typed so far, or a file input ([accept], chosen files)
    with its preview (icon, file name, caption). *)
Inductive drop_content :=
| TextArea (value : string)
| FileInput (accept : string) (files : list File)
            (icon fileName fileSub : string).

Record state := mkState {
  currentMode : string;
  dropArea : drop_content;
  uploader_classList : gset string;
  results_classList : gset string;
  menu : lang_menu;
  tabs : list tab;
  slots : result_slots;
  timers : list string
}.

(** Field updates. *)
Definition set_currentMode (v : string) (s : state) : state :=
  {| currentMode := v; dropArea := dropArea s;
     uploader_classList := uploader_classList s;
     results_classList := results_classList s; menu := menu s;
     tabs := tabs s; slots := slots s; timers := timers s |}.

Definition set_dropArea (v : drop_content) (s : state) : state :=
  {| currentMode := currentMode s; dropArea := v;
     uploader_classList := uploader_classList s;
     results_classList := results_classList s; menu := menu s;
     tabs := tabs s; slots := slots s; timers := timers s |}.

Definition set_uploader_classList (v : gset string) (s : state) : state :=
  {| currentMode := currentMode s; dropArea := dropArea s;
     uploader_classList := v; results_classList := results_classList s;
     menu := menu s; tabs := tabs s; slots := slots s;
     timers := timers s |}.

Definition set_results_classList (v : gset string) (s : state) : state :=
  {| currentMode := currentMode s; dropArea := dropArea s;
     uploader_classList := uploader_classList s; results_classList := v;
     menu := menu s; tabs := tabs s; slots := slots s;
     timers := timers s |}.

Definition set_menu (v : lang_menu) (s : state) : state :=
  {| currentMode := currentMode s; dropArea := dropArea s;
     uploader_classList := uploader_classList s;
     results_classList := results_classList s; menu := v; tabs := tabs s;
     slots := slots s; timers := timers s |}.

Definition set_tabs (v : list tab) (s : state) : state :=
  {| currentMode := currentMode s; dropArea := dropArea s;
     uploader_classList := uploader_classList s;
     results_classList := results_classList s; menu := menu s; tabs := v;
     slots := slots s; timers := timers s |}.

Definition set_slots (v : result_slots) (s : state) : state :=
  {| currentMode := currentMode s; dropArea := dropArea s;
     uploader_classList := uploader_classList s;
     results_classList := results_classList s; menu := menu s;
     tabs := tabs s; slots := v; timers := timers s |}.

Definition set_timers (v : list string) (s : state) : state :=
  {| currentMode := currentMode s; dropArea := dropArea s;
     uploader_classList := uploader_classList s;
     results_classList := results_classList s; menu := menu s;
     tabs := tabs s; slots := slots s; timers := v |}.

(** The language button toggles the menu; the flag is named [isHidden]
    in the script although it holds "is shown". *)
Definition langBtn_click (s : state) : state :=
  let isHidden := String.eqb (langMenu_display (menu s)) "block" in
  set_menu
    {| langBtn_html := langBtn_html (menu s);
       langMenu_display := if isHidden then "none" else "block";
       langMenu_aria_hidden := Some (if isHidden then "true" else "false") |} s.

Definition document_click (s : state) : state :=
  set_menu
    {| langBtn_html := langBtn_html (menu s);
       langMenu_display := "none";
       langMenu_aria_hidden := Some "true" |} s.

Definition langItem_click (text : string) (s : state) : state :=
  set_menu
    {| langBtn_html := [icon_span "🌐"; Text (" " ++ text ++ " "); Span "caret" None "▾"];
       langMenu_display := "none";
       langMenu_aria_hidden := Some "true" |} s.

Definition progress_timeout (s : state) : state :=
  match timers s with
  | [] => s
  | width :: rest =>
      let r := slots s in
      set_timers rest
        (set_slots
           {| statusIcon_html := statusIcon_html r;
              resultHeading_html := resultHeading_html r;
              resultDesc_text := resultDesc_text r;
              progressFill_width := width |} s)
  end.

Definition updateUploader (mode : string) (s : state) : state :=
  set_dropArea
    (if String.eqb mode "text" then TextArea ""
     else FileInput (if String.eqb mode "image" then "image/*" else "video/*")
                    []
                    (if String.eqb mode "image" then "🖼️" else "📹")
                    "No file selected"
                    ("Choose a " ++ mode ++ " file"))
    (set_currentMode mode s).

Definition tab_click (i : nat) (t : tab) (s : state) : state :=
  let cleared :=
    map (fun u => mkTab (data_tab u) (ClassList.remove "active" (tab_classList u))) (tabs s) in
  let tabs' :=
    alter (fun u => mkTab (data_tab u) (ClassList.add "active" (tab_classList u))) i cleared in
  updateUploader (data_tab t) (set_tabs tabs' s).

(** The [change] listener [updateUploader] attaches to a new file input. *)
Definition newInput_change (s : state) : state :=
  match dropArea s with
  | FileInput accept files icon _ fileSub =>
      match head files with
      | Some file => set_dropArea (FileInput accept files icon (file_name file) fileSub) s
      | None => set_dropArea (FileInput accept files icon "No file selected" fileSub) s
      end
  | TextArea _ => s
  end.

Definition clearBtn_click (s : state) : state :=
  let s1 := updateUploader (currentMode s) s in
  set_results_classList (ClassList.remove "active" (results_classList s1))
    (set_uploader_classList (ClassList.add "active" (uploader_classList s1)) s1).

Definition checkBtn_click (s : state) : state * list effect :=
  let s1 :=
    set_results_classList (ClassList.add "active" (results_classList s))
      (set_uploader_classList (ClassList.add "active" (uploader_classList s)) s) in
  let confidence := 91%Z in
  let shown :=
    {| statusIcon_html := [icon_span "✓"];
       resultHeading_html :=
         [Text "Likely Human-Created ";
          Span "badge" (Some "confidenceBadge")
               ("Confidence: " ++ JS.number_to_string confidence ++ "%")];
       resultDesc_text :=
         if String.eqb (currentMode s) "text"
         then "The writing style appears natural and contextually coherent."
         else if String.eqb (currentMode s) "image"
         then "The image shows realistic lighting, proportions, and metadata."
         else "The video displays natural motion and authentic audio sync.";
       progressFill_width := "0%" |} in
  let target := JS.number_to_string confidence ++ "%" in
  (set_timers (timers s ++ [target]) (set_slots shown s1), [SetTimeout 100 target]).

(** The statements the script runs when it is loaded. *)
Definition load (page : state) : state :=
  let s1 :=
    set_results_classList (ClassList.remove "active" (results_classList page))
      (set_uploader_classList (ClassList.add "active" (uploader_classList page)) page) in
  let s2 := updateUploader "video" (set_timers [] s1) in
  set_menu
    {| langBtn_html := langBtn_html (menu s2);
       langMenu_display := "none";
       langMenu_aria_hidden := langMenu_aria_hidden (menu s2) |} s2.

Inductive target := LangBtn | LangItem (text : string) | Tab (i : nat)
                  | ClearBtn | CheckBtn | Elsewhere.

Inductive event :=
| Click (t : target)
| Change (files : list File)    (** the user picks files in the file input *)
| Input (text : string)         (** the user edits the text box *)
| TimerFires.

(** What the user does to the widget before any listener runs. *)
Definition choose_files (files : list File) (s : state) : state :=
  match dropArea s with
  | FileInput accept _ icon fileName fileSub =>
      set_dropArea (FileInput accept files icon fileName fileSub) s
  | TextArea _ => s
  end.

Definition type_text (text : string) (s : state) : state :=
  match dropArea s with
  | TextArea _ => set_dropArea (TextArea text) s
  | FileInput _ _ _ _ _ => s
  end.

Definition step (e : event) (s : state) : state * list effect :=
  match e with
  | Click LangBtn => (langBtn_click s, [])
  | Click (LangItem text) => (langItem_click text s, [])
  | Click (Tab i) =>
      match tabs s !! i with
      | Some t => (document_click (tab_click i t s), [])
      | None => (document_click s, [])
      end
  | Click ClearBtn => (document_click (clearBtn_click s), [])
  | Click CheckBtn =>
      let '(s', effects) := checkBtn_click s in (document_click s', effects)
  | Click Elsewhere => (document_click s, [])
  | Change files => (newInput_change (choose_files files s), [])
  | Input text => (type_text text s, [])
  | TimerFires => (progress_timeout s, [])
  end.

(** The staged input: the text typed, or the first chosen file. *)
Definition staged (s : state) : option (string + File) :=
  match dropArea s with
  | TextArea value => if String.eqb value "" then None else Some (inl value)
  | FileInput _ files _ _ _ => inr <$> head files
  end.

(** The [accept] constraint of the widget on show; a text box has none. *)
Definition accept_of (s : state) : option string :=
  match dropArea s with
  | TextArea _ => None
  | FileInput accept _ _ _ _ => Some accept
  end.

Definition uploader_active (s : state) : bool :=
  ClassList.contains "active" (uploader_classList s).

Definition results_active (s : state) : bool :=
  ClassList.contains "active" (results_classList s).

End MainJs.

(** ** Sample pages and inputs used in the examples below *)

Module Fixtures.

Definition clip : File := mkFile "clip.mp4" 1048576 "video/mp4".
Definition photo : File := mkFile "photo.png" 2048 "image/png".

(** A page for the backend-integrated controller as the markup would
    deliver it: English texts, three tabs, nothing selected. *)
Definition backend_page : Backend.state :=
  {| Backend.currentLanguage := "en";
     Backend.currentFile := None;
     Backend.currentTab := "video";
     Backend.uploader_classList := {[ "uploader"; "active" ]};
     Backend.results_classList := {[ "results" ]};
     Backend.menu :=
       {| Backend.langBtn_html :=
            [icon_span "🌐"; Text " English "; Span "caret" None "▾"];
          Backend.langMenu_display := "";
          Backend.langMenu_aria_hidden := Some "true" |};
     Backend.tabs :=
       [ Backend.mkTab "text" {[ "tab" ]} [icon_span "📄"; Text " Text"];
         Backend.mkTab "image" {[ "tab" ]} [icon_span "🖼️"; Text " Image"];
         Backend.mkTab "video" {[ "tab"; "active" ]} [icon_span "📹"; Text " Video"] ];
     Backend.upload :=
       {| Backend.fileInput_accept := ".mp4,.mov,.avi,.mkv,.webm";
          Backend.fileInput_files := [];
          Backend.fileName_text := "No file selected";
          Backend.fileIcon_text := "📹";
          Backend.fileSub_text := Some "No file selected" |};
     Backend.button := Backend.mkButton false "Check Content";
     Backend.static :=
       {| Backend.protectBtn_html :=
            Some [icon_span "◎"; Text " Protect yourself from AI-generated content"];
          Backend.heroDesc_text := Some "Analyze text, images, and videos.";
          Backend.resultsTitle_text := Some "Detection Results";
          Backend.acc1Header := Some (Backend.mkAccHeader true true "What You Can Do ");
          Backend.acc2Header := Some (Backend.mkAccHeader true true "How to Spot AI Content ");
          Backend.footerPill_html := Some [icon_span "◎"; Text " Auraven"] |};
     Backend.card :=
       {| Backend.statusIcon_html := [];
          Backend.statusIcon_backgroundColor := "";
          Backend.statusIcon_color := "";
          Backend.resultCard_classList := {[ "result-card" ]};
          Backend.resultHeading_html := [];
          Backend.resultDesc_text := "";
          Backend.progressFill_width := "";
          Backend.acc1Body_html := [] |};
     Backend.inflight := [];
     Backend.timers := [] |}.

Definition backend_start : Backend.state := Backend.initializeApp backend_page.

(** The same page with [clip] chosen in the file input. *)
Definition backend_staged : Backend.state :=
  fst (Backend.step (Backend.Change [clip]) backend_start).

(** ... and its check button pressed: one request is pending. *)
Definition backend_waiting : Backend.state :=
  fst (Backend.step (Backend.Click Backend.CheckBtn) backend_staged).

(** A detection body: AI-generated at 91.4, no optional field. *)
Definition ai_91_4 : Backend.Api.data :=
  {| Backend.Api.detection :=
       Some {| Backend.Api.is_ai_generated := true;
               Backend.Api.confidence_score := 914 # 10;
               Backend.Api.message := None;
               Backend.Api.warning := None;
               Backend.Api.confidence_label := None |};
     Backend.Api.video_info := None;
     Backend.Api.image_info := None;
     Backend.Api.document_info := None;
     Backend.Api.has_audio := None |}.

(** A page for the two mock-ups. *)
Definition mockup_page : Mockup.state :=
  {| Mockup.uploader_classList := {[ "uploader" ]};
     Mockup.results_classList := {[ "results" ]};
     Mockup.menu :=
       {| Mockup.langBtn_html := [icon_span "🌐"; Text " English "; Span "caret" None "▾"];
          Mockup.langMenu_display := "";
          Mockup.langMenu_aria_hidden := Some "true" |};
     Mockup.tabs := [ {[ "tab" ]}; {[ "tab" ]}; {[ "tab"; "active" ]} ];
     Mockup.fileInput_files := [];
     Mockup.fileName_text := "";
     Mockup.slots := Mockup.mkSlots [] [] "" "";
     Mockup.timers := [] |}.

Definition mainjs_page : MainJs.state :=
  {| MainJs.currentMode := "video";
     MainJs.dropArea := MainJs.FileInput "" [] "" "" "";
     MainJs.uploader_classList := {[ "uploader" ]};
     MainJs.results_classList := {[ "results" ]};
     MainJs.menu :=
       {| MainJs.langBtn_html := [icon_span "🌐"; Text " English "; Span "caret" None "▾"];
          MainJs.langMenu_display := "";
          MainJs.langMenu_aria_hidden := Some "true" |};
     MainJs.tabs :=
       [ MainJs.mkTab "text" {[ "tab" ]};
         MainJs.mkTab "image" {[ "tab" ]};
         MainJs.mkTab "video" {[ "tab"; "active" ]} ];
     MainJs.slots := MainJs.mkSlots [] [] "" "";
     MainJs.timers := [] |}.

Definition mainjs_start : MainJs.state := MainJs.load mainjs_page.

End Fixtures.

(** ** Vocabulary of the specification, on the backend controller *)

Module Spec.
Import Backend.

(** A dispatch ends without success: the transport fails, or the
    response carries a status outside the success range. *)
Definition failed (o : outcome) : bool :=
  match o with
  | Rejected _ => true
  | Responded status _ => negb (JS.response_ok status)
  end.

(** A body of a successful response, built from its five fields. *)
Definition body_of (d : Api.detection_result) : Api.data :=
  {| Api.detection := Some d;
     Api.video_info := None;
     Api.image_info := None;
     Api.document_info := None;
     Api.has_audio := None |}.

(** The request gate: nothing is pending, or exactly one request is
    pending and the check button is disabled. *)
Definition gate (s : state) : Prop :=
  inflight s = [] \/ (disabled (button s) = true /\ exists t, inflight s = [t]).

(** The two panels are never active together, nor both inactive. *)
Definition exclusive (s : state) : Prop :=
  uploader_active s = negb (results_active s).

(** The heading and the description a page shows once the request of
    analyser [t] has settled with body [data], under [language]. *)
Definition shown_texts (language : string) (t : content_type) (data : Api.data)
    (s : state) : list html * string :=
  let c := card (fst (checkBtn_resume t (Responded 200 (inr data))
                        (set_currentLanguage language s))) in
  (resultHeading_html c, resultDesc_text c).

(** A detection body: human-created at 80, no optional field. *)
Definition human_80 : Api.data :=
  body_of {| Api.is_ai_generated := false;
             Api.confidence_score := 80;
             Api.message := None;
             Api.warning := None;
             Api.confidence_label := None |}.

End Spec.

(** ** The accordions

    [initAccordions] of the controller (section 11) and the accordion
    blocks of the two mock-ups give every [.accordion] the same listener;
    they touch no other element.  An accordion is its body's class list
    and its caret symbol. *)

Module Accordion.

Record accordion := mkAccordion {
  body_classList : gset string;
  symbol_transform : string;
  symbol_textContent : string
}.

(** [classList.toggle(c)] *)
Definition toggle (c : string) (l : gset string) : gset string :=
  if ClassList.contains c l then ClassList.remove c l else ClassList.add c l.

(** [updateSymbol]; the mock-ups ([caret = true]) also write the caret
    character into the symbol, the controller does not. *)
Definition updateSymbol (caret : bool) (a : accordion) : accordion :=
  let isOpen := ClassList.contains "show" (body_classList a) in
  {| body_classList := body_classList a;
     symbol_transform := if isOpen then "rotate(180deg)" else "rotate(0deg)";
     symbol_textContent := if caret then "^" else symbol_textContent a |}.

(** The click listener of one header. *)
Definition header_click (caret : bool) (a : accordion) : accordion :=
  updateSymbol caret
    {| body_classList := toggle "show" (body_classList a);
       symbol_transform := symbol_transform a;
       symbol_textContent := symbol_textContent a |}.

(** The loop over [document.querySelectorAll('.accordion')]. *)
Definition initAccordions (caret : bool) (page : list accordion) : list accordion :=
  map (updateSymbol caret) page.

(** A click on the header of the [i]-th accordion. *)
Definition click (caret : bool) (i : nat) (accs : list accordion) : list accordion :=
  alter (header_click caret) i accs.

Fixpoint clicks (caret : bool) (indices : list nat) (accs : list accordion)
    : list accordion :=
  match indices with
  | [] => accs
  | i :: rest => clicks caret rest (click caret i accs)
  end.

Definition is_open (a : accordion) : bool :=
  ClassList.contains "show" (body_classList a).

End Accordion.

(** ** Event sequences of the two mock-ups *)

Module Loop.

Fixpoint run {St Ev : Type} (step : Ev -> St -> St * list effect)
    (es : list Ev) (s : St) : St * list effect :=
  match es with
  | [] => (s, [])
  | e :: rest =>
      let '(s1, effects1) := step e s in
      let '(s2, effects2) := run step rest s1 in
      (s2, (effects1 ++ effects2)%list)
  end.

End Loop.

(** ** Further vocabulary *)

Module Terms.
Import Backend.

(** The five language codes of [LANGUAGE_MAP]. *)
Definition language_codes : list string := ["en"; "zu"; "xh"; "st"; "af"].

(** The three modes the tab routing knows. *)
Definition modes : list string := ["video"; "image"; "text"].

(** The icon the [change] listener shows for a file. *)
Definition icon_of (file : File) : string :=
  if JS.startsWith (file_type file) "video/" then "📹"
  else if JS.startsWith (file_type file) "image/" then "🖼️"
  else "📄".

(** The outcomes on which an analyser returns a result. *)
Definition succeeded (o : outcome) : bool :=
  match o with
  | Rejected _ => false
  | Responded status (inl _) => false
  | Responded status (inr data) =>
      JS.response_ok status && bool_decide (is_Some (Api.detection data))
  end.

(** The three URLs a detection request can go to under [language]. *)
Definition detection_urls (language : string) : list string :=
  [ API_BASE_URL ++ "/api/detect-with-audio?language=" ++ language;
    API_BASE_URL ++ "/api/detect-image?language=" ++ language;
    API_BASE_URL ++ "/api/detect-document?language=" ++ language ].


(** The default texts of the presenter. *)
Definition default_heading (isAI : bool) : string :=
  if isAI then "Likely AI-Generated" else "Likely Human-Created".

(** The property names an object literal inherits from
    [Object.prototype].  For these [LANGUAGE_MAP[text]] finds an
    inherited function or object although the literal lists no such
    key; [LANGUAGE_MAP] above holds the literal's own keys only. *)
Definition inherited_names : list string :=
  [ "constructor"; "hasOwnProperty"; "isPrototypeOf"; "propertyIsEnumerable";
    "toLocaleString"; "toString"; "valueOf"; "__proto__";
    "__defineGetter__"; "__defineSetter__"; "__lookupGetter__"; "__lookupSetter__" ].

(** A menu entry that is looked up among the own keys of [LANGUAGE_MAP]. *)
Definition plain_text (text : string) : Prop := text ∉ inherited_names.

(** An event that is not a click on a menu entry with an inherited name. *)
Definition plain_entry (e : event) : Prop :=
  match e with
  | Click (LangItem text) => plain_text text
  | _ => True
  end.

End Terms.

(** ** Vocabulary for [Main.js] *)

Module MainTerms.
Import MainJs.

(** The widget in the drop area is the one [updateUploader] builds for
    the current mode, and its preview names the first chosen file. *)
Definition widget_matches (s : state) : Prop :=
  match dropArea s with
  | TextArea _ => currentMode s = "text"
  | FileInput accept files icon fileName fileSub =>
      String.eqb (currentMode s) "text" = false /\
      accept = (if String.eqb (currentMode s) "image" then "image/*" else "video/*") /\
      icon = (if String.eqb (currentMode s) "image" then "🖼️" else "📹") /\
      fileName = match head files with
                 | Some file => file_name file
                 | None => "No file selected"
                 end /\
      fileSub = "Choose a " ++ currentMode s ++ " file"
  end.

End MainTerms.

(** ** Generic facts *)

(** Closed statements about concrete pages are settled by evaluation,
    one conjunct at a time. *)
Ltac evaluate :=
  cbv zeta;
  repeat match goal with |- _ /\ _ => split end;
  vm_compute; solve [reflexivity | discriminate | congruence].

Lemma classList_contains_add (c : string) (l : gset string) :
  ClassList.contains c (ClassList.add c l) = true.
Proof.
  unfold ClassList.contains, ClassList.add.
  apply bool_decide_eq_true_2. set_unfold. tauto.
Qed.

Lemma classList_contains_remove (c : string) (l : gset string) :
  ClassList.contains c (ClassList.remove c l) = false.
Proof.
  unfold ClassList.contains, ClassList.remove.
  apply bool_decide_eq_false_2. set_unfold. tauto.
Qed.

(** ** Properties of the backend-integrated controller *)

Section BackendProperties.
Import Backend.

Lemma set_menu_same (s : state) : set_menu (menu s) s = s.
Proof. destruct s; reflexivity. Qed.

(** The backend-integrated controller guards its submit: a press of
    the check button while no file is staged makes the listener show
    the EmptyInput prompt and return at once, so that no request is
    issued and the page state is exactly what it was.  Seen as a click
    event, nothing is fetched and the only thing that can differ
    afterwards is the language menu, which the listener on [document]
    closes on every click outside it. *)
Theorem empty_input_rejected (s : state) :
  currentFile s = None ->
  checkBtn_click s = (s, [Alert EmptyInput]) /\
  requests_of (snd (step (Click CheckBtn) s)) = [] /\
  exists m, fst (step (Click CheckBtn) s) = set_menu m s.
Proof.
  intros Hfile.
  assert (Hclick : checkBtn_click s = (s, [Alert EmptyInput])).
  { unfold checkBtn_click. rewrite Hfile. reflexivity. }
  split; [exact Hclick|].
  simpl. rewrite Hclick.
  destruct (disabled (button s)); simpl.
  - split; [reflexivity|]. exists (menu s). symmetry. apply set_menu_same.
  - split; [reflexivity|]. eexists. reflexivity.
Qed.

Lemma empty_input_rejected_witness :
  currentFile Fixtures.backend_start = None /\
  checkBtn_click Fixtures.backend_start
    = (Fixtures.backend_start, [Alert EmptyInput]).
Proof.
  assert (Hfile : currentFile Fixtures.backend_start = None) by reflexivity.
  split; [exact Hfile|].
  exact (proj1 (empty_input_rejected Fixtures.backend_start Hfile)).
Defined.

(** C4: with a file staged, the check listener issues exactly one
    request: a POST whose body carries the staged file, to the one
    endpoint selected by the current tab (video: detect-with-audio,
    image: detect-image, text: detect-document), with the current
    language as the [language] query parameter.  The click event issues
    the same single request while the button is enabled, and the
    continuation that runs when the request settles issues none. *)
Theorem one_request_per_submit (s : state) (file : File) :
  currentFile s = Some file ->
  let post endpoint :=
    Fetch {| req_method := "POST";
             req_url := API_BASE_URL ++ endpoint ++ "?language=" ++ currentLanguage s;
             req_file := Some file |} in
  (currentTab s = "video" ->
     snd (checkBtn_click s) = [post "/api/detect-with-audio"]) /\
  (currentTab s = "image" ->
     snd (checkBtn_click s) = [post "/api/detect-image"]) /\
  (currentTab s = "text" ->
     snd (checkBtn_click s) = [post "/api/detect-document"]) /\
  (disabled (button s) = false ->
     snd (step (Click CheckBtn) s) = snd (checkBtn_click s)) /\
  (forall t o s', requests_of (snd (checkBtn_resume t o s')) = []).
Proof.
  intros Hfile post.
  repeat split.
  - intros Htab. unfold checkBtn_click. rewrite Hfile, Htab. reflexivity.
  - intros Htab. unfold checkBtn_click. rewrite Hfile, Htab. reflexivity.
  - intros Htab. unfold checkBtn_click. rewrite Hfile, Htab. reflexivity.
  - intros Hen. simpl. rewrite Hen. destruct (checkBtn_click s). reflexivity.
  - intros t o s'. unfold checkBtn_resume.
    destruct (analyze_resume t o) as [thrown|r]; reflexivity.
Qed.

Lemma one_request_per_submit_witness :
  currentFile Fixtures.backend_staged = Some Fixtures.clip /\
  snd (checkBtn_click Fixtures.backend_staged)
    = [Fetch {| req_method := "POST";
                req_url := "http://127.0.0.1:8000/api/detect-with-audio?language=en";
                req_file := Some Fixtures.clip |}].
Proof.
  assert (Hfile : currentFile Fixtures.backend_staged = Some Fixtures.clip)
    by (vm_compute; reflexivity).
  split; [exact Hfile|].
  destruct (one_request_per_submit Fixtures.backend_staged Fixtures.clip Hfile)
    as (Hvideo & _).
  rewrite Hvideo; vm_compute; reflexivity.
Defined.

(** C5: when the request of a submission settles without success (the
    transport fails, or the status is outside 200-299), the listener
    raises an error that is shown to the user in an alert, and then
    only runs its [finally] block: nothing of the result card is
    written, both panels keep their classes (a page in Uploading stays
    in Uploading), the check button is enabled again, and no further
    request is issued. *)
Theorem failed_dispatch (t : content_type) (rest : list content_type)
    (o : outcome) (s : state) :
  inflight s = t :: rest ->
  Spec.failed o = true ->
  let s' := fst (step (Settle o) s) in
  let effects := snd (step (Settle o) s) in
  (exists reason, effects = [Alert ("Error: " ++ reason)]) /\
  requests_of effects = [] /\
  s' = finally_block (set_inflight rest s) /\
  uploader_classList s' = uploader_classList s /\
  results_classList s' = results_classList s /\
  panel s' = panel s /\
  card s' = card s /\
  disabled (button s') = false /\
  inflight s' = rest.
Proof.
  intros Hpending Hfail s' effects.
  assert (Hthrown : exists reason, analyze_resume t o = inl reason).
  { destruct o as [reason|status body]; simpl in Hfail.
    - exists reason. destruct t; reflexivity.
    - exists ("HTTP error! status: " ++ JS.number_to_string status).
      destruct t; simpl;
        unfold analyzeVideo_resume, analyzeImage_resume, analyzeDocument_resume,
               response_data; rewrite Hfail; reflexivity. }
  destruct Hthrown as [reason Hthrown].
  subst s' effects. cbn [step]. rewrite Hpending.
  unfold checkBtn_resume. rewrite Hthrown. cbn [catch_block fst snd].
  split; [exists reason; reflexivity|].
  repeat match goal with |- _ /\ _ => split end; reflexivity.
Qed.

Lemma failed_dispatch_witness :
  inflight Fixtures.backend_waiting = [video] /\
  Spec.failed (Responded 500 (inl "")) = true /\
  snd (step (Settle (Responded 500 (inl ""))) Fixtures.backend_waiting)
    = [Alert "Error: HTTP error! status: 500"] /\
  panel (fst (step (Settle (Responded 500 (inl ""))) Fixtures.backend_waiting))
    = Some Uploading.
Proof.
  assert (Hpending : inflight Fixtures.backend_waiting = [video])
    by (vm_compute; reflexivity).
  assert (Hfail : Spec.failed (Responded 500 (inl "")) = true) by reflexivity.
  split; [exact Hpending|]. split; [exact Hfail|].
  destruct (failed_dispatch video [] (Responded 500 (inl "")) Fixtures.backend_waiting
              Hpending Hfail)
    as (_ & _ & _ & _ & _ & Hpanel & _).
  split; [vm_compute; reflexivity|].
  rewrite Hpanel. vm_compute. reflexivity.
Defined.

(** Which events leave the staged file alone. *)
Lemma translateUIElements_currentFile (language : string) (s : state) :
  currentFile (translateUIElements language s) = currentFile s.
Proof. reflexivity. Qed.

Lemma fileInput_change_keeps_staged (s : state) :
  is_Some (currentFile s) -> is_Some (currentFile (fileInput_change s)).
Proof.
  intros Hsome. unfold fileInput_change.
  destruct (head (fileInput_files (upload s))); simpl; [eauto | exact Hsome].
Qed.

Lemma checkBtn_click_currentFile (s : state) :
  currentFile (fst (checkBtn_click s)) = currentFile s.
Proof.
  unfold checkBtn_click.
  destruct (currentFile s) eqn:Hfile; [|simpl; exact Hfile].
  repeat (match goal with |- context [if ?b then _ else _] => destruct b end);
    simpl; exact Hfile.
Qed.

Lemma displayResults_currentFile (r : result) (s : state) :
  currentFile (fst (displayResults r s)) = currentFile s.
Proof. unfold displayResults. cbn [fst]. reflexivity. Qed.

Lemma checkBtn_resume_currentFile (t : content_type) (o : outcome) (s : state) :
  currentFile (fst (checkBtn_resume t o s)) = currentFile s.
Proof.
  unfold checkBtn_resume. destruct (analyze_resume t o) as [thrown|r].
  - reflexivity.
  - rewrite (surjective_pairing (displayResults r s)). cbn [fst snd].
    unfold finally_block, set_button, set_results_classList, set_uploader_classList.
    cbn [currentFile]. apply displayResults_currentFile.
Qed.

(** C10: a [change] event whose file list is empty runs the listener
    without any effect: the staged file and the displayed file name
    stay what they were (only the input's own file list is emptied, by
    the browser).  Among all events, only a click on Clear can take a
    page that has a staged file to one that has none - and Clear always
    does: after it no file is staged, the input's file list is empty
    and the displayed name reads [No file selected]. *)
Theorem empty_change_keeps_staged_file (s : state) :
  (fileInput_files (upload s) = [] -> fileInput_change s = s) /\
  currentFile (fst (step (Change []) s)) = currentFile s /\
  fileName_text (upload (fst (step (Change []) s))) = fileName_text (upload s) /\
  (forall e, is_Some (currentFile s) ->
             currentFile (fst (step e s)) = None -> e = Click ClearBtn) /\
  currentFile (fst (step (Click ClearBtn) s)) = None /\
  fileInput_files (upload (fst (step (Click ClearBtn) s))) = [] /\
  fileName_text (upload (fst (step (Click ClearBtn) s))) = "No file selected".
Proof.
  split; [|split; [|split; [|split; [|split; [|split]]]]];
    [| | | | reflexivity | reflexivity | reflexivity].
  - intros Hfiles. unfold fileInput_change. rewrite Hfiles. reflexivity.
  - reflexivity.
  - reflexivity.
  - intros e Hsome Hnone.
    assert (Habsurd : forall s', currentFile s' = None ->
                                 is_Some (currentFile s') -> False).
    { intros s' H0 [f Hf]. congruence. }
    destruct e as [[| text | i | | |] | files | files | o |]; simpl in Hnone.
    + exfalso. apply (Habsurd s); assumption.
    + exfalso. apply (Habsurd s); assumption.
    + exfalso. destruct (tabs s !! i); simpl in Hnone; apply (Habsurd s); assumption.
    + reflexivity.
    + exfalso. destruct (disabled (button s)); simpl in Hnone.
      * apply (Habsurd s); assumption.
      * pose proof (checkBtn_click_currentFile s) as Hkeep.
        destruct (checkBtn_click s) as [s1 effects]. simpl in *.
        apply (Habsurd s); congruence.
    + exfalso. apply (Habsurd s); assumption.
    + exfalso. apply (Habsurd _ Hnone).
      apply fileInput_change_keeps_staged. exact Hsome.
    + exfalso. unfold dropArea_drop in Hnone. destruct (head files).
      * apply (Habsurd _ Hnone).
        apply fileInput_change_keeps_staged. exact Hsome.
      * apply (Habsurd s); assumption.
    + exfalso. destruct (inflight s) as [|t rest]; simpl in Hnone.
      * apply (Habsurd s); assumption.
      * rewrite checkBtn_resume_currentFile in Hnone. apply (Habsurd s); assumption.
    + exfalso. unfold progress_timeout in Hnone.
      destruct (timers s); simpl in Hnone; apply (Habsurd s); assumption.
Qed.

Lemma empty_change_keeps_staged_file_witness :
  fileInput_files (upload Fixtures.backend_start) = [] /\
  fileInput_change Fixtures.backend_start = Fixtures.backend_start /\
  currentFile (fst (step (Change []) Fixtures.backend_staged)) = Some Fixtures.clip /\
  is_Some (currentFile Fixtures.backend_staged) /\
  currentFile (fst (step (Click ClearBtn) Fixtures.backend_staged)) = None /\
  currentFile (fst (step (Click (Tab 1)) Fixtures.backend_staged)) <> None.
Proof.
  assert (Hfiles : fileInput_files (upload Fixtures.backend_start) = [])
    by reflexivity.
  assert (Hstaged : is_Some (currentFile Fixtures.backend_staged))
    by (exists Fixtures.clip; vm_compute; reflexivity).
  destruct (empty_change_keeps_staged_file Fixtures.backend_staged)
    as (_ & Hfile & _ & Honly & Hreset & _).
  split; [exact Hfiles|]. split.
  - exact (proj1 (empty_change_keeps_staged_file Fixtures.backend_start) Hfiles).
  - split; [rewrite Hfile; vm_compute; reflexivity|].
    split; [exact Hstaged|]. split; [exact Hreset|].
    intros Hnone. specialize (Honly (Click (Tab 1)) Hstaged Hnone). discriminate.
Defined.

End BackendProperties.

(** ** The presenter *)

Section PresenterProperties.
Import Backend.

Lemma or_else_idem (x : option string) (d : string) :
  d <> "" -> JS.or_else (Some (JS.or_else x d)) d = JS.or_else x d.
Proof.
  intros Hd. unfold JS.or_else.
  destruct x as [v|].
  - destruct (String.eqb v "") eqn:Hv.
    + destruct (String.eqb d "") eqn:Hd'; [|reflexivity].
      apply String.eqb_eq in Hd'. contradiction.
    + rewrite Hv. reflexivity.
  - destruct (String.eqb d "") eqn:Hd'; [|reflexivity].
    apply String.eqb_eq in Hd'. contradiction.
Qed.

Lemma classList_swap (c d : string) (l : gset string) :
  c <> d ->
  ClassList.contains c (ClassList.add d (ClassList.remove c l)) = false.
Proof.
  intros Hneq. unfold ClassList.contains, ClassList.add, ClassList.remove.
  apply bool_decide_eq_false_2. set_unfold. tauto.
Qed.

Lemma Math_round_914 (q : Q) : q == 914 # 10 -> JS.Math_round q = 91%Z.
Proof.
  intros Hq. unfold JS.Math_round.
  rewrite (Qfloor_comp (q + (1 # 2)) ((914 # 10) + (1 # 2))).
  - reflexivity.
  - rewrite Hq. reflexivity.
Qed.

(** The double nearest to 91.4 rounds to 91 as well. *)
Lemma Math_round_double_91_4 :
  JS.Math_round (3215851608919245 # 35184372088832) = 91%Z.
Proof. vm_compute. reflexivity. Qed.

(** What the three analysers return on a successful response that
    carries a detection object. *)
Lemma analyze_resume_ok (t : content_type) (status : Z) (data : Api.data)
    (d : Api.detection_result) :
  JS.response_ok status = true ->
  Api.detection data = Some d ->
  exists details audio,
    analyze_resume t (Responded status (inr data))
    = inr {| type := t;
             isAI := Api.is_ai_generated d;
             confidence := Api.confidence_score d;
             message := JS.or_else (Api.message d) "";
             warning := JS.or_else (Api.warning d) "";
             confidenceLabel := JS.or_else (Api.confidence_label d) "Confidence";
             details := details;
             hasAudio := audio |}.
Proof.
  intros Hok Hd.
  destruct t; simpl;
    unfold analyzeVideo_resume, analyzeImage_resume, analyzeDocument_resume,
           response_data;
    rewrite Hok; cbn [negb]; rewrite Hd; eexists; eexists; reflexivity.
Qed.

(** The card after a successful settle is the one [displayResults] builds. *)
Lemma checkBtn_resume_card (t : content_type) (o : outcome) (r : result) (s : state) :
  analyze_resume t o = inr r ->
  card (fst (checkBtn_resume t o s)) = card (fst (displayResults r s)) /\
  snd (checkBtn_resume t o s) = snd (displayResults r s).
Proof.
  intros Hr. unfold checkBtn_resume. rewrite Hr.
  rewrite (surjective_pairing (displayResults r s)). cbn [fst snd].
  split; reflexivity.
Qed.

(** C6: after a successful response the presenter picks one of exactly
    two themes from [is_ai_generated] alone: the warning sign on red with
    class [ai-result] when it is true, the check mark on green with
    class [human-result] when it is false.  The badge reads the
    confidence label, a colon and the score rounded to an integer
    followed by the percent sign, and the bar is sent to that same
    percentage.  For a score of 91.4 the badge and the bar read 91%. *)
Theorem presenter_theme_and_badge (t : content_type) (status : Z)
    (data : Api.data) (d : Api.detection_result) (s : state) :
  JS.response_ok status = true ->
  Api.detection data = Some d ->
  let after := checkBtn_resume t (Responded status (inr data)) s in
  let c := card (fst after) in
  let percent :=
    JS.number_to_string (JS.Math_round (Api.confidence_score d)) ++ "%" in
  (statusIcon_html c, statusIcon_backgroundColor c, statusIcon_color c)
    = (if Api.is_ai_generated d
       then ([icon_span "⚠️"], "#FFE8E8", "#D32F2F")
       else ([icon_span "✓"], "#E6F7E6", "#74D480")) /\
  ClassList.contains "ai-result" (resultCard_classList c) = Api.is_ai_generated d /\
  ClassList.contains "human-result" (resultCard_classList c)
    = negb (Api.is_ai_generated d) /\
  (exists heading,
     resultHeading_html c
     = [Text heading;
        Span "badge" (Some "confidenceBadge")
             (JS.or_else (Api.confidence_label d) "Confidence" ++ ": " ++ percent)]) /\
  snd after = [SetTimeout 100 percent] /\
  (Api.confidence_score d == 914 # 10 -> percent = "91%").
Proof.
  intros Hok Hd after c percent.
  destruct (analyze_resume_ok t status data d Hok Hd) as (details & audio & Hr).
  destruct (checkBtn_resume_card t _ _ s Hr) as [Hcard Heffects].
  subst c after. rewrite Hcard, Heffects. clear Hcard Heffects Hr.
  unfold displayResults. cbn [fst snd card set_timers set_card isAI confidence
                              message warning confidenceLabel type].
  rewrite or_else_idem by discriminate.
  destruct (Api.is_ai_generated d);
    cbn [statusIcon_html statusIcon_backgroundColor statusIcon_color
         resultCard_classList resultHeading_html negb].
  - split; [reflexivity|]. split; [apply classList_contains_add|].
    split; [apply classList_swap; discriminate|].
    split; [eexists; reflexivity|]. split; [reflexivity|].
    intros Hq. subst percent. rewrite (Math_round_914 _ Hq). vm_compute. reflexivity.
  - split; [reflexivity|]. split; [apply classList_swap; discriminate|].
    split; [apply classList_contains_add|].
    split; [eexists; reflexivity|]. split; [reflexivity|].
    intros Hq. subst percent. rewrite (Math_round_914 _ Hq). vm_compute. reflexivity.
Qed.

Lemma presenter_theme_and_badge_witness :
  let c := card (fst (checkBtn_resume video (Responded 200 (inr Fixtures.ai_91_4))
                        Fixtures.backend_waiting)) in
  JS.response_ok 200 = true /\
  (statusIcon_html c, statusIcon_backgroundColor c, statusIcon_color c)
    = ([icon_span "⚠️"], "#FFE8E8", "#D32F2F") /\
  resultHeading_html c
    = [Text "Likely AI-Generated ";
       Span "badge" (Some "confidenceBadge") "Confidence: 91%"].
Proof.
  intros c.
  assert (Hok : JS.response_ok 200 = true) by reflexivity.
  split; [exact Hok|].
  destruct (presenter_theme_and_badge video 200 Fixtures.ai_91_4 _
              Fixtures.backend_waiting Hok eq_refl) as (Htheme & _).
  split; [exact Htheme|].
  vm_compute. reflexivity.
Defined.

(** C7, as the code has it: when a successful response says
    [is_ai_generated = false] and carries neither [message] nor
    [warning], the analyser substitutes the empty string for both and
    the label [Confidence] for a missing confidence label, and the
    presenter shows the heading [Likely Human-Created], the same for
    every mode, with the default description of the mode.  Both texts
    are fixed English strings: the active language plays no part. *)
Theorem human_defaults (t : content_type) (status : Z) (score : Q)
    (label : option string) (data : Api.data) (s : state) :
  JS.response_ok status = true ->
  Api.detection data
    = Some {| Api.is_ai_generated := false;
              Api.confidence_score := score;
              Api.message := None;
              Api.warning := None;
              Api.confidence_label := label |} ->
  (exists r,
     analyze_resume t (Responded status (inr data)) = inr r /\
     type r = t /\ message r = "" /\ warning r = "" /\
     confidenceLabel r = JS.or_else label "Confidence") /\
  let c := card (fst (checkBtn_resume t (Responded status (inr data)) s)) in
  resultHeading_html c
    = [Text "Likely Human-Created ";
       Span "badge" (Some "confidenceBadge")
            (JS.or_else label "Confidence" ++ ": "
             ++ JS.number_to_string (JS.Math_round score) ++ "%")] /\
  resultDesc_text c
    = match t with
      | video => "The video displays natural motion, consistent lighting across frames, and authentic audio synchronization."
      | image => "This image shows characteristics of authentic photography with natural lighting and proper perspective."
      | document => "This text demonstrates natural human writing patterns with varied sentence structure and personal voice."
      end.
Proof.
  intros Hok Hd.
  destruct (analyze_resume_ok t status data _ Hok Hd) as (details & audio & Hr).
  cbn [Api.is_ai_generated Api.confidence_score Api.message Api.warning
       Api.confidence_label] in Hr.
  split.
  - eexists. split; [exact Hr|]. repeat split; reflexivity.
  - destruct (checkBtn_resume_card t _ _ s Hr) as [Hcard _].
    cbv zeta. rewrite Hcard. clear Hcard Hr.
    unfold displayResults.
    cbn [fst card set_timers set_card isAI confidence message warning
         confidenceLabel type resultHeading_html resultDesc_text].
    rewrite or_else_idem by discriminate.
    split; [reflexivity|]. destruct t; reflexivity.
Qed.

Lemma human_defaults_witness :
  JS.response_ok 200 = true /\
  resultDesc_text
    (card (fst (checkBtn_resume image (Responded 200 (inr Spec.human_80))
                  Fixtures.backend_waiting)))
  = "This image shows characteristics of authentic photography with natural lighting and proper perspective.".
Proof.
  assert (Hok : JS.response_ok 200 = true) by reflexivity.
  split; [exact Hok|].
  destruct (human_defaults image 200 80 None Spec.human_80 Fixtures.backend_waiting
              Hok eq_refl) as (_ & _ & Hdesc).
  exact Hdesc.
Defined.

(** C7 as stated fails: with isiZulu active, the heading and the
    description shown for a human-created video without [message] and
    [warning] are the English defaults, letter for letter what an
    English page shows, and the heading is the same for an image and
    for a document. *)
Lemma default_texts_not_localized :
  let s := fst (step (Click (LangItem "isiZulu")) Fixtures.backend_waiting) in
  currentLanguage s = "zu" /\
  Spec.shown_texts "zu" video Spec.human_80 s
    = ([Text "Likely Human-Created ";
        Span "badge" (Some "confidenceBadge") "Confidence: 80%"],
       "The video displays natural motion, consistent lighting across frames, and authentic audio synchronization.") /\
  Spec.shown_texts "zu" video Spec.human_80 s
    = Spec.shown_texts "en" video Spec.human_80 s /\
  fst (Spec.shown_texts "zu" image Spec.human_80 s)
    = fst (Spec.shown_texts "zu" video Spec.human_80 s) /\
  fst (Spec.shown_texts "zu" document Spec.human_80 s)
    = fst (Spec.shown_texts "zu" video Spec.human_80 s).
Proof.
  evaluate.
Qed.

End PresenterProperties.

(** ** Submissions in flight *)

Section FlowProperties.
Import Backend.

(** Listeners that touch neither the check button's [disabled] flag nor
    the pending requests keep the gate. *)
Lemma gate_frame (s s' : state) :
  inflight s' = inflight s ->
  disabled (button s') = disabled (button s) ->
  Spec.gate s -> Spec.gate s'.
Proof.
  unfold Spec.gate. intros Hin Hdis. rewrite Hin, Hdis. tauto.
Qed.

Lemma translateUIElements_disabled (language : string) (s : state) :
  disabled (button (translateUIElements language s)) = disabled (button s).
Proof.
  unfold translateUIElements. cbn [button set_upload set_button].
  destruct (disabled (button s)) eqn:Hdis; [exact Hdis | reflexivity].
Qed.

Lemma fileInput_change_gate (s : state) :
  inflight (fileInput_change s) = inflight s /\
  disabled (button (fileInput_change s)) = disabled (button s).
Proof.
  unfold fileInput_change.
  destruct (head (fileInput_files (upload s))); split; reflexivity.
Qed.

Lemma checkBtn_click_gate (s : state) :
  inflight s = [] -> Spec.gate (fst (checkBtn_click s)).
Proof.
  intros Hempty. unfold checkBtn_click.
  destruct (currentFile s) as [file|]; [|left; exact Hempty].
  repeat (match goal with |- context [if ?b then _ else _] => destruct b end);
    cbn [fst catch_block finally_block];
    try (right; split; [reflexivity|]; cbn [inflight set_inflight];
         rewrite Hempty; eexists; reflexivity).
  left. exact Hempty.
Qed.

Lemma checkBtn_resume_idle (t : content_type) (o : outcome) (s : state) :
  inflight (fst (checkBtn_resume t o s)) = inflight s /\
  disabled (button (fst (checkBtn_resume t o s))) = false.
Proof.
  unfold checkBtn_resume. destruct (analyze_resume t o) as [thrown|r].
  - split; reflexivity.
  - rewrite (surjective_pairing (displayResults r s)). cbn [fst snd].
    unfold displayResults. cbn [fst]. split; reflexivity.
Qed.

Lemma gate_step (e : event) (s : state) :
  Spec.gate s -> Spec.gate (fst (step e s)).
Proof.
  intros Hgate.
  destruct e as [[| text | i | | |] | files | files | o |]; cbn [step click fst].
  - apply (gate_frame s); [reflexivity | reflexivity | exact Hgate].
  - apply (gate_frame s); [reflexivity | | exact Hgate].
    unfold langItem_click, translatePage.
    rewrite translateUIElements_disabled. reflexivity.
  - destruct (tabs s !! i); cbn [fst];
      (apply (gate_frame s); [reflexivity | reflexivity | exact Hgate]).
  - apply (gate_frame s); [reflexivity | reflexivity | exact Hgate].
  - destruct (disabled (button s)) eqn:Hdis; cbn [fst]; [exact Hgate|].
    assert (Hempty : inflight s = []).
    { destruct Hgate as [Hempty | [Hon _]]; [exact Hempty | congruence]. }
    pose proof (checkBtn_click_gate s Hempty) as Hnext.
    destruct (checkBtn_click s) as [s1 effects]. cbn [fst] in *.
    apply (gate_frame s1); [reflexivity | reflexivity | exact Hnext].
  - apply (gate_frame s); [reflexivity | reflexivity | exact Hgate].
  - destruct (fileInput_change_gate (set_files files s)) as [Hin Hdis].
    apply (gate_frame s); [rewrite Hin | rewrite Hdis | exact Hgate]; reflexivity.
  - unfold dropArea_drop. destruct (head files); [|exact Hgate].
    destruct (fileInput_change_gate (set_files files s)) as [Hin Hdis].
    apply (gate_frame s); [rewrite Hin | rewrite Hdis | exact Hgate]; reflexivity.
  - destruct (inflight s) as [|t rest] eqn:Hin; cbn [fst]; [left; exact Hin|].
    assert (Hrest : rest = []).
    { destruct Hgate as [Hempty | [_ [t' Hone]]]; congruence. }
    destruct (checkBtn_resume_idle t o (set_inflight rest s)) as [Hin' _].
    left. rewrite Hin'. exact Hrest.
  - unfold progress_timeout. destruct (timers s); [exact Hgate|].
    apply (gate_frame s); [reflexivity | reflexivity | exact Hgate].
Qed.

Lemma run_invariant (es : list event) (s : state) :
  forall P : state -> Prop,
    (forall e s0, P s0 -> P (fst (step e s0))) -> P s -> P (fst (run es s)).
Proof.
  intros P Hstep. revert s.
  induction es as [|e rest IH]; intros s Hs; [exact Hs|].
  cbn [run]. specialize (Hstep e s Hs).
  destruct (step e s) as [s1 effects1]. cbn [fst] in Hstep.
  specialize (IH s1 Hstep).
  destruct (run rest s1) as [s2 effects2]. exact IH.
Qed.

Lemma gate_reachable (page : state) (es : list event) :
  Spec.gate (fst (run es (initializeApp page))).
Proof.
  apply run_invariant.
  - intros e s0. apply gate_step.
  - left. reflexivity.
Qed.

(** C8: on every page reached from initialisation at most one request
    is pending.  While one is pending the check button is disabled, so
    a further click on it dispatches nothing: no request, no alert, the
    page unchanged.  When the pending request settles, with whatever
    outcome, nothing is pending any more and the button is enabled. *)
Theorem single_flight (page : state) (es : list event) :
  let s := fst (run es (initializeApp page)) in
  length (inflight s) <= 1 /\
  (inflight s <> [] -> step (Click CheckBtn) s = (s, [])) /\
  (forall o, inflight s <> [] ->
             let s' := fst (step (Settle o) s) in
             inflight s' = [] /\ disabled (button s') = false).
Proof.
  intros s. pose proof (gate_reachable page es) as Hgate. fold s in Hgate.
  repeat match goal with |- _ /\ _ => split end.
  - destruct Hgate as [Hempty | [_ [t Hone]]].
    + rewrite Hempty. cbn [length]. lia.
    + rewrite Hone. cbn [length]. lia.
  - intros Hpending.
    destruct Hgate as [Hempty | [Hdis _]]; [contradiction|].
    cbn [step click]. rewrite Hdis. reflexivity.
  - intros o Hpending s'. subst s'.
    destruct Hgate as [Hempty | [_ [t Hone]]]; [contradiction|].
    cbn [step]. rewrite Hone.
    destruct (checkBtn_resume_idle t o (set_inflight [] s)) as [Hin Hdis].
    split; [rewrite Hin; reflexivity | exact Hdis].
Qed.

Lemma single_flight_witness :
  let s := fst (run [Change [Fixtures.clip]; Click CheckBtn]
                    (initializeApp Fixtures.backend_page)) in
  inflight s <> [] /\
  step (Click CheckBtn) s = (s, []) /\
  disabled (button (fst (step (Settle (Rejected "Failed to fetch")) s))) = false.
Proof.
  intros s.
  assert (Hpending : inflight s <> []) by (vm_compute; discriminate).
  destruct (single_flight Fixtures.backend_page [Change [Fixtures.clip]; Click CheckBtn])
    as (_ & Hclick & Hsettle).
  split; [exact Hpending|]. split.
  - exact (Hclick Hpending).
  - exact (proj2 (Hsettle (Rejected "Failed to fetch") Hpending)).
Defined.

End FlowProperties.

(** ** Language selection *)

Section LanguageProperties.
Import Backend.

(** The five menu entries select the five tables. *)
Lemma language_tables :
  map (fun text => JS.or_else (LANGUAGE_MAP !! text) "en")
      ["English"; "isiZulu"; "isiXhosa"; "Sesotho"; "Afrikaans"]
    = ["en"; "zu"; "xh"; "st"; "af"] /\
  map trans_for ["en"; "zu"; "xh"; "st"; "af"]
    = [translations_en; translations_zu; translations_xh; translations_st;
       translations_af].
Proof. evaluate. Qed.

(** Selecting a menu entry records the language and rewrites every
    static text element the page has with the entry of that language:
    hero title and description, the three tab labels, the results
    title, both accordion headers and the footer. *)
Lemma language_selection_static (text : string) (s : state) :
  let s' := fst (step (Click (LangItem text)) s) in
  let language := JS.or_else (LANGUAGE_MAP !! text) "en" in
  let trans := trans_for language in
  currentLanguage s' = language /\
  protectBtn_html (static s')
    = (fun _ => [icon_span "◎"; Text (" " ++ heroTitle trans)])
        <$> protectBtn_html (static s) /\
  heroDesc_text (static s') = (fun _ => heroDesc trans) <$> heroDesc_text (static s) /\
  resultsTitle_text (static s')
    = (fun _ => resultsTitle trans) <$> resultsTitle_text (static s) /\
  acc1Header (static s')
    = translate_header (whatYouCanDo trans) <$> acc1Header (static s) /\
  acc2Header (static s')
    = translate_header (howToSpot trans) <$> acc2Header (static s) /\
  footerPill_html (static s')
    = (fun _ => [icon_span "◎"; Text (" " ++ footerText trans)])
        <$> footerPill_html (static s) /\
  tabs s'
    = set_tab_html "video" [icon_span "📹"; Text (" " ++ tabVideo trans)]
        (set_tab_html "image" [icon_span "🖼️"; Text (" " ++ tabImage trans)]
           (set_tab_html "text" [icon_span "📄"; Text (" " ++ tabText trans)] (tabs s))) /\
  fileSub_text (upload s')
    = translate_fileSub trans (fileName_text (upload s)) (fileSub_text (upload s)).
Proof.
  cbv zeta. cbn [step click fst].
  unfold langItem_click, translatePage, translateUIElements.
  cbn [currentLanguage static tabs upload set_upload set_button set_tabs set_static
       set_menu set_currentLanguage protectBtn_html heroDesc_text resultsTitle_text
       acc1Header acc2Header footerPill_html fileSub_text fileName_text].
  repeat match goal with |- _ /\ _ => split end; reflexivity.
Qed.

(** The caption is rewritten only while it contains the English word
    [selected] ... *)
Lemma caption_kept_without_selected (trans : translations) (fileName caption : string) :
  JS.includes caption "selected" = false ->
  translate_fileSub trans fileName (Some caption) = Some caption.
Proof. intros Hno. unfold translate_fileSub. rewrite Hno. reflexivity. Qed.

(** ... which none of the four other tables' captions does. *)
Lemma captions_without_selected :
  forallb (fun language =>
             negb (JS.includes (fileSelected (trans_for language)) "selected")
             && negb (JS.includes (noFileSelected (trans_for language)) "selected"))
          ["zu"; "xh"; "st"; "af"] = true.
Proof. vm_compute. reflexivity. Qed.

(** A caption written from the isiZulu table never contains [selected]. *)
Lemma translated_caption_zu (fileName caption : string) (fileSub : option string) :
  translate_fileSub translations_zu fileName fileSub = Some caption ->
  JS.includes caption "selected" = false.
Proof.
  unfold translate_fileSub.
  destruct fileSub as [old|]; [|discriminate].
  destruct (JS.includes old "selected") eqn:Hold.
  - destruct (negb _); intros [= <-]; vm_compute; reflexivity.
  - intros [= <-]. exact Hold.
Qed.

(** Whatever the page, once isiZulu has been chosen the caption no
    longer reacts: choosing isiXhosa leaves it as it is. *)
Lemma second_translation_keeps_caption (s : state) :
  let s1 := fst (step (Click (LangItem "isiZulu")) s) in
  let s2 := fst (step (Click (LangItem "isiXhosa")) s1) in
  fileSub_text (upload s2) = fileSub_text (upload s1).
Proof.
  cbv zeta.
  destruct (language_selection_static "isiXhosa"
              (fst (step (Click (LangItem "isiZulu")) s)))
    as (_ & _ & _ & _ & _ & _ & _ & _ & Hsecond).
  destruct (language_selection_static "isiZulu" s)
    as (_ & _ & _ & _ & _ & _ & _ & _ & Hfirst).
  rewrite Hsecond, Hfirst. clear Hsecond Hfirst.
  replace (trans_for (JS.or_else (LANGUAGE_MAP !! "isiZulu") "en"))
    with translations_zu by (vm_compute; reflexivity).
  destruct (translate_fileSub translations_zu _ (fileSub_text (upload s)))
    as [caption|] eqn:Hfirst; [|reflexivity].
  apply caption_kept_without_selected.
  exact (translated_caption_zu _ _ _ Hfirst).
Qed.

(** C9, evaluated: with [clip.mp4] staged on an English page, choosing
    isiZulu turns the caption into the isiZulu phrase; choosing
    isiXhosa next re-renders the static texts in isiXhosa but leaves
    the caption in isiZulu, because the listener only rewrites a
    caption that contains the English word [selected]. *)
Theorem caption_stuck_after_translation :
  let s0 := Fixtures.backend_staged in
  let s1 := fst (step (Click (LangItem "isiZulu")) s0) in
  let s2 := fst (step (Click (LangItem "isiXhosa")) s1) in
  currentFile s2 = Some Fixtures.clip /\
  fileSub_text (upload s0) = Some "No file selected" /\
  fileSub_text (upload s1) = Some (fileSelected translations_zu) /\
  currentLanguage s2 = "xh" /\
  heroDesc_text (static s2) = Some (heroDesc translations_xh) /\
  fileSub_text (upload s2) = Some (fileSelected translations_zu) /\
  fileSub_text (upload s2) <> Some (fileSelected translations_xh).
Proof. evaluate. Qed.

End LanguageProperties.

(** ** Mode switches *)

Section ModeProperties.

(** In [Main.js] every call of [updateUploader] throws the old widget
    away: nothing is staged afterwards, and the new widget is a text
    box for [text], a file input accepting images for [image] and one
    accepting videos otherwise. *)
Lemma updateUploader_discards (mode : string) (s : MainJs.state) :
  let s' := MainJs.updateUploader mode s in
  MainJs.currentMode s' = mode /\
  MainJs.staged s' = None /\
  MainJs.accept_of s'
    = if String.eqb mode "text" then None
      else if String.eqb mode "image" then Some "image/*" else Some "video/*".
Proof.
  cbv zeta. unfold MainJs.updateUploader, MainJs.staged, MainJs.accept_of.
  cbn [MainJs.currentMode MainJs.dropArea MainJs.set_dropArea MainJs.set_currentMode].
  destruct (String.eqb mode "text"); [repeat split; reflexivity|].
  destruct (String.eqb mode "image"); repeat split; reflexivity.
Qed.

Lemma mainjs_tab_click_discards (i : nat) (s : MainJs.state) (t : MainJs.tab) :
  MainJs.tabs s !! i = Some t ->
  let s' := fst (MainJs.step (MainJs.Click (MainJs.Tab i)) s) in
  MainJs.currentMode s' = MainJs.data_tab t /\ MainJs.staged s' = None.
Proof.
  intros Ht. cbv zeta. cbn [MainJs.step]. rewrite Ht. cbn [fst].
  unfold MainJs.document_click, MainJs.tab_click.
  split; [reflexivity|].
  change (MainJs.staged (MainJs.set_menu ?m ?x)) with (MainJs.staged x).
  apply updateUploader_discards.
Qed.

Import Backend.

(** In the backend-integrated controller a click on a tab records the
    mode and sets the file filter, and nothing else of the upload. *)
Lemma tab_click_keeps_staged (i : nat) (t : tab) (s : state) :
  let s' := tab_click i t s in
  currentTab s' = data_tab t /\
  fileInput_accept (upload s') = accept_for (data_tab t) (fileInput_accept (upload s)) /\
  currentFile s' = currentFile s /\
  fileInput_files (upload s') = fileInput_files (upload s) /\
  fileName_text (upload s') = fileName_text (upload s).
Proof. cbv zeta. unfold tab_click. repeat split; reflexivity. Qed.

Lemma accept_for_modes (old : string) :
  accept_for "text" old = ".txt,.pdf,.docx,.doc" /\
  accept_for "image" old = ".jpg,.jpeg,.png,.webp,.bmp" /\
  accept_for "video" old = ".mp4,.mov,.avi,.mkv,.webm".
Proof. repeat split; reflexivity. Qed.

(** C3, evaluated on the backend-integrated controller: with
    [clip.mp4] staged under the video tab, a click on the image tab
    sets the mode to [image] and the file filter to the image
    extensions, but the staged file, the input's file list and the
    displayed name are all still those of the video; a submit then
    posts the video to the image endpoint. *)
Theorem tab_switch_keeps_staged_file :
  let s := fst (step (Click (Tab 1)) Fixtures.backend_staged) in
  currentTab Fixtures.backend_staged = "video" /\
  currentTab s = "image" /\
  fileInput_accept (upload s) = ".jpg,.jpeg,.png,.webp,.bmp" /\
  currentFile s = Some Fixtures.clip /\
  fileInput_files (upload s) = [Fixtures.clip] /\
  fileName_text (upload s) = "clip.mp4" /\
  snd (step (Click CheckBtn) s)
    = [Fetch {| req_method := "POST";
                req_url := "http://127.0.0.1:8000/api/detect-image?language=en";
                req_file := Some Fixtures.clip |}].
Proof. evaluate. Qed.

End ModeProperties.

(** ** The two panels *)

Section PanelProperties.

(** X28: neither mock-up talks to a backend: no event makes them fetch. *)
Lemma mockups_never_fetch :
  (forall e s, requests_of (snd (Mockup.step e s)) = []) /\
  (forall e s, requests_of (snd (MainJs.step e s)) = []).
Proof.
  split.
  - intros [[| text | i | | |] | files |] s; reflexivity.
  - intros [[| text | i | | |] | files | text |] s; cbn [MainJs.step];
      try reflexivity.
    destruct (MainJs.tabs s !! i); reflexivity.
Qed.

(** The first mock-up hides the uploader when it shows the results. *)
Lemma mockup_check_switches (s : Mockup.state) :
  let s' := fst (Mockup.step (Mockup.Click Mockup.CheckBtn) s) in
  Mockup.uploader_active s' = false /\ Mockup.results_active s' = true.
Proof.
  cbv zeta. cbn [Mockup.step Mockup.checkBtn_click fst].
  unfold Mockup.uploader_active, Mockup.results_active, Mockup.document_click.
  cbn [Mockup.uploader_classList Mockup.results_classList Mockup.set_menu
       Mockup.set_timers Mockup.set_slots Mockup.set_results_classList
       Mockup.set_uploader_classList].
  split; [apply classList_contains_remove | apply classList_contains_add].
Qed.

(** [Main.js] itself restores one active panel on Clear. *)
Lemma mainjs_clear_restores (s : MainJs.state) :
  let s' := fst (MainJs.step (MainJs.Click MainJs.ClearBtn) s) in
  MainJs.uploader_active s' = true /\ MainJs.results_active s' = false.
Proof.
  cbv zeta. cbn [MainJs.step fst].
  unfold MainJs.uploader_active, MainJs.results_active, MainJs.document_click,
         MainJs.clearBtn_click.
  cbn [MainJs.uploader_classList MainJs.results_classList MainJs.set_menu
       MainJs.set_results_classList MainJs.set_uploader_classList].
  split; [apply classList_contains_add | apply classList_contains_remove].
Qed.

(** C2, evaluated on [Main.js]: its check listener adds [active] to
    both panels.  From any page, and in particular from the freshly
    loaded one where only the uploader is active, a click on the check
    button leaves the uploader and the results active together. *)
Theorem mainjs_check_activates_both :
  (forall s : MainJs.state,
     let s' := fst (MainJs.step (MainJs.Click MainJs.CheckBtn) s) in
     MainJs.uploader_active s' = true /\ MainJs.results_active s' = true) /\
  MainJs.uploader_active Fixtures.mainjs_start = true /\
  MainJs.results_active Fixtures.mainjs_start = false /\
  MainJs.results_active
    (fst (MainJs.step (MainJs.Click MainJs.CheckBtn) Fixtures.mainjs_start)) = true /\
  MainJs.uploader_active
    (fst (MainJs.step (MainJs.Click MainJs.CheckBtn) Fixtures.mainjs_start)) = true.
Proof.
  split; [|evaluate].
  intros s. cbv zeta. cbn [MainJs.step MainJs.checkBtn_click fst].
  unfold MainJs.uploader_active, MainJs.results_active, MainJs.document_click.
  cbn [MainJs.uploader_classList MainJs.results_classList MainJs.set_menu
       MainJs.set_timers MainJs.set_slots MainJs.set_results_classList
       MainJs.set_uploader_classList].
  split; apply classList_contains_add.
Qed.

Import Backend.

Lemma exclusive_frame (s s' : state) :
  uploader_classList s' = uploader_classList s ->
  results_classList s' = results_classList s ->
  Spec.exclusive s -> Spec.exclusive s'.
Proof.
  unfold Spec.exclusive, uploader_active, results_active.
  intros Hu Hr. rewrite Hu, Hr. tauto.
Qed.

Lemma showing_uploader (u r : gset string) :
  ClassList.contains "active" (ClassList.add "active" u)
    = negb (ClassList.contains "active" (ClassList.remove "active" r)).
Proof. rewrite classList_contains_add, classList_contains_remove. reflexivity. Qed.

Lemma showing_results (u r : gset string) :
  ClassList.contains "active" (ClassList.remove "active" u)
    = negb (ClassList.contains "active" (ClassList.add "active" r)).
Proof. rewrite classList_contains_add, classList_contains_remove. reflexivity. Qed.

Lemma checkBtn_click_panels (s : state) :
  uploader_classList (fst (checkBtn_click s)) = uploader_classList s /\
  results_classList (fst (checkBtn_click s)) = results_classList s.
Proof.
  unfold checkBtn_click.
  destruct (currentFile s); [|split; reflexivity].
  repeat (match goal with |- context [if ?b then _ else _] => destruct b end);
    split; reflexivity.
Qed.

Lemma exclusive_step (e : event) (s : state) :
  Spec.exclusive s -> Spec.exclusive (fst (step e s)).
Proof.
  intros Hex.
  destruct e as [[| text | i | | |] | files | files | o |]; cbn [step click fst].
  - exact Hex.
  - exact Hex.
  - destruct (tabs s !! i); exact Hex.
  - apply showing_uploader.
  - destruct (disabled (button s)); [exact Hex|].
    destruct (checkBtn_click_panels s) as [Hu Hr].
    destruct (checkBtn_click s) as [s1 effects]. cbn [fst] in *.
    apply (exclusive_frame s); assumption.
  - exact Hex.
  - unfold fileInput_change. destruct (head _); exact Hex.
  - unfold dropArea_drop, fileInput_change.
    destruct (head files); [|exact Hex]. destruct (head _); exact Hex.
  - destruct (inflight s) as [|t rest]; [exact Hex|].
    unfold checkBtn_resume. destruct (analyze_resume t o) as [thrown|r].
    + exact Hex.
    + rewrite (surjective_pairing (displayResults r _)). cbn [fst snd].
      apply showing_results.
  - unfold progress_timeout. destruct (timers s); exact Hex.
Qed.

(** In the backend-integrated controller exactly one panel is active
    on every page reached from initialisation: the uploader at the
    start and after Clear, the results after a successful dispatch. *)
Lemma backend_panels_exclusive (page : state) (es : list event) :
  panel (initializeApp page) = Some Uploading /\
  Spec.exclusive (fst (run es (initializeApp page))) /\
  panel (fst (run es (initializeApp page))) <> None.
Proof.
  assert (Hinit : Spec.exclusive (initializeApp page)) by apply showing_uploader.
  assert (Hrun : Spec.exclusive (fst (run es (initializeApp page)))).
  { apply run_invariant; [intros e s0; apply exclusive_step | exact Hinit]. }
  split; [|split; [exact Hrun|]].
  - unfold panel. unfold Spec.exclusive in Hinit. rewrite Hinit.
    unfold results_active, initializeApp.
    cbn [results_classList set_menu set_results_classList set_uploader_classList].
    rewrite classList_contains_remove. reflexivity.
  - unfold panel. unfold Spec.exclusive in Hrun. rewrite Hrun.
    destruct (results_active _); discriminate.
Qed.

(** Its two transitions: Clear shows the uploader, a successful
    dispatch shows the results. *)
Lemma backend_panel_transitions :
  (forall s, panel (fst (step (Click ClearBtn) s)) = Some Uploading) /\
  (forall t rest status data d s,
     inflight s = t :: rest ->
     JS.response_ok status = true ->
     Api.detection data = Some d ->
     panel (fst (step (Settle (Responded status (inr data))) s))
       = Some ShowingResults).
Proof.
  split.
  - intros s. cbn [step click fst].
    unfold panel, uploader_active, results_active, document_click, clearBtn_click.
    cbn [uploader_classList results_classList set_menu set_results_classList
         set_uploader_classList].
    rewrite classList_contains_add, classList_contains_remove. reflexivity.
  - intros t rest status data d s Hpending Hok Hd.
    destruct (analyze_resume_ok t status data d Hok Hd) as (details & audio & Hr).
    cbn [step]. rewrite Hpending. unfold checkBtn_resume. rewrite Hr.
    rewrite (surjective_pairing (displayResults _ _)). cbn [fst snd].
    unfold panel, uploader_active, results_active, finally_block.
    cbn [uploader_classList results_classList set_button set_results_classList
         set_uploader_classList].
    rewrite classList_contains_add, classList_contains_remove. reflexivity.
Qed.

End PanelProperties.

(** ** Submitting with nothing staged, in the mock-up *)

Section EmptyInputProperties.

(** C1, evaluated on [Main.js]: its check listener never looks at what
    is staged.  On the freshly loaded page, where no file has been
    chosen, a click on the check button shows no alert (and issues no
    request): it writes the canned human-created result at 91% into the
    result slots, arms the bar's timer and activates the results panel,
    so the page is not what it was.  From any page whatever the click
    shows no alert and activates the results. *)
Theorem mainjs_check_ignores_empty_input :
  (forall s : MainJs.state,
     alerts_of (snd (MainJs.step (MainJs.Click MainJs.CheckBtn) s)) = [] /\
     MainJs.results_active (fst (MainJs.step (MainJs.Click MainJs.CheckBtn) s)) = true) /\
  let start := Fixtures.mainjs_start in
  let after := MainJs.step (MainJs.Click MainJs.CheckBtn) start in
  MainJs.staged start = None /\
  MainJs.results_active start = false /\
  MainJs.slots start = MainJs.mkSlots [] [] "" "" /\
  snd after = [SetTimeout 100 "91%"] /\
  requests_of (snd after) = [] /\
  MainJs.results_active (fst after) = true /\
  MainJs.slots (fst after)
    = MainJs.mkSlots
        [icon_span "✓"]
        [Text "Likely Human-Created ";
         Span "badge" (Some "confidenceBadge") "Confidence: 91%"]
        "The video displays natural motion and authentic audio sync."
        "0%" /\
  fst after <> start.
Proof.
  split.
  - intros s. cbn [MainJs.step MainJs.checkBtn_click fst snd]. split; [reflexivity|].
    unfold MainJs.results_active, MainJs.document_click.
    cbn [MainJs.results_classList MainJs.set_menu MainJs.set_timers MainJs.set_slots
         MainJs.set_results_classList MainJs.set_uploader_classList].
    apply classList_contains_add.
  - cbv zeta.
    assert (Hbefore : MainJs.results_active Fixtures.mainjs_start = false)
      by (vm_compute; reflexivity).
    assert (Hafter : MainJs.results_active
                       (fst (MainJs.step (MainJs.Click MainJs.CheckBtn)
                               Fixtures.mainjs_start)) = true)
      by (vm_compute; reflexivity).
    split; [vm_compute; reflexivity|]. split; [exact Hbefore|].
    split; [vm_compute; reflexivity|]. split; [vm_compute; reflexivity|].
    split; [vm_compute; reflexivity|]. split; [exact Hafter|].
    split; [vm_compute; reflexivity|].
    intros Hsame. rewrite Hsame in Hafter. congruence.
Qed.

End EmptyInputProperties.

(** ** Staging, clearing and dropping files *)

(** Reading the fields of a page built from field updates. *)
Ltac page_fields :=
  lazy beta iota zeta delta
    [Backend.set_currentLanguage Backend.set_currentFile Backend.set_currentTab
     Backend.set_uploader_classList Backend.set_results_classList Backend.set_menu
     Backend.set_tabs Backend.set_upload Backend.set_button Backend.set_static
     Backend.set_card Backend.set_inflight Backend.set_timers
     Backend.currentLanguage Backend.currentFile Backend.currentTab
     Backend.uploader_classList Backend.results_classList Backend.menu Backend.tabs
     Backend.upload Backend.button Backend.static Backend.card Backend.inflight
     Backend.timers Backend.fileInput_accept Backend.fileInput_files
     Backend.fileName_text Backend.fileIcon_text Backend.fileSub_text
     Backend.langBtn_html Backend.langMenu_display Backend.langMenu_aria_hidden
     Backend.disabled Backend.textContent].

Section UploadProperties.
Import Backend.

(** Two pages with the same fields are the same page. *)
Lemma state_ext (a b : state) :
  currentLanguage a = currentLanguage b -> currentFile a = currentFile b ->
  currentTab a = currentTab b -> uploader_classList a = uploader_classList b ->
  results_classList a = results_classList b -> menu a = menu b ->
  tabs a = tabs b -> upload a = upload b -> button a = button b ->
  static a = static b -> card a = card b -> inflight a = inflight b ->
  timers a = timers b -> a = b.
Proof. destruct a, b; cbn; intros; subst; reflexivity. Qed.

Lemma classList_add_twice (c : string) (l : gset string) :
  ClassList.add c (ClassList.add c l) = ClassList.add c l.
Proof. unfold ClassList.add. rewrite (assoc_L (∪)), (idemp_L (∪)). reflexivity. Qed.

Lemma classList_remove_twice (c : string) (l : gset string) :
  ClassList.remove c (ClassList.remove c l) = ClassList.remove c l.
Proof. unfold ClassList.remove. apply difference_twice_L. Qed.

(** The check listener writes the button and the pending requests, and
    nothing else. *)
Lemma checkBtn_click_shape (s : state) :
  exists b pending, fst (checkBtn_click s) = set_inflight pending (set_button b s).
Proof.
  unfold checkBtn_click.
  destruct (currentFile s) as [file|].
  - repeat (match goal with |- context [if ?b then _ else _] => destruct b end);
      cbn [fst catch_block finally_block]; try (eexists; eexists; reflexivity).
    exists (mkButton false "Check Content"), (inflight s). destruct s; reflexivity.
  - exists (button s), (inflight s). destruct s; reflexivity.
Qed.

(** Its continuation writes the button, and on success the result card,
    the timers and the two panels. *)
Lemma checkBtn_resume_shape (t : content_type) (o : outcome) (s : state) :
  exists b r u ts c,
    fst (checkBtn_resume t o s)
    = set_button b (set_results_classList r (set_uploader_classList u
        (set_timers ts (set_card c s)))).
Proof.
  unfold checkBtn_resume. destruct (analyze_resume t o) as [thrown|res].
  - exists (mkButton false "Check Content"), (results_classList s),
      (uploader_classList s), (timers s), (card s).
    destruct s; reflexivity.
  - rewrite (surjective_pairing (displayResults res s)). cbn [fst snd].
    unfold displayResults. cbn [fst]. unfold finally_block.
    do 5 eexists. reflexivity.
Qed.

(** What Clear writes and what it keeps. *)
Lemma clear_panel_only (s : state) :
  panel (fst (step (Click ClearBtn) s)) = Some Uploading /\
  currentFile (fst (step (Click ClearBtn) s)) = None /\
  (inflight (fst (step (Click ClearBtn) s)) = inflight s /\
   button (fst (step (Click ClearBtn) s)) = button s /\
   card (fst (step (Click ClearBtn) s)) = card s).
Proof.
  split; [exact (proj1 backend_panel_transitions s)|].
  repeat split; reflexivity.
Qed.

(** X1: a click on Clear, whatever was staged or shown before, leaves
    no staged file, an empty file input, the caption [No file selected]
    and the uploader as the one active panel.  It causes no effect and
    touches neither the mode, the language, the result card, the file
    icon, the check button nor a pending request; a second Clear changes
    nothing more. *)
Theorem clear_resets (s : state) :
  let s' := fst (step (Click ClearBtn) s) in
  currentFile s' = None /\
  fileInput_files (upload s') = [] /\
  fileName_text (upload s') = "No file selected" /\
  panel s' = Some Uploading /\
  snd (step (Click ClearBtn) s) = [] /\
  (currentTab s', currentLanguage s', card s', button s', inflight s',
   fileIcon_text (upload s'), fileInput_accept (upload s'))
  = (currentTab s, currentLanguage s, card s, button s, inflight s,
     fileIcon_text (upload s), fileInput_accept (upload s)) /\
  fst (step (Click ClearBtn) s') = s'.
Proof.
  cbv zeta.
  split; [reflexivity|]. split; [reflexivity|]. split; [reflexivity|].
  split; [exact (proj1 backend_panel_transitions s)|].
  split; [reflexivity|]. split; [reflexivity|].
  cbn [step click fst snd].
  unfold document_click, clearBtn_click. destruct s.
  apply state_ext; page_fields; try reflexivity.
  - apply classList_add_twice.
  - apply classList_remove_twice.
Qed.

(** X2: Clear does not cancel a request in flight.  If the pending
    request then succeeds, its continuation still presents the result:
    the results panel becomes the active one although nothing is staged
    any more. *)
Theorem clear_does_not_cancel (t : content_type) (rest : list content_type)
    (status : Z) (data : Api.data) (d : Api.detection_result) (s : state) :
  inflight s = t :: rest ->
  JS.response_ok status = true ->
  Api.detection data = Some d ->
  let s1 := fst (step (Click ClearBtn) s) in
  let s2 := fst (step (Settle (Responded status (inr data))) s1) in
  inflight s1 = t :: rest /\
  panel s1 = Some Uploading /\
  panel s2 = Some ShowingResults /\
  currentFile s2 = None /\
  inflight s2 = rest.
Proof.
  intros Hpending Hok Hd s1 s2.
  assert (Hpending1 : inflight s1 = t :: rest) by exact Hpending.
  split; [exact Hpending1|].
  split; [apply (proj1 backend_panel_transitions)|].
  split; [exact (proj2 backend_panel_transitions t rest status data d s1
                   Hpending1 Hok Hd)|].
  subst s2. cbn [step]. rewrite Hpending1.
  destruct (checkBtn_resume_shape t (Responded status (inr data)) (set_inflight rest s1))
    as (b & r & u & ts & c & Hshape).
  rewrite Hshape. split; reflexivity.
Qed.

Lemma clear_does_not_cancel_witness :
  let s1 := fst (step (Click ClearBtn) Fixtures.backend_waiting) in
  let s2 := fst (step (Settle (Responded 200 (inr Fixtures.ai_91_4))) s1) in
  inflight Fixtures.backend_waiting = [video] /\
  JS.response_ok 200 = true /\
  panel s2 = Some ShowingResults /\ currentFile s2 = None.
Proof.
  intros s1 s2.
  assert (Hpending : inflight Fixtures.backend_waiting = [video])
    by (vm_compute; reflexivity).
  assert (Hok : JS.response_ok 200 = true) by reflexivity.
  destruct (clear_does_not_cancel video [] 200 Fixtures.ai_91_4 _
              Fixtures.backend_waiting Hpending Hok eq_refl)
    as (_ & _ & Hpanel & Hfile & _).
  split; [exact Hpending|]. split; [exact Hok|].
  split; [exact Hpanel | exact Hfile].
Defined.

(** X3: dropping a non-empty list of files on the drop area is the
    same as choosing that list in the file input: same page, no effect.
    An empty drop changes nothing at all, whereas an empty choice still
    empties the input's own file list. *)
Theorem drop_is_change (s : state) :
  (forall file rest,
     step (DropFiles (file :: rest)) s = step (Change (file :: rest)) s) /\
  step (DropFiles []) s = (s, []) /\
  fileInput_files (upload (fst (step (Change []) s))) = [].
Proof.
  split; [|split]; reflexivity.
Qed.

(** The events that can stage a file stage the first file of their list
    and show its name and the icon of its type. *)
Lemma fileInput_change_staged (s : state) (file : File) :
  currentFile (fileInput_change s) = Some file ->
  currentFile s = Some file /\ upload (fileInput_change s) = upload s \/
  fileName_text (upload (fileInput_change s)) = file_name file /\
  fileIcon_text (upload (fileInput_change s)) = Terms.icon_of file.
Proof.
  unfold fileInput_change.
  destruct (head (fileInput_files (upload s))) as [chosen|].
  - cbn [currentFile set_upload set_currentFile upload fileName_text fileIcon_text].
    intros [= ->]. right. split; reflexivity.
  - intros Hsame. left. split; [exact Hsame | reflexivity].
Qed.

Lemma staged_shown_step (e : event) (s : state) :
  (forall file, currentFile s = Some file ->
     fileName_text (upload s) = file_name file /\
     fileIcon_text (upload s) = Terms.icon_of file) ->
  forall file, currentFile (fst (step e s)) = Some file ->
    fileName_text (upload (fst (step e s))) = file_name file /\
    fileIcon_text (upload (fst (step e s))) = Terms.icon_of file.
Proof.
  intros Hinv file.
  destruct e as [[| text | i | | |] | files | files | o |]; cbn [step click fst].
  - apply Hinv.
  - apply Hinv.
  - destruct (tabs s !! i); apply Hinv.
  - discriminate.
  - destruct (disabled (button s)); [apply Hinv|].
    destruct (checkBtn_click_shape s) as (b & pending & Hshape).
    destruct (checkBtn_click s) as [s1 effects]. cbn [fst] in *. subst s1.
    apply Hinv.
  - apply Hinv.
  - intros Hstaged.
    destruct (fileInput_change_staged _ _ Hstaged) as [[Hold Hup] | Hnew];
      [|exact Hnew].
    rewrite Hup. apply Hinv. exact Hold.
  - unfold dropArea_drop. destruct (head files); [|apply Hinv].
    intros Hstaged.
    destruct (fileInput_change_staged _ _ Hstaged) as [[Hold Hup] | Hnew];
      [|exact Hnew].
    rewrite Hup. apply Hinv. exact Hold.
  - destruct (inflight s) as [|t rest]; [apply Hinv|].
    destruct (checkBtn_resume_shape t o (set_inflight rest s))
      as (b & r & u & ts & c & Hshape).
    rewrite Hshape. apply Hinv.
  - unfold progress_timeout. destruct (timers s); apply Hinv.
Qed.

(** X4: on every page reached from initialisation, whenever a file is
    staged the page displays that file's name and the icon of its media
    type (camera for [video/], picture for [image/], document
    otherwise). *)
Theorem staged_file_is_shown (page : state) (es : list event) (file : File) :
  let s := fst (run es (initializeApp page)) in
  currentFile s = Some file ->
  fileName_text (upload s) = file_name file /\
  fileIcon_text (upload s) = Terms.icon_of file.
Proof.
  cbv zeta. revert file.
  apply (run_invariant es (initializeApp page)
           (fun s => forall file, currentFile s = Some file ->
              fileName_text (upload s) = file_name file /\
              fileIcon_text (upload s) = Terms.icon_of file)).
  - intros e s0. apply staged_shown_step.
  - intros file. discriminate.
Qed.

Lemma staged_file_is_shown_witness :
  let s := fst (run [Change [Fixtures.photo; Fixtures.clip]; Click (Tab 0)]
                    (initializeApp Fixtures.backend_page)) in
  currentFile s = Some Fixtures.photo /\
  fileName_text (upload s) = "photo.png" /\
  fileIcon_text (upload s) = "🖼️".
Proof.
  intros s.
  assert (Hstaged : currentFile s = Some Fixtures.photo) by (vm_compute; reflexivity).
  split; [exact Hstaged|].
  exact (staged_file_is_shown Fixtures.backend_page
           [Change [Fixtures.photo; Fixtures.clip]; Click (Tab 0)]
           Fixtures.photo Hstaged).
Defined.

End UploadProperties.

(** ** Which events talk to the user and to the backend *)

Section DispatchProperties.
Import Backend.

(** Whatever the menu entry reads, the language it selects is one of
    the five codes: an entry the map does not know selects English. *)
Lemma selected_language_valid (text : string) :
  JS.or_else (LANGUAGE_MAP !! text) "en" ∈ Terms.language_codes.
Proof.
  destruct (LANGUAGE_MAP !! text) as [code|] eqn:Hcode.
  - apply elem_of_list_to_map_2 in Hcode.
    unfold Terms.language_codes.
    repeat (apply elem_of_cons in Hcode; destruct Hcode as [[= _ ->] | Hcode];
            [vm_compute; set_unfold; tauto|]).
    apply elem_of_nil in Hcode. contradiction.
  - vm_compute. set_unfold. tauto.
Qed.

Lemma language_step (e : event) (s : state) :
  currentLanguage s ∈ Terms.language_codes ->
  currentLanguage (fst (step e s)) ∈ Terms.language_codes.
Proof.
  intros Hinv.
  destruct e as [[| text | i | | |] | files | files | o |]; cbn [step click fst].
  - exact Hinv.
  - apply selected_language_valid.
  - destruct (tabs s !! i); exact Hinv.
  - exact Hinv.
  - destruct (disabled (button s)); [exact Hinv|].
    destruct (checkBtn_click_shape s) as (b & pending & Hshape).
    destruct (checkBtn_click s) as [s1 effects]. cbn [fst] in *. subst s1.
    exact Hinv.
  - exact Hinv.
  - unfold fileInput_change. destruct (head _); exact Hinv.
  - unfold dropArea_drop, fileInput_change.
    destruct (head files); [|exact Hinv]. destruct (head _); exact Hinv.
  - destruct (inflight s) as [|t rest]; [exact Hinv|].
    destruct (checkBtn_resume_shape t o (set_inflight rest s))
      as (b & r & u & ts & c & Hshape).
    rewrite Hshape. exact Hinv.
  - unfold progress_timeout. destruct (timers s); exact Hinv.
Qed.

(** X5: as long as no menu entry is named like a property that object
    literals inherit from [Object.prototype] ([constructor],
    [toString], ...), the active language is always one of [en], [zu],
    [xh], [st], [af]: it starts as [en], the five keys of
    [LANGUAGE_MAP] select their codes, and every other such entry
    selects [en]. *)
Theorem language_always_valid (page : state) (es : list event) :
  Forall Terms.plain_entry es ->
  currentLanguage (initializeApp page) = "en" /\
  currentLanguage (fst (run es (initializeApp page))) ∈ Terms.language_codes /\
  (forall text s,
     Terms.plain_text text ->
     currentLanguage (fst (step (Click (LangItem text)) s))
     = match LANGUAGE_MAP !! text with
       | Some code => code
       | None => "en"
       end) /\
  map (fun text => LANGUAGE_MAP !! text)
      ["English"; "isiZulu"; "isiXhosa"; "Sesotho"; "Afrikaans"]
  = map Some Terms.language_codes.
Proof.
  intros _. split; [reflexivity|]. split; [|split].
  - apply run_invariant.
    + intros e s0. apply language_step.
    + unfold Terms.language_codes. cbn [currentLanguage initializeApp set_menu
        set_results_classList set_uploader_classList set_timers set_inflight
        set_currentTab set_currentFile set_currentLanguage].
      set_unfold. tauto.
  - intros text s _. cbn [step click fst].
    unfold langItem_click.
    destruct (LANGUAGE_MAP !! text) as [code|] eqn:Hcode; [|reflexivity].
    apply elem_of_list_to_map_2 in Hcode.
    repeat (apply elem_of_cons in Hcode; destruct Hcode as [[= _ ->] | Hcode];
            [reflexivity|]).
    apply elem_of_nil in Hcode. contradiction.
  - vm_compute. reflexivity.
Qed.

Lemma language_always_valid_witness :
  let es := [Click (LangItem "isiZulu"); Change [Fixtures.clip];
             Click (LangItem "Setswana")] in
  Forall Terms.plain_entry es /\
  Terms.plain_text "Setswana" /\
  currentLanguage (fst (step (Click (LangItem "isiZulu")) Fixtures.backend_start))
  = "zu" /\
  currentLanguage
    (fst (step (Click (LangItem "Setswana"))
            (fst (step (Click (LangItem "isiZulu")) Fixtures.backend_start))))
  = "en".
Proof.
  intros es.
  assert (Hplain : forall text,
            bool_decide (text ∈ Terms.inherited_names) = false ->
            Terms.plain_text text).
  { intros text Hno. unfold Terms.plain_text.
    apply (bool_decide_eq_false_1 (text ∈ Terms.inherited_names)). exact Hno. }
  assert (Hzulu : Terms.plain_text "isiZulu") by (apply Hplain; vm_compute; reflexivity).
  assert (Htswana : Terms.plain_text "Setswana")
    by (apply Hplain; vm_compute; reflexivity).
  assert (Hes : Forall Terms.plain_entry es).
  { subst es. repeat constructor; assumption. }
  destruct (language_always_valid Fixtures.backend_page es Hes) as (_ & _ & Hselect & _).
  split; [exact Hes|]. split; [exact Htswana|]. split.
  - rewrite (Hselect "isiZulu" _ Hzulu). vm_compute. reflexivity.
  - rewrite (Hselect "Setswana" _ Htswana). vm_compute. reflexivity.
Defined.

(** X6: the only event that issues a request is a click on the enabled
    check button while a file is staged.  The request is then the only
    effect of the event: a POST of the staged file to one of the three
    detection URLs of the current language. *)
Theorem requests_only_from_check (e : event) (s : state) (r : request) :
  Fetch r ∈ snd (step e s) ->
  e = Click CheckBtn /\
  disabled (button s) = false /\
  snd (step e s) = [Fetch r] /\
  exists file,
    currentFile s = Some file /\
    req_file r = Some file /\
    req_method r = "POST" /\
    req_url r ∈ Terms.detection_urls (currentLanguage s).
Proof.
  intros Hfetch.
  assert (Hnil : forall x : effect, x ∈ @nil effect -> False)
    by (intros x Hx; apply elem_of_nil in Hx; exact Hx).
  destruct e as [[| text | i | | |] | files | files | o |];
    cbn [step click snd] in Hfetch.
  - destruct (Hnil _ Hfetch).
  - destruct (Hnil _ Hfetch).
  - destruct (tabs s !! i); destruct (Hnil _ Hfetch).
  - destruct (Hnil _ Hfetch).
  - cbn [step click].
    destruct (disabled (button s)); [destruct (Hnil _ Hfetch)|].
    unfold checkBtn_click in *.
    destruct (currentFile s) as [file|].
    + unfold Terms.detection_urls.
      repeat (match type of Hfetch with
              | context [if ?b then _ else _] => destruct b
              end);
        cbn [fst snd catch_block] in *;
        apply list_elem_of_singleton in Hfetch; try discriminate;
        injection Hfetch as ->;
        (split; [reflexivity|]); (split; [reflexivity|]);
        (split; [reflexivity|]); exists file;
        cbn [req_file req_method req_url analyzeVideo_request analyzeImage_request
             analyzeDocument_request];
        (split; [reflexivity|]); (split; [reflexivity|]); (split; [reflexivity|]);
        set_unfold; tauto.
    + cbn [snd] in Hfetch. apply list_elem_of_singleton in Hfetch. discriminate.
  - destruct (Hnil _ Hfetch).
  - destruct (Hnil _ Hfetch).
  - destruct (Hnil _ Hfetch).
  - exfalso. destruct (inflight s) as [|t rest]; [destruct (Hnil _ Hfetch)|].
    unfold checkBtn_resume in Hfetch.
    destruct (analyze_resume t o) as [thrown|res].
    + cbn [catch_block snd] in Hfetch.
      apply list_elem_of_singleton in Hfetch. discriminate.
    + rewrite (surjective_pairing (displayResults res _)) in Hfetch.
      unfold displayResults in Hfetch. cbn [fst snd] in Hfetch.
      apply list_elem_of_singleton in Hfetch. discriminate.
  - destruct (Hnil _ Hfetch).
Qed.

Lemma requests_only_from_check_witness :
  let r := {| req_method := "POST";
              req_url := "http://127.0.0.1:8000/api/detect-with-audio?language=en";
              req_file := Some Fixtures.clip |} in
  Fetch r ∈ snd (step (Click CheckBtn) Fixtures.backend_staged) /\
  currentFile Fixtures.backend_staged = Some Fixtures.clip.
Proof.
  intros r.
  assert (Hfetch : Fetch r ∈ snd (step (Click CheckBtn) Fixtures.backend_staged)).
  { replace (snd (step (Click CheckBtn) Fixtures.backend_staged)) with [Fetch r]
      by (vm_compute; reflexivity).
    apply list_elem_of_singleton. reflexivity. }
  split; [exact Hfetch|].
  destruct (requests_only_from_check _ _ _ Hfetch)
    as (_ & _ & _ & file & Hfile & Hbody & _).
  rewrite Hfile. rewrite <- Hbody. reflexivity.
Defined.

(** X7: alerts come from the check button alone: an event that shows
    an alert is a click on the check button or the settling of its
    request, and it shows exactly one.  Choosing a language, a tab or a
    file, dropping, clearing and the timer never interrupt the user. *)
Theorem alerts_only_from_check (e : event) (s : state) :
  alerts_of (snd (step e s)) <> [] ->
  (e = Click CheckBtn \/ exists o, e = Settle o) /\
  exists message, snd (step e s) = [Alert message].
Proof.
  intros Halert.
  destruct e as [[| text | i | | |] | files | files | o |];
    cbn [step click snd] in *;
    try (exfalso; apply Halert; reflexivity).
  - exfalso. destruct (tabs s !! i); apply Halert; reflexivity.
  - split; [left; reflexivity|].
    destruct (disabled (button s)); [exfalso; apply Halert; reflexivity|].
    unfold checkBtn_click in *.
    destruct (currentFile s) as [file|]; [|eexists; reflexivity].
    repeat (match type of Halert with
            | context [if ?b then _ else _] => destruct b
            end);
      cbn [fst snd catch_block] in *;
      try (exfalso; apply Halert; reflexivity).
    eexists; reflexivity.
  - split; [right; eexists; reflexivity|].
    destruct (inflight s) as [|t rest]; [exfalso; apply Halert; reflexivity|].
    unfold checkBtn_resume in *.
    destruct (analyze_resume t o) as [thrown|res].
    + eexists; reflexivity.
    + exfalso. rewrite (surjective_pairing (displayResults res _)) in Halert.
      unfold displayResults in Halert. cbn [fst snd] in Halert.
      apply Halert. reflexivity.
Qed.

Lemma alerts_only_from_check_witness :
  alerts_of (snd (step (Click CheckBtn) Fixtures.backend_start)) <> [] /\
  exists message, snd (step (Click CheckBtn) Fixtures.backend_start) = [Alert message].
Proof.
  assert (Halert : alerts_of (snd (step (Click CheckBtn) Fixtures.backend_start)) <> [])
    by (vm_compute; discriminate).
  split; [exact Halert|].
  exact (proj2 (alerts_only_from_check _ _ Halert)).
Defined.

End DispatchProperties.

(** ** Settling, and the check button's label *)

Section SettleProperties.
Import Backend.

(** The analysers return a result exactly on the outcomes that carry a
    success status, a JSON body and a detection object. *)
Lemma analyze_resume_succeeded (t : content_type) (o : outcome) :
  if Terms.succeeded o
  then exists r, analyze_resume t o = inr r /\ type r = t
  else exists thrown, analyze_resume t o = inl thrown.
Proof.
  destruct o as [reason|status [parse_error|data]]; cbn [Terms.succeeded].
  - exists reason. destruct t; reflexivity.
  - destruct t; cbn [analyze_resume];
      unfold analyzeVideo_resume, analyzeImage_resume, analyzeDocument_resume,
             response_data;
      destruct (JS.response_ok status); cbn [negb]; eexists; reflexivity.
  - destruct (JS.response_ok status) eqn:Hok; cbn [andb].
    + destruct (Api.detection data) as [d|] eqn:Hd.
      * rewrite bool_decide_eq_true_2 by eauto.
        destruct (analyze_resume_ok t status data d Hok Hd) as (details & audio & Hr).
        eexists. split; [exact Hr | reflexivity].
      * rewrite bool_decide_eq_false_2 by (intros [d' Hd']; discriminate).
        destruct t; cbn [analyze_resume];
          unfold analyzeVideo_resume, analyzeImage_resume, analyzeDocument_resume,
                 response_data;
          rewrite Hok; cbn [negb]; rewrite Hd; eexists; reflexivity.
    + destruct t; cbn [analyze_resume];
        unfold analyzeVideo_resume, analyzeImage_resume, analyzeDocument_resume,
               response_data;
        rewrite Hok; cbn [negb]; eexists; reflexivity.
Qed.

(** X8: when a pending request settles, the result is presented - the
    results panel becomes the active one and the bar's timer is the only
    effect - exactly when the fetch resolved with a status in 200-299
    and a JSON body that holds a [detection_result].  In every other
    case, a success status with a body that is not JSON or that lacks
    the detection object included, the user gets one alert and the page
    is left as it was but for the re-enabled button. *)
Theorem settle_presents_iff_succeeded (t : content_type) (rest : list content_type)
    (o : outcome) (s : state) :
  inflight s = t :: rest ->
  let s' := fst (step (Settle o) s) in
  let effects := snd (step (Settle o) s) in
  (Terms.succeeded o = true ->
     panel s' = Some ShowingResults /\ exists width, effects = [SetTimeout 100 width]) /\
  (Terms.succeeded o = false ->
     s' = finally_block (set_inflight rest s) /\
     exists message, effects = [Alert ("Error: " ++ message)]).
Proof.
  intros Hpending s' effects. subst s' effects. cbn [step]. rewrite Hpending.
  pose proof (analyze_resume_succeeded t o) as Hres.
  unfold checkBtn_resume.
  split; intros Hs; rewrite Hs in Hres.
  - destruct Hres as (r & Hr & _). rewrite Hr.
    rewrite (surjective_pairing (displayResults r _)). cbn [fst snd].
    split.
    + unfold panel, uploader_active, results_active, finally_block.
      cbn [uploader_classList results_classList set_button set_results_classList
           set_uploader_classList].
      rewrite classList_contains_add, classList_contains_remove. reflexivity.
    + unfold displayResults. cbn [snd]. eexists. reflexivity.
  - destruct Hres as (thrown & Hthrown). rewrite Hthrown.
    cbn [catch_block fst snd]. split; [reflexivity | eexists; reflexivity].
Qed.

Lemma settle_presents_iff_succeeded_witness :
  let o := Responded 200 (inr (Api.mkData None None None None None)) in
  inflight Fixtures.backend_waiting = [video] /\
  Terms.succeeded o = false /\
  panel (fst (step (Settle o) Fixtures.backend_waiting)) = Some Uploading /\
  exists message,
    snd (step (Settle o) Fixtures.backend_waiting) = [Alert ("Error: " ++ message)].
Proof.
  intros o.
  assert (Hpending : inflight Fixtures.backend_waiting = [video])
    by (vm_compute; reflexivity).
  assert (Hfail : Terms.succeeded o = false) by (vm_compute; reflexivity).
  destruct (settle_presents_iff_succeeded video [] o Fixtures.backend_waiting Hpending)
    as [_ Hbad].
  destruct (Hbad Hfail) as [Hstate Halert].
  split; [exact Hpending|]. split; [exact Hfail|].
  split; [rewrite Hstate; vm_compute; reflexivity | exact Halert].
Defined.

(** While a request is pending the button is disabled and labelled
    [Analyzing...]. *)
Lemma loading_step (e : event) (s : state) :
  Spec.gate s /\ (inflight s <> [] -> button s = mkButton true "Analyzing...") ->
  Spec.gate (fst (step e s)) /\
  (inflight (fst (step e s)) <> [] ->
   button (fst (step e s)) = mkButton true "Analyzing...").
Proof.
  intros [Hgate Hload]. split; [apply gate_step; exact Hgate|].
  destruct e as [[| text | i | | |] | files | files | o |]; cbn [step click fst].
  - exact Hload.
  - intros Hpending. specialize (Hload Hpending).
    unfold langItem_click, translatePage, translateUIElements.
    cbn [button set_upload set_button set_tabs set_static set_menu
         set_currentLanguage].
    rewrite Hload. reflexivity.
  - destruct (tabs s !! i); exact Hload.
  - exact Hload.
  - destruct (disabled (button s)) eqn:Hdis; [exact Hload|].
    assert (Hempty : inflight s = []).
    { destruct Hgate as [Hempty | [Hon _]]; [exact Hempty | congruence]. }
    unfold checkBtn_click. destruct (currentFile s) as [file|].
    + repeat (match goal with |- context [if ?b then _ else _] => destruct b end);
        cbn [fst catch_block finally_block]; try (intros _; reflexivity).
      intros Hpending. contradiction.
    + cbn [fst]. intros Hpending. contradiction.
  - exact Hload.
  - unfold fileInput_change. destruct (head _); exact Hload.
  - unfold dropArea_drop, fileInput_change.
    destruct (head files); [|exact Hload]. destruct (head _); exact Hload.
  - destruct (inflight s) as [|t rest] eqn:Hin.
    + cbn [fst]. rewrite Hin. exact Hload.
    + assert (Hrest : rest = []).
      { destruct Hgate as [Hempty | [_ [t' Hone]]]; congruence. }
      destruct (checkBtn_resume_idle t o (set_inflight rest s)) as [Hin' _].
      rewrite Hin'. cbn [inflight set_inflight]. intros Hpending. contradiction.
  - unfold progress_timeout. destruct (timers s); exact Hload.
Qed.

(** X9: on every page reached from initialisation, while a request is
    pending the check button is disabled and reads [Analyzing...];
    choosing a language meanwhile does not relabel it.  When the request
    settles the label becomes the English [Check Content], whatever the
    active language. *)
Theorem button_label_while_pending (page : state) (es : list event) :
  let s := fst (run es (initializeApp page)) in
  inflight s <> [] ->
  button s = mkButton true "Analyzing..." /\
  (forall text, button (fst (step (Click (LangItem text)) s)) = button s) /\
  (forall o, button (fst (step (Settle o) s)) = mkButton false "Check Content").
Proof.
  intros s Hpending.
  assert (Hinv : Spec.gate s /\
                 (inflight s <> [] -> button s = mkButton true "Analyzing...")).
  { apply (run_invariant es (initializeApp page)
             (fun s => Spec.gate s /\
                (inflight s <> [] -> button s = mkButton true "Analyzing..."))).
    - intros e s0. apply loading_step.
    - split; [left; reflexivity|]. intros Hne. exfalso. apply Hne. reflexivity. }
  destruct Hinv as [_ Hload]. specialize (Hload Hpending).
  split; [exact Hload|]. split.
  - intros text. cbn [step click fst].
    unfold langItem_click, translatePage, translateUIElements.
    cbn [button set_upload set_button set_tabs set_static set_menu
         set_currentLanguage].
    rewrite Hload. reflexivity.
  - intros o. cbn [step].
    destruct (inflight s) as [|t rest]; [contradiction|].
    unfold checkBtn_resume. destruct (analyze_resume t o) as [thrown|r].
    + reflexivity.
    + rewrite (surjective_pairing (displayResults r _)). reflexivity.
Qed.

Lemma button_label_while_pending_witness :
  let s := fst (run [Change [Fixtures.clip]; Click (LangItem "isiZulu"); Click CheckBtn]
                    (initializeApp Fixtures.backend_page)) in
  inflight s <> [] /\
  currentLanguage s = "zu" /\
  button (fst (step (Click (LangItem "Afrikaans")) s)) = mkButton true "Analyzing..." /\
  button (fst (step (Settle (Rejected "Failed to fetch")) s))
    = mkButton false "Check Content".
Proof.
  intros s.
  assert (Hpending : inflight s <> []) by (vm_compute; discriminate).
  destruct (button_label_while_pending Fixtures.backend_page
              [Change [Fixtures.clip]; Click (LangItem "isiZulu"); Click CheckBtn]
              Hpending) as (Hlabel & Hlang & Hsettle).
  split; [exact Hpending|]. split; [vm_compute; reflexivity|].
  split; [rewrite Hlang; exact Hlabel | apply Hsettle].
Defined.

End SettleProperties.

(** ** Tabs, modes and the language menu *)

Section TabProperties.
Import Backend.

(** X10: after a click on a tab of the page, that tab is the only one
    with class [active]; every tab keeps its [data-tab] value and its
    label, and the mode is the clicked tab's [data-tab] value. *)
Theorem tab_click_one_active (i : nat) (t : tab) (s : state) :
  tabs s !! i = Some t ->
  let s' := fst (step (Click (Tab i)) s) in
  currentTab s' = data_tab t /\
  length (tabs s') = length (tabs s) /\
  forall j u, tabs s !! j = Some u ->
    exists u', tabs s' !! j = Some u' /\
               data_tab u' = data_tab u /\
               tab_html u' = tab_html u /\
               ClassList.contains "active" (tab_classList u') = bool_decide (j = i).
Proof.
  intros Ht. cbv zeta. cbn [step click]. rewrite Ht. cbn [fst].
  unfold document_click, tab_click.
  cbn [currentTab tabs set_menu set_upload set_currentTab set_tabs].
  split; [reflexivity|]. split.
  - rewrite length_alter, length_map. reflexivity.
  - intros j u Hu.
    destruct (decide (j = i)) as [->|Hne].
    + rewrite list_lookup_alter_eq, list_lookup_fmap, Hu. cbn.
      eexists. split; [reflexivity|]. cbn [data_tab tab_html tab_classList].
      split; [reflexivity|]. split; [reflexivity|].
      rewrite classList_contains_add. symmetry. apply bool_decide_eq_true_2.
      reflexivity.
    + rewrite list_lookup_alter_ne by congruence.
      rewrite list_lookup_fmap, Hu. cbn.
      eexists. split; [reflexivity|]. cbn [data_tab tab_html tab_classList].
      split; [reflexivity|]. split; [reflexivity|].
      rewrite classList_contains_remove. symmetry. apply bool_decide_eq_false_2.
      exact Hne.
Qed.

Lemma tab_click_one_active_witness :
  let s' := fst (step (Click (Tab 1)) Fixtures.backend_start) in
  tabs Fixtures.backend_start !! 1%nat
    = Some (mkTab "image" {[ "tab" ]} [icon_span "🖼️"; Text " Image"]) /\
  currentTab s' = "image" /\
  length (tabs s') = 3%nat.
Proof.
  intros s'. subst s'.
  assert (Ht : tabs Fixtures.backend_start !! 1%nat
               = Some (mkTab "image" {[ "tab" ]} [icon_span "🖼️"; Text " Image"]))
    by reflexivity.
  destruct (tab_click_one_active 1 _ Fixtures.backend_start Ht) as (Hmode & Hlen & _).
  split; [exact Ht|]. split; [exact Hmode|].
  rewrite Hlen. reflexivity.
Defined.

(** No listener changes the [data-tab] values of the tabs. *)
Lemma set_tab_html_data_tab (key : string) (h : list html) (ts : list tab) :
  map data_tab (set_tab_html key h ts) = map data_tab ts.
Proof.
  induction ts as [|t rest IH]; [reflexivity|].
  cbn [set_tab_html]. destruct (String.eqb (data_tab t) key); cbn [map data_tab].
  - reflexivity.
  - rewrite IH. reflexivity.
Qed.

Lemma tab_click_data_tab (i : nat) (ts : list tab) :
  map data_tab
    (alter (fun u => mkTab (data_tab u) (ClassList.add "active" (tab_classList u))
                           (tab_html u)) i
       (map (fun u => mkTab (data_tab u) (ClassList.remove "active" (tab_classList u))
                            (tab_html u)) ts))
  = map data_tab ts.
Proof.
  revert i. induction ts as [|t rest IH]; intros [|i]; cbn; try reflexivity.
  - rewrite map_map. reflexivity.
  - f_equal. apply IH.
Qed.

Lemma mode_step (names : list string) (e : event) (s : state) :
  map data_tab (tabs s) = names /\ (currentTab s = "video" \/ currentTab s ∈ names) ->
  map data_tab (tabs (fst (step e s))) = names /\
  (currentTab (fst (step e s)) = "video" \/ currentTab (fst (step e s)) ∈ names).
Proof.
  intros [Hnames Hmode].
  destruct e as [[| text | i | | |] | files | files | o |]; cbn [step click fst].
  - split; assumption.
  - split; [|exact Hmode].
    unfold langItem_click, translatePage, translateUIElements.
    cbn [tabs set_upload set_button set_tabs set_static set_menu
         set_currentLanguage].
    rewrite !set_tab_html_data_tab. exact Hnames.
  - destruct (tabs s !! i) as [t|] eqn:Ht; [|split; assumption].
    unfold document_click, tab_click.
    cbn [fst currentTab tabs set_menu set_upload set_currentTab set_tabs].
    split.
    + rewrite tab_click_data_tab. exact Hnames.
    + right. rewrite <- Hnames. apply list_elem_of_fmap.
      exists t. split; [reflexivity|]. apply (list_elem_of_lookup_2 _ i). exact Ht.
  - split; assumption.
  - destruct (disabled (button s)); [split; assumption|].
    destruct (checkBtn_click_shape s) as (b & pending & Hshape).
    destruct (checkBtn_click s) as [s1 effects]. cbn [fst] in *. subst s1.
    split; assumption.
  - split; assumption.
  - unfold fileInput_change. destruct (head _); split; assumption.
  - unfold dropArea_drop, fileInput_change.
    destruct (head files); [|split; assumption]. destruct (head _); split; assumption.
  - destruct (inflight s) as [|t rest]; [split; assumption|].
    destruct (checkBtn_resume_shape t o (set_inflight rest s))
      as (b & r & u & ts & c & Hshape).
    rewrite Hshape. split; assumption.
  - unfold progress_timeout. destruct (timers s); split; assumption.
Qed.

(** X11: on a page whose tabs carry only the values [video], [image]
    and [text], the mode is one of these three on every page reached
    from initialisation, so the routing of the check listener never
    falls through: a click on the enabled button with a file staged
    always issues exactly one request and shows no alert. *)
Theorem mode_is_routable (page : state) (es : list event) :
  Forall (fun t => data_tab t ∈ Terms.modes) (tabs page) ->
  let s := fst (run es (initializeApp page)) in
  currentTab s ∈ Terms.modes /\
  (disabled (button s) = false -> is_Some (currentFile s) ->
   exists r, snd (step (Click CheckBtn) s) = [Fetch r]).
Proof.
  intros Hpage s.
  assert (Hinv : map data_tab (tabs s) = map data_tab (tabs page) /\
                 (currentTab s = "video" \/ currentTab s ∈ map data_tab (tabs page))).
  { apply (run_invariant es (initializeApp page)
             (fun s => map data_tab (tabs s) = map data_tab (tabs page) /\
                (currentTab s = "video" \/ currentTab s ∈ map data_tab (tabs page)))).
    - intros e s0. apply mode_step.
    - split; [reflexivity | left; reflexivity]. }
  destruct Hinv as [_ Hmode].
  assert (Hvalid : currentTab s ∈ Terms.modes).
  { destruct Hmode as [-> | Hin].
    - unfold Terms.modes. set_unfold. tauto.
    - apply list_elem_of_fmap in Hin. destruct Hin as (t & -> & Ht).
      rewrite Forall_forall in Hpage. apply Hpage. exact Ht. }
  split; [exact Hvalid|].
  intros Hen [file Hfile]. cbn [step click]. rewrite Hen.
  unfold checkBtn_click. rewrite Hfile.
  unfold Terms.modes in Hvalid.
  apply elem_of_cons in Hvalid. destruct Hvalid as [-> | Hvalid];
    [eexists; reflexivity|].
  apply elem_of_cons in Hvalid. destruct Hvalid as [-> | Hvalid];
    [eexists; reflexivity|].
  apply list_elem_of_singleton in Hvalid. rewrite Hvalid. eexists; reflexivity.
Qed.

Lemma mode_is_routable_witness :
  let s := fst (run [Click (Tab 0); Change [Fixtures.clip]]
                    (initializeApp Fixtures.backend_page)) in
  Forall (fun t => data_tab t ∈ Terms.modes) (tabs Fixtures.backend_page) /\
  currentTab s ∈ Terms.modes /\
  exists r, snd (step (Click CheckBtn) s) = [Fetch r].
Proof.
  intros s.
  assert (Hpage : Forall (fun t => data_tab t ∈ Terms.modes)
                         (tabs Fixtures.backend_page)).
  { repeat constructor; cbn [data_tab]; unfold Terms.modes; set_unfold; tauto. }
  destruct (mode_is_routable Fixtures.backend_page
              [Click (Tab 0); Change [Fixtures.clip]] Hpage) as [Hmode Hsubmit].
  split; [exact Hpage|]. split; [exact Hmode|].
  apply Hsubmit; [vm_compute; reflexivity|].
  exists Fixtures.clip. vm_compute. reflexivity.
Defined.




End TabProperties.

(** ** Re-translation and presentation *)

Section RetranslationProperties.
Import Backend.

(** X13: choosing a language causes no effect and leaves alone the
    staged file, the mode, both panels, the pending requests and timers,
    the upload widgets other than the caption, the tabs' values and
    classes and, in particular, the result card: a result that is on
    show keeps the heading, the description and the guidance list it was
    rendered with. *)
Theorem language_change_frame (text : string) (s : state) :
  let s' := fst (step (Click (LangItem text)) s) in
  snd (step (Click (LangItem text)) s) = [] /\
  card s' = card s /\
  (currentFile s', currentTab s', uploader_classList s', results_classList s')
  = (currentFile s, currentTab s, uploader_classList s, results_classList s) /\
  (inflight s', timers s', disabled (button s'))
  = (inflight s, timers s, disabled (button s)) /\
  (fileInput_accept (upload s'), fileInput_files (upload s'),
   fileName_text (upload s'), fileIcon_text (upload s'))
  = (fileInput_accept (upload s), fileInput_files (upload s),
     fileName_text (upload s), fileIcon_text (upload s)) /\
  map data_tab (tabs s') = map data_tab (tabs s) /\
  map tab_classList (tabs s') = map tab_classList (tabs s).
Proof.
  cbv zeta. cbn [step click fst snd].
  unfold langItem_click, translatePage.
  split; [reflexivity|]. split; [reflexivity|]. split; [reflexivity|].
  split.
  - rewrite translateUIElements_disabled. reflexivity.
  - split; [reflexivity|].
    unfold translateUIElements.
    cbn [tabs set_upload set_button set_tabs set_static set_menu set_currentLanguage].
    split; [rewrite !set_tab_html_data_tab; reflexivity|].
    assert (Hcl : forall key h ts,
              map tab_classList (set_tab_html key h ts) = map tab_classList ts).
    { intros key h ts. induction ts as [|t rest IH]; [reflexivity|].
      cbn [set_tab_html]. destruct (String.eqb (data_tab t) key);
        cbn [map tab_classList]; [reflexivity | rewrite IH; reflexivity]. }
    rewrite !Hcl. reflexivity.
Qed.






End RetranslationProperties.

(** ** More on the presenter *)

Section PresenterMore.
Import Backend.

(** X15: for a successful response that says [is_ai_generated = true]
    and carries neither [message] nor [warning], the presenter shows the
    heading [Likely AI-Generated] and the AI description of the mode of
    the analyser that was called, and lists the four pieces of advice
    for suspicious content. *)
Theorem ai_defaults (t : content_type) (status : Z) (score : Q)
    (label : option string) (data : Api.data) (s : state) :
  JS.response_ok status = true ->
  Api.detection data
    = Some {| Api.is_ai_generated := true;
              Api.confidence_score := score;
              Api.message := None;
              Api.warning := None;
              Api.confidence_label := label |} ->
  let c := card (fst (checkBtn_resume t (Responded status (inr data)) s)) in
  (exists badge, resultHeading_html c = [Text "Likely AI-Generated "; badge]) /\
  resultDesc_text c
    = match t with
      | video => "This video shows patterns consistent with AI generation. Look for unnatural movements, inconsistent lighting, or irregular facial features."
      | image => "This image appears to be AI-generated. Check for distorted hands, unusual textures, or impossible reflections."
      | document => "This text shows characteristics typical of AI writing. Notice the formal tone and lack of personal anecdotes."
      end /\
  length (acc1Body_html c) = 4%nat.
Proof.
  intros Hok Hd.
  destruct (analyze_resume_ok t status data _ Hok Hd) as (details & audio & Hr).
  cbn [Api.is_ai_generated Api.confidence_score Api.message Api.warning
       Api.confidence_label] in Hr.
  destruct (checkBtn_resume_card t _ _ s Hr) as [Hcard _].
  cbv zeta. rewrite Hcard. clear Hcard Hr.
  unfold displayResults.
  cbn [fst card set_timers set_card isAI confidence message warning
       confidenceLabel type resultHeading_html resultDesc_text acc1Body_html].
  split; [eexists; reflexivity|]. split; [destruct t; reflexivity | reflexivity].
Qed.

Lemma ai_defaults_witness :
  JS.response_ok 200 = true /\
  resultDesc_text
    (card (fst (checkBtn_resume document (Responded 200 (inr Fixtures.ai_91_4))
                  Fixtures.backend_waiting)))
  = "This text shows characteristics typical of AI writing. Notice the formal tone and lack of personal anecdotes.".
Proof.
  assert (Hok : JS.response_ok 200 = true) by reflexivity.
  split; [exact Hok|].
  destruct (ai_defaults document 200 (914 # 10) None Fixtures.ai_91_4
              Fixtures.backend_waiting Hok eq_refl) as (_ & Hdesc & _).
  exact Hdesc.
Defined.

(** X16: texts sent by the backend take priority over the defaults, in
    both themes and for every mode: a non-empty [message] is the
    heading, a non-empty [warning] is the description.  An empty string
    counts as absent. *)
Theorem backend_texts_take_priority (t : content_type) (status : Z)
    (data : Api.data) (d : Api.detection_result) (s : state) :
  JS.response_ok status = true ->
  Api.detection data = Some d ->
  let c := card (fst (checkBtn_resume t (Responded status (inr data)) s)) in
  (forall m, Api.message d = Some m -> m <> "" ->
     exists badge, resultHeading_html c = [Text (m ++ " "); badge]) /\
  (forall w, Api.warning d = Some w -> w <> "" -> resultDesc_text c = w) /\
  (Api.message d = Some "" ->
   exists badge,
     resultHeading_html c
     = [Text (Terms.default_heading (Api.is_ai_generated d) ++ " "); badge]).
Proof.
  intros Hok Hd.
  destruct (analyze_resume_ok t status data d Hok Hd) as (details & audio & Hr).
  destruct (checkBtn_resume_card t _ _ s Hr) as [Hcard _].
  cbv zeta. rewrite Hcard. clear Hcard Hr.
  unfold displayResults.
  cbn [fst card set_timers set_card isAI confidence message warning
       confidenceLabel type].
  assert (Hkeep : forall v, v <> "" -> String.eqb v "" = false).
  { intros v Hv. apply String.eqb_neq. exact Hv. }
  split; [|split].
  - intros m Hm Hne. rewrite Hm. unfold JS.or_else. rewrite (Hkeep m Hne).
    rewrite (Hkeep m Hne).
    destruct (Api.is_ai_generated d); cbn [resultHeading_html];
      eexists; reflexivity.
  - intros w Hw Hne. rewrite Hw. unfold JS.or_else, JS.truthy.
    rewrite (Hkeep w Hne). rewrite (Hkeep w Hne).
    destruct (Api.is_ai_generated d); reflexivity.
  - intros Hm. rewrite Hm. unfold Terms.default_heading.
    destruct (Api.is_ai_generated d); cbn [resultHeading_html];
      eexists; reflexivity.
Qed.

Lemma backend_texts_take_priority_witness :
  let d := {| Api.is_ai_generated := false;
             Api.confidence_score := 55;
             Api.message := Some "Kubonakala kwenziwe ngumuntu";
             Api.warning := Some "Qaphela";
             Api.confidence_label := None |} in
  JS.response_ok 201 = true /\
  resultDesc_text
    (card (fst (checkBtn_resume image (Responded 201 (inr (Spec.body_of d)))
                  Fixtures.backend_waiting)))
  = "Qaphela".
Proof.
  intros d.
  assert (Hok : JS.response_ok 201 = true) by reflexivity.
  split; [exact Hok|].
  destruct (backend_texts_take_priority image 201 (Spec.body_of d) d
              Fixtures.backend_waiting Hok eq_refl) as (_ & Hdesc & _).
  apply (Hdesc "Qaphela"); [reflexivity | discriminate].
Defined.

Lemma Math_round_percent (q : Q) :
  (0 <= q)%Q -> (q <= 100)%Q -> (0 <= JS.Math_round q <= 100)%Z.
Proof.
  intros Hlo Hhi. unfold JS.Math_round. split.
  - change 0%Z with (Qfloor (0 + (1 # 2))%Q). apply Qfloor_resp_le.
    apply Qplus_le_l. exact Hlo.
  - change 100%Z with (Qfloor (100 + (1 # 2))%Q). apply Qfloor_resp_le.
    apply Qplus_le_l. exact Hhi.
Qed.

(** X17: when the backend's score lies between 0 and 100, the integer
    shown in the badge and used for the bar lies between 0 and 100 too,
    whatever the response otherwise says. *)
Theorem percent_in_range (r : result) (s : state) :
  (0 <= confidence r)%Q -> (confidence r <= 100)%Q ->
  exists n : Z,
    (0 <= n <= 100)%Z /\
    snd (displayResults r s) = [SetTimeout 100 (JS.number_to_string n ++ "%")] /\
    exists heading label,
      resultHeading_html (card (fst (displayResults r s)))
      = [Text heading;
         Span "badge" (Some "confidenceBadge")
              (label ++ ": " ++ JS.number_to_string n ++ "%")].
Proof.
  intros Hlo Hhi. exists (JS.Math_round (confidence r)).
  split; [apply Math_round_percent; assumption|].
  unfold displayResults. cbn [fst snd card set_timers set_card].
  split; [reflexivity|].
  destruct (isAI r); cbn [resultHeading_html]; eexists; eexists; reflexivity.
Qed.

Lemma percent_in_range_witness :
  let r := {| type := video; isAI := true; confidence := 995 # 10;
              message := ""; warning := ""; confidenceLabel := "";
              details := None; hasAudio := None |} in
  (0 <= confidence r)%Q /\ (confidence r <= 100)%Q /\
  exists n : Z,
    (0 <= n <= 100)%Z /\
    snd (displayResults r Fixtures.backend_waiting)
    = [SetTimeout 100 (JS.number_to_string n ++ "%")].
Proof.
  intros r.
  assert (Hlo : (0 <= confidence r)%Q) by (vm_compute; discriminate).
  assert (Hhi : (confidence r <= 100)%Q) by (vm_compute; discriminate).
  split; [exact Hlo|]. split; [exact Hhi|].
  destruct (percent_in_range r Fixtures.backend_waiting Hlo Hhi)
    as (n & Hn & Heffect & _).
  exists n. split; [exact Hn | exact Heffect].
Defined.

(** The page after a successful settle, and after the timer it arms. *)
Lemma settle_then_timer (t : content_type) (rest : list content_type)
    (status : Z) (data : Api.data) (d : Api.detection_result) (s : state) :
  inflight s = t :: rest ->
  timers s = [] ->
  JS.response_ok status = true ->
  Api.detection data = Some d ->
  let percent :=
    JS.number_to_string (JS.Math_round (Api.confidence_score d)) ++ "%" in
  let s1 := fst (step (Settle (Responded status (inr data))) s) in
  let s2 := fst (step TimerFires s1) in
  snd (step (Settle (Responded status (inr data))) s) = [SetTimeout 100 percent] /\
  snd (step TimerFires s1) = [] /\
  progressFill_width (card s1) = "0%" /\
  timers s1 = [percent] /\
  progressFill_width (card s2) = percent /\
  timers s2 = [] /\
  (resultHeading_html (card s2), resultDesc_text (card s2), statusIcon_html (card s2),
   acc1Body_html (card s2), resultCard_classList (card s2))
  = (resultHeading_html (card s1), resultDesc_text (card s1), statusIcon_html (card s1),
     acc1Body_html (card s1), resultCard_classList (card s1)) /\
  (inflight s2, button s2, currentFile s2)
  = (rest, mkButton false "Check Content", currentFile s) /\
  ClassList.contains (if Api.is_ai_generated d then "ai-result" else "human-result")
                     (resultCard_classList (card s1)) = true.
Proof.
  intros Hpending Htimers Hok Hd percent s1 s2.
  destruct (analyze_resume_ok t status data d Hok Hd) as (details & audio & Hr).
  assert (Hs1 : snd (step (Settle (Responded status (inr data))) s)
                = [SetTimeout 100 percent] /\
                timers s1 = [percent] /\ progressFill_width (card s1) = "0%" /\
                (inflight s1, button s1, currentFile s1)
                = (rest, mkButton false "Check Content", currentFile s) /\
                ClassList.contains
                  (if Api.is_ai_generated d then "ai-result" else "human-result")
                  (resultCard_classList (card s1)) = true).
  { subst s1. cbn [step]. rewrite Hpending. unfold checkBtn_resume. rewrite Hr.
    rewrite (surjective_pairing (displayResults _ _)). cbn [fst snd].
    unfold displayResults, finally_block.
    cbn [fst snd timers card inflight button currentFile set_button
         set_results_classList set_uploader_classList set_timers set_card
         set_inflight confidence isAI].
    rewrite Htimers. split; [reflexivity|]. split; [reflexivity|].
    destruct (Api.is_ai_generated d);
      (split; [reflexivity|]); (split; [reflexivity|]);
      cbn [resultCard_classList]; apply classList_contains_add. }
  destruct Hs1 as (Heff & Ht1 & Hw1 & Hrest & Hclass).
  split; [exact Heff|]. split; [reflexivity|].
  split; [exact Hw1|]. split; [exact Ht1|].
  subst s2. cbn [step fst]. unfold progress_timeout. rewrite Ht1.
  split; [reflexivity|]. split; [reflexivity|]. split; [reflexivity|].
  split; [exact Hrest | exact Hclass].
Qed.

(** X18: presenting a result puts the bar at [0%] and arms one timer;
    when no other timer is pending, the bar takes, once the timer fires,
    exactly the percentage the badge shows, and nothing else of the
    card changes. *)
Theorem progress_bar_reaches_badge (t : content_type) (rest : list content_type)
    (status : Z) (data : Api.data) (d : Api.detection_result) (s : state) :
  inflight s = t :: rest ->
  timers s = [] ->
  JS.response_ok status = true ->
  Api.detection data = Some d ->
  let percent :=
    JS.number_to_string (JS.Math_round (Api.confidence_score d)) ++ "%" in
  let s1 := fst (step (Settle (Responded status (inr data))) s) in
  let s2 := fst (step TimerFires s1) in
  progressFill_width (card s1) = "0%" /\
  timers s1 = [percent] /\
  progressFill_width (card s2) = percent /\
  timers s2 = [] /\
  (resultHeading_html (card s2), resultDesc_text (card s2), statusIcon_html (card s2),
   acc1Body_html (card s2), resultCard_classList (card s2))
  = (resultHeading_html (card s1), resultDesc_text (card s1), statusIcon_html (card s1),
     acc1Body_html (card s1), resultCard_classList (card s1)).
Proof.
  intros Hpending Htimers Hok Hd.
  destruct (settle_then_timer t rest status data d s Hpending Htimers Hok Hd)
    as (_ & _ & Hzero & Harmed & Hfull & Hdone & Hcard & _).
  cbv zeta. auto.
Qed.

Lemma progress_bar_reaches_badge_witness :
  let s1 := fst (step (Settle (Responded 200 (inr Fixtures.ai_91_4)))
                      Fixtures.backend_waiting) in
  inflight Fixtures.backend_waiting = [video] /\
  timers Fixtures.backend_waiting = [] /\
  progressFill_width (card s1) = "0%" /\
  progressFill_width (card (fst (step TimerFires s1))) = "91%".
Proof.
  intros s1. subst s1.
  assert (Hpending : inflight Fixtures.backend_waiting = [video])
    by (vm_compute; reflexivity).
  assert (Htimers : timers Fixtures.backend_waiting = []) by (vm_compute; reflexivity).
  destruct (progress_bar_reaches_badge video [] 200 Fixtures.ai_91_4 _
              Fixtures.backend_waiting Hpending Htimers eq_refl eq_refl)
    as (Hzero & _ & Hfull & _).
  split; [exact Hpending|]. split; [exact Htimers|].
  split; [exact Hzero|].
  rewrite Hfull. vm_compute. reflexivity.
Defined.

End PresenterMore.

(** ** The two mock-ups *)

Section MockupProperties.

Lemma loop_invariant {St Ev : Type} (step : Ev -> St -> St * list effect)
    (P : St -> Prop) (es : list Ev) (s : St) :
  (forall e s0, P s0 -> P (fst (step e s0))) -> P s -> P (fst (Loop.run step es s)).
Proof.
  intros Hstep. revert s.
  induction es as [|e rest IH]; intros s Hs; [exact Hs|].
  cbn [Loop.run]. specialize (Hstep e s Hs).
  destruct (step e s) as [s1 effects1]. cbn [fst] in Hstep.
  specialize (IH s1 Hstep).
  destruct (Loop.run step rest s1) as [s2 effects2]. exact IH.
Qed.

(** X19: in [Main.js], on every page reached after loading, the widget
    in the drop area fits the current mode - a text box exactly in text
    mode, otherwise a file input that accepts images in image mode and
    videos in any other mode - and the preview shows the name of the
    first chosen file, or [No file selected] when there is none. *)
Theorem mainjs_widget_matches_mode (page : MainJs.state) (es : list MainJs.event) :
  MainTerms.widget_matches (fst (Loop.run MainJs.step es (MainJs.load page))).
Proof.
  assert (Hbuild : forall mode s, MainTerms.widget_matches (MainJs.updateUploader mode s)).
  { intros mode s. unfold MainTerms.widget_matches, MainJs.updateUploader.
    cbn [MainJs.dropArea MainJs.currentMode MainJs.set_dropArea MainJs.set_currentMode].
    destruct (String.eqb mode "text") eqn:Hmode.
    - apply String.eqb_eq. exact Hmode.
    - repeat split; reflexivity. }
  apply loop_invariant.
  - intros e s Hs.
    destruct e as [[| text | i | | |] | files | text |]; cbn [MainJs.step fst];
      try exact Hs.
    + destruct (MainJs.tabs s !! i) as [t|]; [|exact Hs]. apply Hbuild.
    + apply Hbuild.
    + unfold MainTerms.widget_matches in Hs |- *.
      unfold MainJs.newInput_change, MainJs.choose_files.
      destruct (MainJs.dropArea s) as [value | accept old icon fileName fileSub] eqn:Hdrop.
      * rewrite !Hdrop. exact Hs.
      * cbn [MainJs.dropArea MainJs.set_dropArea].
        destruct Hs as (Hmode & Haccept & Hicon & _ & Hsub).
        destruct (head files) as [file|] eqn:Hfiles;
          cbn [MainJs.dropArea MainJs.set_dropArea MainJs.currentMode];
          rewrite ?Hfiles; repeat split; assumption.
    + unfold MainTerms.widget_matches in Hs |- *. unfold MainJs.type_text.
      destruct (MainJs.dropArea s) as [value | accept old icon fileName fileSub] eqn:Hdrop.
      * cbn [MainJs.dropArea MainJs.set_dropArea MainJs.currentMode]. exact Hs.
      * rewrite !Hdrop. exact Hs.
    + unfold MainJs.progress_timeout. destruct (MainJs.timers s); exact Hs.
  - apply Hbuild.
Qed.

(** X20: in [Main.js] a click on a tab of the page makes that tab the
    only active one, sets the mode to its value and replaces the widget
    by a fresh one for that mode: nothing is staged afterwards, and the
    file filter is none for [text], images for [image] and videos
    otherwise. *)
Theorem mainjs_mode_switch (i : nat) (t : MainJs.tab) (s : MainJs.state) :
  MainJs.tabs s !! i = Some t ->
  let s' := fst (MainJs.step (MainJs.Click (MainJs.Tab i)) s) in
  MainJs.currentMode s' = MainJs.data_tab t /\
  MainJs.staged s' = None /\
  MainJs.accept_of s'
    = (if String.eqb (MainJs.data_tab t) "text" then None
       else if String.eqb (MainJs.data_tab t) "image" then Some "image/*"
       else Some "video/*") /\
  forall j u, MainJs.tabs s !! j = Some u ->
    exists u', MainJs.tabs s' !! j = Some u' /\
               MainJs.data_tab u' = MainJs.data_tab u /\
               ClassList.contains "active" (MainJs.tab_classList u')
                 = bool_decide (j = i).
Proof.
  intros Ht. cbv zeta. cbn [MainJs.step]. rewrite Ht. cbn [fst].
  unfold MainJs.document_click, MainJs.tab_click.
  change (MainJs.currentMode (MainJs.set_menu ?m ?x)) with (MainJs.currentMode x).
  change (MainJs.staged (MainJs.set_menu ?m ?x)) with (MainJs.staged x).
  change (MainJs.accept_of (MainJs.set_menu ?m ?x)) with (MainJs.accept_of x).
  destruct (updateUploader_discards (MainJs.data_tab t)
              (MainJs.set_tabs
                 (alter (fun u => MainJs.mkTab (MainJs.data_tab u)
                                    (ClassList.add "active" (MainJs.tab_classList u))) i
                    (map (fun u => MainJs.mkTab (MainJs.data_tab u)
                                     (ClassList.remove "active" (MainJs.tab_classList u)))
                         (MainJs.tabs s))) s))
    as (Hmode & Hstaged & Haccept).
  split; [exact Hmode|]. split; [exact Hstaged|]. split; [exact Haccept|].
  intros j u Hu.
  unfold MainJs.updateUploader.
  cbn [MainJs.tabs MainJs.set_menu MainJs.set_dropArea MainJs.set_currentMode
       MainJs.set_tabs].
  destruct (decide (j = i)) as [->|Hne].
  - rewrite list_lookup_alter_eq, list_lookup_fmap, Hu. cbn.
    eexists. split; [reflexivity|]. cbn [MainJs.data_tab MainJs.tab_classList].
    split; [reflexivity|].
    rewrite classList_contains_add. symmetry. apply bool_decide_eq_true_2. reflexivity.
  - rewrite list_lookup_alter_ne by congruence.
    rewrite list_lookup_fmap, Hu. cbn.
    eexists. split; [reflexivity|]. cbn [MainJs.data_tab MainJs.tab_classList].
    split; [reflexivity|].
    rewrite classList_contains_remove. symmetry. apply bool_decide_eq_false_2.
    exact Hne.
Qed.

Lemma mainjs_mode_switch_witness :
  let s := fst (MainJs.step (MainJs.Change [Fixtures.clip]) Fixtures.mainjs_start) in
  let s' := fst (MainJs.step (MainJs.Click (MainJs.Tab 0)) s) in
  MainJs.tabs s !! 0%nat = Some (MainJs.mkTab "text" {[ "tab" ]}) /\
  MainJs.staged s = Some (inr Fixtures.clip) /\
  MainJs.currentMode s' = "text" /\
  MainJs.staged s' = None /\
  MainJs.accept_of s' = None.
Proof.
  intros s s'. subst s'.
  assert (Ht : MainJs.tabs s !! 0%nat = Some (MainJs.mkTab "text" {[ "tab" ]}))
    by reflexivity.
  destruct (mainjs_mode_switch 0 _ s Ht) as (Hmode & Hstaged & Haccept & _).
  split; [exact Ht|]. split; [vm_compute; reflexivity|].
  split; [exact Hmode|]. split; [exact Hstaged | exact Haccept].
Defined.

(** X21: in [Main.js] Clear keeps the mode and rebuilds the widget for
    it, so nothing is staged afterwards; it shows the uploader and hides
    the results.  The result slots keep what the last check wrote. *)
Theorem mainjs_clear_resets (s : MainJs.state) :
  let s' := fst (MainJs.step (MainJs.Click MainJs.ClearBtn) s) in
  MainJs.currentMode s' = MainJs.currentMode s /\
  MainJs.dropArea s' = MainJs.dropArea (MainJs.updateUploader (MainJs.currentMode s) s) /\
  MainJs.staged s' = None /\
  MainJs.uploader_active s' = true /\
  MainJs.results_active s' = false /\
  MainJs.slots s' = MainJs.slots s /\
  snd (MainJs.step (MainJs.Click MainJs.ClearBtn) s) = [].
Proof.
  cbv zeta.
  destruct (mainjs_clear_restores s) as [Hup Hres].
  split; [reflexivity|]. split; [reflexivity|].
  split; [|split; [exact Hup|split; [exact Hres|split; reflexivity]]].
  cbn [MainJs.step fst]. unfold MainJs.document_click, MainJs.clearBtn_click.
  change (MainJs.staged (MainJs.set_menu ?m ?x)) with (MainJs.staged x).
  change (MainJs.staged (MainJs.set_results_classList ?m ?x)) with (MainJs.staged x).
  change (MainJs.staged (MainJs.set_uploader_classList ?m ?x)) with (MainJs.staged x).
  apply updateUploader_discards.
Qed.

(** X22: in [Main.js] nothing ever deactivates the uploader: it is
    active on every page reached after loading, whatever the events. *)
Theorem mainjs_uploader_always_active (page : MainJs.state) (es : list MainJs.event) :
  MainJs.uploader_active (fst (Loop.run MainJs.step es (MainJs.load page))) = true.
Proof.
  apply loop_invariant.
  - intros e s Hs.
    destruct e as [[| text | i | | |] | files | text |]; cbn [MainJs.step fst];
      try exact Hs.
    + destruct (MainJs.tabs s !! i); exact Hs.
    + apply mainjs_clear_restores.
    + unfold MainJs.uploader_active, MainJs.document_click, MainJs.checkBtn_click.
      cbn [fst MainJs.uploader_classList MainJs.set_menu MainJs.set_timers
           MainJs.set_slots MainJs.set_results_classList
           MainJs.set_uploader_classList].
      apply classList_contains_add.
    + unfold MainJs.newInput_change, MainJs.choose_files.
      destruct (MainJs.dropArea s) eqn:Hdrop; [rewrite Hdrop; exact Hs|].
      cbn [MainJs.dropArea MainJs.set_dropArea]. destruct (head files); exact Hs.
    + unfold MainJs.type_text. destruct (MainJs.dropArea s); exact Hs.
    + unfold MainJs.progress_timeout. destruct (MainJs.timers s); exact Hs.
  - unfold MainJs.uploader_active, MainJs.load, MainJs.updateUploader.
    cbn [MainJs.uploader_classList MainJs.set_menu MainJs.set_dropArea
         MainJs.set_currentMode MainJs.set_timers MainJs.set_results_classList
         MainJs.set_uploader_classList].
    apply classList_contains_add.
Qed.

(** X23: in the first mock-up exactly one of the two panels is active
    on every page reached after loading.  Loading shows the uploader;
    the check button shows the results and hides the uploader, Clear
    does the opposite, and no other event touches the class list of
    either panel. *)
Theorem mockup_panels_exclusive (page : Mockup.state) (es : list Mockup.event) :
  (let s := fst (Loop.run Mockup.step es (Mockup.load page)) in
   Mockup.uploader_active s = negb (Mockup.results_active s)) /\
  (Mockup.uploader_active (Mockup.load page) = true /\
   Mockup.results_active (Mockup.load page) = false) /\
  (forall s,
     let s' := fst (Mockup.step (Mockup.Click Mockup.CheckBtn) s) in
     Mockup.uploader_active s' = false /\ Mockup.results_active s' = true) /\
  (forall s,
     let s' := fst (Mockup.step (Mockup.Click Mockup.ClearBtn) s) in
     Mockup.uploader_active s' = true /\ Mockup.results_active s' = false) /\
  (forall e s,
     e <> Mockup.Click Mockup.CheckBtn ->
     e <> Mockup.Click Mockup.ClearBtn ->
     Mockup.uploader_classList (fst (Mockup.step e s)) = Mockup.uploader_classList s /\
     Mockup.results_classList (fst (Mockup.step e s)) = Mockup.results_classList s).
Proof.
  assert (Hload : Mockup.uploader_active (Mockup.load page) = true /\
                  Mockup.results_active (Mockup.load page) = false).
  { unfold Mockup.uploader_active, Mockup.results_active, Mockup.load.
    cbn [Mockup.uploader_classList Mockup.results_classList Mockup.set_menu
         Mockup.set_timers Mockup.set_fileName_text Mockup.set_results_classList
         Mockup.set_uploader_classList].
    split; [apply classList_contains_add | apply classList_contains_remove]. }
  assert (Hclear : forall s,
            Mockup.uploader_active (fst (Mockup.step (Mockup.Click Mockup.ClearBtn) s))
              = true /\
            Mockup.results_active (fst (Mockup.step (Mockup.Click Mockup.ClearBtn) s))
              = false).
  { intros s. cbn [Mockup.step fst].
    unfold Mockup.uploader_active, Mockup.results_active, Mockup.document_click,
           Mockup.clearBtn_click.
    cbn [Mockup.uploader_classList Mockup.results_classList Mockup.set_menu
         Mockup.set_results_classList Mockup.set_uploader_classList].
    split; [apply classList_contains_add | apply classList_contains_remove]. }
  assert (Hframe : forall e s,
            e <> Mockup.Click Mockup.CheckBtn ->
            e <> Mockup.Click Mockup.ClearBtn ->
            Mockup.uploader_classList (fst (Mockup.step e s))
              = Mockup.uploader_classList s /\
            Mockup.results_classList (fst (Mockup.step e s))
              = Mockup.results_classList s).
  { intros e s Hcheck Hclr.
    destruct e as [[| text | i | | |] | files |]; cbn [Mockup.step fst];
      try (split; reflexivity); try contradiction.
    - unfold Mockup.fileInput_change. destruct (head _); split; reflexivity.
    - unfold Mockup.progress_timeout. destruct (Mockup.timers s); split; reflexivity. }
  split; [|split; [exact Hload|split; [apply mockup_check_switches|split;
                                       [exact Hclear | exact Hframe]]]].
  cbv zeta. apply loop_invariant.
  - intros e s Hs.
    assert (Hother : e <> Mockup.Click Mockup.CheckBtn ->
                     e <> Mockup.Click Mockup.ClearBtn ->
                     Mockup.uploader_active (fst (Mockup.step e s))
                     = negb (Mockup.results_active (fst (Mockup.step e s)))).
    { intros Hcheck Hclr. destruct (Hframe e s Hcheck Hclr) as [Hup Hres].
      unfold Mockup.uploader_active, Mockup.results_active in *.
      rewrite Hup, Hres. exact Hs. }
    destruct e as [[| text | i | | |] | files |];
      try (apply Hother; discriminate).
    + destruct (Hclear s) as [Hup Hres]. rewrite Hup, Hres. reflexivity.
    + destruct (mockup_check_switches s) as [Hup Hres]. cbv zeta in Hup, Hres.
      rewrite Hup, Hres. reflexivity.
  - destruct Hload as [Hup Hres]. rewrite Hup, Hres. reflexivity.
Qed.

Lemma mockup_panels_exclusive_witness :
  let file := mkFile "a.mov" 1 "video/quicktime" in
  Mockup.Change [file] <> Mockup.Click Mockup.CheckBtn /\
  Mockup.Change [file] <> Mockup.Click Mockup.ClearBtn /\
  Mockup.results_classList
    (fst (Mockup.step (Mockup.Change [file]) (Mockup.load Fixtures.mockup_page)))
  = Mockup.results_classList (Mockup.load Fixtures.mockup_page).
Proof.
  intros file.
  assert (Hcheck : Mockup.Change [file] <> Mockup.Click Mockup.CheckBtn)
    by discriminate.
  assert (Hclr : Mockup.Change [file] <> Mockup.Click Mockup.ClearBtn)
    by discriminate.
  destruct (mockup_panels_exclusive Fixtures.mockup_page [])
    as (_ & _ & _ & _ & Hframe).
  split; [exact Hcheck|]. split; [exact Hclr|].
  exact (proj2 (Hframe _ (Mockup.load Fixtures.mockup_page) Hcheck Hclr)).
Defined.

End MockupProperties.

(** ** The accordions *)

Section AccordionProperties.
Import Accordion.

Lemma toggle_flips (c : string) (l : gset string) :
  ClassList.contains c (toggle c l) = negb (ClassList.contains c l).
Proof.
  unfold toggle. destruct (ClassList.contains c l) eqn:Hc; cbn [negb].
  - apply classList_contains_remove.
  - apply classList_contains_add.
Qed.

Lemma toggle_twice (c : string) (l : gset string) : toggle c (toggle c l) = l.
Proof.
  pose proof (toggle_flips c l) as Hflip.
  unfold toggle at 1. rewrite Hflip.
  unfold toggle, ClassList.contains, ClassList.add, ClassList.remove in *.
  destruct (bool_decide (c ∈ l)) eqn:Hc; cbn [negb].
  - apply bool_decide_eq_true_1 in Hc.
    apply set_eq. intros x.
    rewrite elem_of_union, elem_of_difference, elem_of_singleton.
    destruct (decide (x = c)) as [->|Hne]; tauto.
  - apply bool_decide_eq_false_1 in Hc.
    apply set_eq. intros x.
    rewrite elem_of_difference, elem_of_union, elem_of_singleton.
    destruct (decide (x = c)) as [->|Hne]; tauto.
Qed.

(** An accordion whose symbol is what [updateSymbol] would make it. *)
Lemma updateSymbol_idem (caret : bool) (a : accordion) :
  updateSymbol caret (updateSymbol caret a) = updateSymbol caret a.
Proof. unfold updateSymbol. cbn. destruct caret; reflexivity. Qed.

Lemma click_settled (caret : bool) (i : nat) (accs : list accordion) :
  Forall (fun a => updateSymbol caret a = a) accs ->
  Forall (fun a => updateSymbol caret a = a) (click caret i accs).
Proof.
  intros Hall. unfold click. revert i.
  induction Hall as [|a rest Ha Hrest IH]; intros [|i]; cbn.
  - constructor.
  - constructor.
  - constructor; [|exact Hrest]. unfold header_click. apply updateSymbol_idem.
  - constructor; [exact Ha | apply IH].
Qed.

Lemma clicks_settled (caret : bool) (indices : list nat) (page : list accordion) :
  Forall (fun a => updateSymbol caret a = a)
         (clicks caret indices (initAccordions caret page)).
Proof.
  assert (Hinit : Forall (fun a => updateSymbol caret a = a) (initAccordions caret page)).
  { unfold initAccordions. induction page as [|a rest IH]; cbn; constructor.
    - apply updateSymbol_idem.
    - exact IH. }
  revert Hinit. generalize (initAccordions caret page) as accs.
  induction indices as [|i rest IH]; intros accs Hall; cbn [clicks]; [exact Hall|].
  apply IH. apply click_settled. exact Hall.
Qed.

(** X24: after initialisation and any sequence of clicks on accordion
    headers, the caret of every accordion is rotated by 180 degrees
    exactly when its body has the class [show], and not at all
    otherwise; the number of accordions never changes.  In the
    mock-ups the symbol moreover always reads as the caret character. *)
Theorem accordion_symbol_tracks_body (caret : bool) (indices : list nat)
    (page : list accordion) :
  let accs := clicks caret indices (initAccordions caret page) in
  length accs = length page /\
  forall j a, accs !! j = Some a ->
    symbol_transform a = (if is_open a then "rotate(180deg)" else "rotate(0deg)") /\
    (caret = true -> symbol_textContent a = "^").
Proof.
  intros accs. split.
  - subst accs.
    assert (Hlen : length (initAccordions caret page) = length page)
      by apply length_map.
    rewrite <- Hlen. generalize (initAccordions caret page) as l.
    induction indices as [|i rest IH]; intros l; cbn [clicks]; [reflexivity|].
    rewrite IH. unfold click. apply length_alter.
  - intros j a Ha.
    pose proof (clicks_settled caret indices page) as Hall.
    rewrite Forall_forall in Hall.
    specialize (Hall a (list_elem_of_lookup_2 _ _ _ Ha)).
    rewrite <- Hall at 1 3. unfold updateSymbol, is_open.
    cbn [symbol_transform symbol_textContent body_classList].
    split; [reflexivity|]. intros ->. reflexivity.
Qed.

Lemma accordion_symbol_tracks_body_witness :
  let page := [mkAccordion {[ "acc-body" ]} "" "v";
               mkAccordion {[ "acc-body"; "show" ]} "" "v"] in
  let accs := clicks false [0%nat; 1%nat; 0%nat] (initAccordions false page) in
  exists a, accs !! 1%nat = Some a /\
            is_open a = false /\ symbol_transform a = "rotate(0deg)".
Proof.
  intros page accs.
  assert (Ha : exists a, accs !! 1%nat = Some a /\ is_open a = false).
  { eexists. split; [reflexivity | vm_compute; reflexivity]. }
  destruct Ha as (a & Ha & Hclosed).
  exists a. split; [exact Ha|]. split; [exact Hclosed|].
  destruct (accordion_symbol_tracks_body false [0%nat; 1%nat; 0%nat] page)
    as [_ Htrack].
  destruct (Htrack 1%nat a Ha) as [Hsymbol _].
  rewrite Hsymbol, Hclosed. reflexivity.
Defined.

(** X25: a click on the header of an accordion flips whether its body
    is shown and leaves every other accordion untouched; a second click
    on the same header restores the whole list exactly. *)
Theorem accordion_click_toggles (caret : bool) (indices : list nat)
    (page : list accordion) (i : nat) :
  let accs := clicks caret indices (initAccordions caret page) in
  (forall a, accs !! i = Some a ->
     exists a', click caret i accs !! i = Some a' /\ is_open a' = negb (is_open a)) /\
  (forall j, j <> i -> click caret i accs !! j = accs !! j) /\
  click caret i (click caret i accs) = accs.
Proof.
  cbv zeta.
  pose proof (clicks_settled caret indices page) as Hall. revert Hall.
  generalize (clicks caret indices (initAccordions caret page)) as accs.
  intros accs Hall.
  split; [|split].
  - intros a Ha. unfold click. rewrite list_lookup_alter_eq, Ha. cbn.
    eexists. split; [reflexivity|].
    unfold header_click, updateSymbol, is_open. cbn [body_classList].
    apply toggle_flips.
  - intros j Hne. unfold click. apply list_lookup_alter_ne. congruence.
  - unfold click.
    revert i. induction Hall as [|a rest Ha Hrest IH]; intros [|i]; cbn.
    + reflexivity.
    + reflexivity.
    + f_equal. rewrite <- Ha at 2.
      unfold header_click, updateSymbol. cbn [body_classList symbol_textContent].
      rewrite toggle_twice.
      destruct caret; reflexivity.
    + f_equal. apply IH.
Qed.

Lemma accordion_click_toggles_witness :
  let page := [mkAccordion {[ "acc-body" ]} "" "v";
               mkAccordion {[ "acc-body"; "show" ]} "" "v"] in
  let accs := clicks true [1%nat] (initAccordions true page) in
  (1 <> 0)%nat /\
  click true 0 accs !! 1%nat = accs !! 1%nat /\
  click true 0 (click true 0 accs) = accs.
Proof.
  intros page accs.
  assert (Hne : (1 <> 0)%nat) by discriminate.
  destruct (accordion_click_toggles true [1%nat] page 0) as (_ & Hother & Htwice).
  split; [exact Hne|]. split; [exact (Hother 1%nat Hne) | exact Htwice].
Defined.

End AccordionProperties.

(** ** A whole submission *)

Section CycleProperties.
Import Backend.

Lemma run_cons (e : event) (es : list event) (s : state) :
  run (e :: es) s
  = (fst (run es (fst (step e s))),
     (snd (step e s) ++ snd (run es (fst (step e s))))%list).
Proof.
  cbn [run]. destruct (step e s) as [s1 effects1]. cbn [fst snd].
  destruct (run es s1) as [s2 effects2]. reflexivity.
Qed.

(** X26: on a freshly initialised page whose check button is enabled,
    choosing files, pressing the button, a successful response, the
    timer and Clear cause exactly two effects - one POST of the first
    chosen file to the video endpoint with language [en], the defaults
    of a fresh page, and the bar's timer - and end on a page that shows
    the uploader with nothing staged, nothing pending, the button
    enabled and the last result still in the card with its bar filled. *)
Theorem first_submission (page : state) (file : File) (others : list File)
    (status : Z) (data : Api.data) (d : Api.detection_result) :
  disabled (button page) = false ->
  JS.response_ok status = true ->
  Api.detection data = Some d ->
  let percent :=
    JS.number_to_string (JS.Math_round (Api.confidence_score d)) ++ "%" in
  let final :=
    run [Change (file :: others); Click CheckBtn;
         Settle (Responded status (inr data)); TimerFires; Click ClearBtn]
        (initializeApp page) in
  snd final
    = [Fetch {| req_method := "POST";
                req_url := "http://127.0.0.1:8000/api/detect-with-audio?language=en";
                req_file := Some file |};
       SetTimeout 100 percent] /\
  panel (fst final) = Some Uploading /\
  currentFile (fst final) = None /\
  inflight (fst final) = [] /\
  button (fst final) = mkButton false "Check Content" /\
  progressFill_width (card (fst final)) = percent /\
  ClassList.contains (if Api.is_ai_generated d then "ai-result" else "human-result")
                     (resultCard_classList (card (fst final))) = true.
Proof.
  intros Hen Hok Hd percent final.
  set (s0 := initializeApp page).
  set (s1 := fst (step (Change (file :: others)) s0)).
  set (s2 := fst (step (Click CheckBtn) s1)).
  set (o := Responded status (inr data)).
  set (s3 := fst (step (Settle o) s2)).
  set (s4 := fst (step TimerFires s3)).
  assert (Hclick : step (Click CheckBtn) s1
                   = (document_click
                        (set_inflight [video]
                           (set_button (mkButton true "Analyzing...") s1)),
                      [Fetch (analyzeVideo_request "en" file)])).
  { cbn [step click].
    change (disabled (button s1)) with (disabled (button page)). rewrite Hen.
    reflexivity. }
  assert (Heff2 : snd (step (Click CheckBtn) s1)
                  = [Fetch (analyzeVideo_request "en" file)])
    by (rewrite Hclick; reflexivity).
  assert (Hpending : inflight s2 = [video]) by (unfold s2; rewrite Hclick; reflexivity).
  assert (Htimers : timers s2 = []) by (unfold s2; rewrite Hclick; reflexivity).
  assert (Hfile : currentFile s2 = Some file)
    by (unfold s2; rewrite Hclick; reflexivity).
  destruct (settle_then_timer video [] status data d s2 Hpending Htimers Hok Hd)
    as (Heff3 & Heff4 & _ & _ & Hbar & _ & Hcard & Hrest & Hclass).
  fold o s3 s4 percent in Heff3, Heff4, Hbar, Hcard, Hrest, Hclass.
  destruct (clear_panel_only s4) as (Hpanel & Hnone & Hin & Hbtn & Hkeep).
  assert (Hfinal : final = (fst (step (Click ClearBtn) s4),
                            [Fetch (analyzeVideo_request "en" file);
                             SetTimeout 100 percent])).
  { unfold final. rewrite !run_cons. cbn [run fst snd].
    fold s0. fold s1. fold s2. fold o. fold s3. fold s4.
    rewrite Heff2, Heff3, Heff4. reflexivity. }
  rewrite Hfinal. cbn [fst snd].
  injection Hcard as _ _ _ _ Hclasses. injection Hrest as Hrest3 Hbtn3 _.
  split; [reflexivity|]. split; [exact Hpanel|]. split; [exact Hnone|].
  split; [rewrite Hin; exact Hrest3|]. split; [rewrite Hbtn; exact Hbtn3|].
  rewrite Hkeep. split; [exact Hbar|]. rewrite Hclasses. exact Hclass.
Qed.

Lemma first_submission_witness :
  disabled (button Fixtures.backend_page) = false /\
  JS.response_ok 200 = true /\
  snd (run [Change [Fixtures.clip]; Click CheckBtn;
            Settle (Responded 200 (inr Fixtures.ai_91_4)); TimerFires; Click ClearBtn]
           (initializeApp Fixtures.backend_page))
  = [Fetch {| req_method := "POST";
              req_url := "http://127.0.0.1:8000/api/detect-with-audio?language=en";
              req_file := Some Fixtures.clip |};
     SetTimeout 100 "91%"].
Proof.
  assert (Hen : disabled (button Fixtures.backend_page) = false) by reflexivity.
  assert (Hok : JS.response_ok 200 = true) by reflexivity.
  split; [exact Hen|]. split; [exact Hok|].
  destruct (first_submission Fixtures.backend_page Fixtures.clip [] 200
              Fixtures.ai_91_4 _ Hen Hok eq_refl) as (Heffects & _).
  rewrite Heffects. vm_compute. reflexivity.
Defined.

End CycleProperties.

(** ** The panels of the backend-integrated controller *)

Section PanelMachine.
Import Backend.

Lemma panels_kept (e : event) (s : state) :
  e <> Click ClearBtn ->
  (forall o, e = Settle o -> Terms.succeeded o = false \/ inflight s = []) ->
  uploader_classList (fst (step e s)) = uploader_classList s /\
  results_classList (fst (step e s)) = results_classList s.
Proof.
  intros Hclr Hsettle.
  destruct e as [[| text | i | | |] | files | files | o |]; cbn [step click fst];
    try (split; reflexivity); try contradiction.
  - destruct (tabs s !! i); split; reflexivity.
  - destruct (disabled (button s)); [split; reflexivity|].
    destruct (checkBtn_click_panels s) as [Hu Hr].
    destruct (checkBtn_click s) as [s1 effects]. cbn [fst] in *.
    split; assumption.
  - unfold fileInput_change. destruct (head _); split; reflexivity.
  - unfold dropArea_drop, fileInput_change.
    destruct (head files); [|split; reflexivity]. destruct (head _); split; reflexivity.
  - destruct (inflight s) as [|t rest]; [split; reflexivity|].
    destruct (Hsettle o eq_refl) as [Hfail | Hnone]; [|discriminate].
    pose proof (analyze_resume_succeeded t o) as Hres. rewrite Hfail in Hres.
    destruct Hres as [thrown Hthrown].
    unfold checkBtn_resume. rewrite Hthrown. split; reflexivity.
  - unfold progress_timeout. destruct (timers s); split; reflexivity.
Qed.

(** X27: in the backend-integrated controller exactly one of the two
    panels is active on every page reached from initialisation.  The
    page starts in Uploading; a click on Clear always leads to
    Uploading; the settling of a pending request leads to
    ShowingResults when it succeeds; and no other event - a failed
    settle included - changes the class list of either panel. *)
Theorem backend_panel_machine (page : state) (es : list event) :
  (let s := fst (run es (initializeApp page)) in
   panel s = Some Uploading \/ panel s = Some ShowingResults) /\
  panel (initializeApp page) = Some Uploading /\
  (forall s, panel (fst (step (Click ClearBtn) s)) = Some Uploading) /\
  (forall t rest o s,
     inflight s = t :: rest ->
     Terms.succeeded o = true ->
     panel (fst (step (Settle o) s)) = Some ShowingResults) /\
  (forall e s,
     e <> Click ClearBtn ->
     (forall o, e = Settle o -> Terms.succeeded o = false \/ inflight s = []) ->
     uploader_classList (fst (step e s)) = uploader_classList s /\
     results_classList (fst (step e s)) = results_classList s).
Proof.
  destruct (backend_panels_exclusive page es) as (Hinit & Hex & _).
  split; [|split; [exact Hinit|split; [exact (proj1 backend_panel_transitions)|split]]].
  - cbv zeta. unfold Spec.exclusive in Hex. unfold panel. rewrite Hex.
    destruct (results_active _); [right | left]; reflexivity.
  - intros t rest o s Hpending Hok.
    pose proof (analyze_resume_succeeded t o) as Hres. rewrite Hok in Hres.
    destruct Hres as (r & Hr & _).
    cbn [step]. rewrite Hpending. unfold checkBtn_resume. rewrite Hr.
    rewrite (surjective_pairing (displayResults _ _)). cbn [fst snd].
    unfold panel, uploader_active, results_active, finally_block.
    cbn [uploader_classList results_classList set_button set_results_classList
         set_uploader_classList].
    rewrite classList_contains_add, classList_contains_remove. reflexivity.
  - apply panels_kept.
Qed.

Lemma backend_panel_machine_witness :
  let o := Responded 200 (inr Fixtures.ai_91_4) in
  let shown := fst (step (Settle o) Fixtures.backend_waiting) in
  inflight Fixtures.backend_waiting = [video] /\
  Terms.succeeded o = true /\
  panel Fixtures.backend_waiting = Some Uploading /\
  panel shown = Some ShowingResults /\
  Click (Tab 1) <> Click ClearBtn /\
  results_classList (fst (step (Click (Tab 1)) shown)) = results_classList shown /\
  panel (fst (step (Click ClearBtn) shown)) = Some Uploading.
Proof.
  intros o shown.
  assert (Hpending : inflight Fixtures.backend_waiting = [video])
    by (vm_compute; reflexivity).
  assert (Hok : Terms.succeeded o = true) by (vm_compute; reflexivity).
  assert (Hne : Click (Tab 1) <> Click ClearBtn) by discriminate.
  destruct (backend_panel_machine Fixtures.backend_page [])
    as (_ & _ & Hclear & Hshow & Hkeep).
  split; [exact Hpending|]. split; [exact Hok|].
  split; [vm_compute; reflexivity|].
  split; [exact (Hshow video [] o Fixtures.backend_waiting Hpending Hok)|].
  split; [exact Hne|]. split.
  - apply (Hkeep (Click (Tab 1)) shown Hne). intros o' Hsettle. discriminate.
  - apply Hclear.
Defined.

End PanelMachine.
